(** * CollabSphere backend

    A shallow embedding of the membership authorization checks
    ([api/permissions.py]), the audit logger ([api/services.py]), the task
    lifecycle code and the two heuristic endpoints ([api/views.py]) together
    with the parts of [api/models.py] and [api/serializers.py] they use.

    Python objects become records, database tables become lists of rows kept
    in primary-key order, and a view becomes a function in a small state and
    exception monad over a [World] holding the database, the wall clock and
    the module logger. *)

From Stdlib Require Import ZArith List String Ascii Bool Lia Floats DecimalString.
Import ListNotations.
Set Warnings "-inexact-float".
#[local] Open Scope string_scope.
#[local] Open Scope Z_scope.

(* ===================================================================== *)
(** ** Python values, dictionaries and exceptions *)
(* ===================================================================== *)

Module py.

(** The values a URL keyword argument or a request body entry can hold. *)
Inductive value :=
| PyNone
| PyBool (b : bool)
| PyInt (z : Z)
| PyStr (s : string).

(** Python truthiness: [None], [False], [0] and [""] are falsy. *)
Definition truthy (v : value) : bool :=
  match v with
  | PyNone => false
  | PyBool b => b
  | PyInt z => negb (z =? 0)
  | PyStr s => negb (s =? "")%string
  end.

(** [a or b] *)
Definition or_ (a b : value) : value := if truthy a then a else b.

(** [s or t] on strings. *)
Definition str_or (s t : string) : string := if (s =? "")%string then t else s.

(** A dictionary with string keys; [get] is [dict.get(k)], which answers
    [None] for a missing key. *)
Definition dict := list (string * value).

Fixpoint get (d : dict) (k : string) : value :=
  match d with
  | [] => PyNone
  | (k', v) :: d' => if (k =? k')%string then v else get d' k
  end.

(** [k in text] on strings. *)
Fixpoint contains (k text : string) : bool :=
  if String.prefix k text then true
  else match text with
       | EmptyString => false
       | String _ rest => contains k rest
       end.

(** [any(k in text for k in keywords)] *)
Definition any_in (keywords : list string) (text : string) : bool :=
  existsb (fun k => contains k text) keywords.

(** The exceptions the modelled code raises or meets.  [ValidationError
    field msg] is the validation error whose detail is the dictionary with
    the one key [field]; [ValidationErrors detail] is the one whose detail
    has several keys, as a serializer raises when several fields fail.
    [KeyboardInterrupt] stands for the classes that derive from
    [BaseException] only. *)
Inductive exn :=
| ValidationError (field msg : string)
| ValidationErrors (detail : list (string * string))
| PermissionDenied (msg : string)
| Http404
| TypeError (msg : string)
| ValueError (msg : string)
| DoesNotExist (model : string)
| IntegrityError
| DatabaseError (msg : string)
| KeyboardInterrupt.

(** [isinstance(e, Exception)], what [except Exception] catches. *)
Definition isinstance_Exception (e : exn) : bool :=
  match e with
  | KeyboardInterrupt => false
  | _ => true
  end.

(** [e.detail] of a validation error, as the list of its entries. *)
Definition detail (e : exn) : list (string * string) :=
  match e with
  | ValidationError field msg => [(field, msg)]
  | ValidationErrors detail => detail
  | _ => []
  end.

(** [isinstance(e, ValidationError)] *)
Definition is_ValidationError (e : exn) : bool :=
  match e with
  | ValidationError _ _ | ValidationErrors _ => true
  | _ => false
  end.

End py.

(* ===================================================================== *)
(** ** api/models.py *)
(* ===================================================================== *)

Module models.

(** An aware [datetime], in microseconds since the epoch; a [timedelta] is a
    number of microseconds. *)
Definition datetime := Z.
Definition timedelta := Z.
Definition timedelta_days (d : Z) : timedelta := d * 86400000000.

(** Rows of [settings.AUTH_USER_MODEL]. *)
Module User.
Record t := { id : Z; username : string; email : string }.
End User.

Module Team.
Record t := {
  id : Z;
  name : string;
  description : string;
  created_by_id : Z;
  created_at : datetime;
  updated_at : datetime }.
End Team.

Module TeamMembership.
Module Role.
Definition OWNER := "owner".
Definition ADMIN := "admin".
Definition MEMBER := "member".
End Role.
Record t := {
  id : Z;
  team_id : Z;
  user_id : Z;
  role : string;
  created_at : datetime;
  updated_at : datetime }.
End TeamMembership.

Module Project.
Record t := {
  id : Z;
  team_id : Z;
  name : string;
  description : string;
  created_by_id : Z;
  created_at : datetime;
  updated_at : datetime }.
End Project.

Module ProjectMembership.
Module Role.
Definition MANAGER := "manager".
Definition CONTRIBUTOR := "contributor".
Definition VIEWER := "viewer".
End Role.
Record t := {
  id : Z;
  project_id : Z;
  user_id : Z;
  role : string;
  created_at : datetime;
  updated_at : datetime }.
End ProjectMembership.

Module Task.
Module Status.
Definition TODO := "todo".
Definition IN_PROGRESS := "in_progress".
Definition BLOCKED := "blocked".
Definition DONE := "done".
End Status.
Module Priority.
Definition LOW := 1.
Definition MEDIUM := 2.
Definition HIGH := 3.
Definition URGENT := 4.
End Priority.
Record t := {
  id : Z;
  project_id : Z;
  title : string;
  description : string;
  status : string;
  priority : Z;
  created_by_id : Z;
  assignee_id : option Z;
  due_date : option datetime;
  start_date : option datetime;
  completed_at : option datetime;
  created_at : datetime;
  updated_at : datetime }.

Definition set_completed_at (v : option datetime) (x : t) : t :=
  {| id := id x; project_id := project_id x; title := title x;
     description := description x; status := status x;
     priority := priority x; created_by_id := created_by_id x;
     assignee_id := assignee_id x; due_date := due_date x;
     start_date := start_date x; completed_at := v;
     created_at := created_at x; updated_at := updated_at x |}.

Definition set_updated_at (v : datetime) (x : t) : t :=
  {| id := id x; project_id := project_id x; title := title x;
     description := description x; status := status x;
     priority := priority x; created_by_id := created_by_id x;
     assignee_id := assignee_id x; due_date := due_date x;
     start_date := start_date x; completed_at := completed_at x;
     created_at := created_at x; updated_at := v |}.
End Task.

(** The [metadata] JSON object of an activity log entry. *)
Inductive json :=
| JInt (z : Z)
| JStr (s : string)
| JFloat (f : float)
| JStrList (l : list string).

Module ActivityLog.
Module EventType.
Definition TEAM_CREATED := "team_created".
Definition TEAM_MEMBER_ADDED := "team_member_added".
Definition PROJECT_CREATED := "project_created".
Definition PROJECT_MEMBER_ADDED := "project_member_added".
Definition TASK_CREATED := "task_created".
Definition TASK_UPDATED := "task_updated".
Definition TASK_STATUS_CHANGED := "task_status_changed".
Definition TASK_COMMENTED := "task_commented".
Definition AI_PRIORITY_SUGGESTED := "ai_priority_suggested".
Definition AI_DELAY_RISK_PREDICTED := "ai_delay_risk_predicted".
End EventType.
(** [id] and [updated_at] are [None] on an instance that was never saved. *)
Record t := {
  id : option Z;
  actor_id : option Z;
  event_type : string;
  message : string;
  team_id : option Z;
  project_id : option Z;
  task_id : option Z;
  metadata : list (string * json);
  created_at : datetime;
  updated_at : option datetime }.
End ActivityLog.

End models.

(* ===================================================================== *)
(** ** The database, the world and the monad of views *)
(* ===================================================================== *)

Module orm.
Import models.

(** The tables.  Rows are kept in primary-key order (a row is appended with
    a fresh, larger key), so the head of a filtered table is what
    [QuerySet.first()] answers. *)
Record Store := {
  users : list User.t;
  teams : list Team.t;
  team_memberships : list TeamMembership.t;
  projects : list Project.t;
  project_memberships : list ProjectMembership.t;
  tasks : list Task.t;
  activity_logs : list ActivityLog.t }.

Definition set_team_memberships (v : list TeamMembership.t) (s : Store) :=
  {| users := users s; teams := teams s; team_memberships := v;
     projects := projects s; project_memberships := project_memberships s;
     tasks := tasks s; activity_logs := activity_logs s |}.

Definition set_tasks (v : list Task.t) (s : Store) :=
  {| users := users s; teams := teams s;
     team_memberships := team_memberships s;
     projects := projects s; project_memberships := project_memberships s;
     tasks := v; activity_logs := activity_logs s |}.

Definition set_activity_logs (v : list ActivityLog.t) (s : Store) :=
  {| users := users s; teams := teams s;
     team_memberships := team_memberships s;
     projects := projects s; project_memberships := project_memberships s;
     tasks := tasks s; activity_logs := v |}.

(** [qs.first()] and [qs.exists()] *)
Definition first {A} (qs : list A) : option A := hd_error qs.
Definition exists_ {A} (qs : list A) : bool :=
  match qs with [] => false | _ :: _ => true end.

(** [UPDATE table SET ... WHERE cond]: the rows that match are rewritten. *)
Definition update_where {A} (cond : A -> bool) (set : A -> A) (table : list A)
  : list A :=
  map (fun r => if cond r then set r else r) table.

(** A fresh primary key for a table whose keys are [ids]. *)
Definition next_pk (ids : list Z) : Z := 1 + fold_right Z.max 0 ids.

(** A persistence write that reached the database. *)
Inductive write :=
| TeamMembershipInsert (row : TeamMembership.t)
| TaskInsert (row : Task.t)
| TaskSave (update_fields : option (list string)) (row : Task.t)
| ActivityLogInsert (row : ActivityLog.t).

Definition is_task_write (x : write) : bool :=
  match x with
  | TaskInsert _ | TaskSave _ _ => true
  | _ => false
  end.

(** What a view runs in: the database, the wall clock ([clock] is the
    current time, [elapsed] the time that passes until each coming read of
    the clock), the fate of each coming [ActivityLog] insert ([None]: it
    succeeds), the trace of writes (oldest first) and the lines logged. *)
Record World := {
  db : Store;
  clock : datetime;
  elapsed : list N;
  log_faults : list (option py.exn);
  writes : list write;
  logged : list string }.

Definition set_db (v : Store) (w : World) :=
  {| db := v; clock := clock w; elapsed := elapsed w;
     log_faults := log_faults w; writes := writes w; logged := logged w |}.

Definition tick (w : World) : World :=
  {| db := db w; clock := clock w + Z.of_N (hd 0%N (elapsed w));
     elapsed := tl (elapsed w);
     log_faults := log_faults w; writes := writes w; logged := logged w |}.

Definition set_log_faults (v : list (option py.exn)) (w : World) :=
  {| db := db w; clock := clock w; elapsed := elapsed w;
     log_faults := v; writes := writes w; logged := logged w |}.

Definition add_write (x : write) (w : World) :=
  {| db := db w; clock := clock w; elapsed := elapsed w;
     log_faults := log_faults w; writes := writes w ++ [x];
     logged := logged w |}.

Definition add_logged (line : string) (w : World) :=
  {| db := db w; clock := clock w; elapsed := elapsed w;
     log_faults := log_faults w; writes := writes w;
     logged := logged w ++ [line] |}.

(** The result of running Python code: a value or a raised exception.  The
    world is kept in both cases: no modelled view rolls back. *)
Inductive outcome (A : Type) :=
| Return (a : A)
| Raise (e : py.exn).
Arguments Return {A} a.
Arguments Raise {A} e.

Definition M (A : Type) := World -> outcome A * World.

Definition ret {A} (a : A) : M A := fun w => (Return a, w).
Definition raise {A} (e : py.exn) : M A := fun w => (Raise e, w).
Definition bind {A B} (m : M A) (f : A -> M B) : M B :=
  fun w => match m w with
           | (Return a, w') => f a w'
           | (Raise e, w') => (Raise e, w')
           end.
Definition gets {A} (f : World -> A) : M A := fun w => (Return (f w), w).
Definition modify (f : World -> World) : M unit := fun w => (Return tt, f w).

(** [timezone.now()] *)
Definition now : M datetime := fun w => (Return (clock (tick w)), tick w).

End orm.

Declare Scope py_scope.
Delimit Scope py_scope with py.
Notation "x <- m ;; k" := (orm.bind m (fun x => k))
  (at level 61, m at next level, right associativity) : py_scope.
Notation "m ;;; k" := (orm.bind m (fun _ => k))
  (at level 61, right associativity) : py_scope.
#[local] Open Scope py_scope.

(* ===================================================================== *)
(** ** api/permissions.py *)
(* ===================================================================== *)

Module permissions.
Import models orm.

(** [request.user]: Python's [None], Django's [AnonymousUser], or a row of
    the user table (whose [is_authenticated] is always true). *)
Inductive principal :=
| NoUser
| AnonymousUser
| AuthUser (pk : Z).

Definition is_authenticated (user : principal) : bool :=
  match user with AuthUser _ => true | _ => false end.

Record MembershipInfo := { is_member : bool; role : option string }.

Definition _team_membership (s : Store) (user : principal) (team_id : Z)
  : MembershipInfo :=
  match user with
  | AuthUser uid =>
      match first (filter (fun m => (TeamMembership.team_id m =? team_id)
                                    && (TeamMembership.user_id m =? uid))
                          (team_memberships s)) with
      | None => {| is_member := false; role := None |}
      | Some m => {| is_member := true; role := Some (TeamMembership.role m) |}
      end
  | _ => {| is_member := false; role := None |}
  end.

Definition _project_membership (s : Store) (user : principal) (project_id : Z)
  : MembershipInfo :=
  match user with
  | AuthUser uid =>
      match first (filter (fun m => (ProjectMembership.project_id m =? project_id)
                                    && (ProjectMembership.user_id m =? uid))
                          (project_memberships s)) with
      | None => {| is_member := false; role := None |}
      | Some m => {| is_member := true; role := Some (ProjectMembership.role m) |}
      end
  | _ => {| is_member := false; role := None |}
  end.

(** [info.role == r] and [info.role in {r1, r2}] *)
Definition role_is (info : MembershipInfo) (r : string) : bool :=
  match role info with Some x => (x =? r)%string | None => false end.
Definition role_in (info : MembershipInfo) (rs : list string) : bool :=
  match role info with
  | Some x => existsb (fun r => (x =? r)%string) rs
  | None => false
  end.

(** [int(v)] inside [try: ... except (TypeError, ValueError)]: [None] when
    Python raises.  [int_of_str] is [int] on strings. *)
Definition py_int (int_of_str : string -> option Z) (v : py.value) : option Z :=
  match v with
  | py.PyNone => None
  | py.PyBool b => Some (if b then 1 else 0)
  | py.PyInt z => Some z
  | py.PyStr s => int_of_str s
  end.

Module IsAuthenticatedAndProjectMember.
(** [has_object_permission] for a [Task] object. *)
Definition has_object_permission (s : Store) (user : principal) (obj : Task.t)
  : bool :=
  if (Task.project_id obj =? 0) then false
  else is_member (_project_membership s user (Task.project_id obj)).
End IsAuthenticatedAndProjectMember.

Module IsAuthenticatedAndProjectManager.

(** The body of [has_permission] once [project_id_int] is known. *)
Definition check (s : Store) (user : principal) (project_id_int : Z) : bool :=
  let info := _project_membership s user project_id_int in
  if is_member info && role_is info ProjectMembership.Role.MANAGER then true
  else
    match first (filter (fun p => Project.id p =? project_id_int) (projects s)) with
    | None => false
    | Some project =>
        let team_info := _team_membership s user (Project.team_id project) in
        is_member team_info
        && role_in team_info [TeamMembership.Role.OWNER; TeamMembership.Role.ADMIN]
    end.

Definition has_permission (int_of_str : string -> option Z)
    (s : Store) (user : principal) (view_kwargs request_data : py.dict) : bool :=
  let project_id :=
    py.or_ (py.or_ (py.get view_kwargs "project_pk")
                   (py.get request_data "project"))
           (py.get request_data "project_id") in
  if negb (py.truthy project_id) then false
  else
    match py_int int_of_str project_id with
    | None => false
    | Some project_id_int => check s user project_id_int
    end.

End IsAuthenticatedAndProjectManager.

End permissions.

(* ===================================================================== *)
(** ** api/services.py *)
(* ===================================================================== *)

Module services.
Import models orm permissions.

(** [try: body except <classes>: handler] *)
Definition try_except {A} (body : M A) (catches : py.exn -> bool)
    (handler : M A) : M A :=
  fun w => match body w with
           | (Raise e, w') => if catches e then handler w' else (Raise e, w')
           | r => r
           end.

(** [logger.exception(line)] *)
Definition logger_exception (line : string) : M unit := modify (add_logged line).

(** [ActivityLog.objects.create(...)]: [Model.save] stamps [updated_at]
    ([auto_now]) and inserts the row, unless the store refuses the insert. *)
Definition ActivityLog_objects_create (x : ActivityLog.t) : M ActivityLog.t :=
  stamp <- now;;
  fun w =>
    match log_faults w with
    | Some e :: rest => (Raise e, set_log_faults rest w)
    | rest =>
        let pk := next_pk (flat_map (fun r => match ActivityLog.id r with
                                              | Some i => [i] | None => [] end)
                                    (activity_logs (db w))) in
        let row :=
          {| ActivityLog.id := Some pk;
             ActivityLog.actor_id := ActivityLog.actor_id x;
             ActivityLog.event_type := ActivityLog.event_type x;
             ActivityLog.message := ActivityLog.message x;
             ActivityLog.team_id := ActivityLog.team_id x;
             ActivityLog.project_id := ActivityLog.project_id x;
             ActivityLog.task_id := ActivityLog.task_id x;
             ActivityLog.metadata := ActivityLog.metadata x;
             ActivityLog.created_at := ActivityLog.created_at x;
             ActivityLog.updated_at := Some stamp |} in
        (Return row,
         add_write (ActivityLogInsert row)
           (set_db (set_activity_logs (activity_logs (db w) ++ [row]) (db w))
              (set_log_faults (tl rest) w)))
    end.

(** The parameters of [create_activity_log], all keyword-only; a related
    object is held by its primary key. *)
Record params := {
  actor : principal;
  event_type : string;
  message : string;
  team : option Z;
  project : option Z;
  task : option Z;
  metadata : option (list (string * json)) }.

(** [actor if getattr(actor, "is_authenticated", False) else None] *)
Definition actor_or_none (a : principal) : option Z :=
  match a with AuthUser pk => Some pk | _ => None end.

(** [metadata or {}] *)
Definition metadata_or_empty (m : option (list (string * json)))
  : list (string * json) :=
  match m with Some (x :: l) => x :: l | _ => [] end.

(** The instance both branches build; [created_at] is passed explicitly in
    the [try] branch and takes its default, [timezone.now], in the other. *)
Definition unsaved (p : params) (created : datetime) : ActivityLog.t :=
  {| ActivityLog.id := None;
     ActivityLog.actor_id := actor_or_none (actor p);
     ActivityLog.event_type := event_type p;
     ActivityLog.message := message p;
     ActivityLog.team_id := team p;
     ActivityLog.project_id := project p;
     ActivityLog.task_id := task p;
     ActivityLog.metadata := metadata_or_empty (metadata p);
     ActivityLog.created_at := created;
     ActivityLog.updated_at := None |}.

Definition create_activity_log (p : params) : M ActivityLog.t :=
  try_except
    (created <- now;;
     ActivityLog_objects_create (unsaved p created))
    py.isinstance_Exception
    (logger_exception ("Failed to create ActivityLog event_type=" ++ event_type p);;;
     created <- now;;
     ret (unsaved p created)).

(** *** Calling [create_activity_log] with keyword arguments *)

(** What a caller passes for a keyword. *)
Inductive arg :=
| AUser (u : principal)
| AStr (s : string)
| AInt (z : Z)
| ATeam (pk : Z)
| AProject (pk : Z)
| ATask (pk : Z)
| AMeta (m : list (string * json)).

Definition kwargs := list (string * arg).

Definition parameter_names : list string :=
  ["actor"; "event_type"; "message"; "team"; "project"; "task"; "metadata"].

Fixpoint unexpected_keyword (kw : kwargs) : option string :=
  match kw with
  | [] => None
  | (k, _) :: rest =>
      if existsb (String.eqb k) parameter_names then unexpected_keyword rest
      else Some k
  end.

Fixpoint lookup (kw : kwargs) (k : string) : option arg :=
  match kw with
  | [] => None
  | (k', v) :: rest => if (k =? k')%string then Some v else lookup rest k
  end.

(** Python binds the keywords to the signature before the body runs: a
    keyword that is no parameter, or a missing required one, raises
    [TypeError] at the call.  The callers in [views.py] pass values of the
    kind each parameter expects; a value of another kind is refused with
    [ValueError], as the descriptor of a relation refuses, in both branches
    of the body, what is no instance of its model. *)
Definition call_create_activity_log (kw : kwargs) : M ActivityLog.t :=
  match unexpected_keyword kw with
  | Some k =>
      raise (py.TypeError
        ("create_activity_log() got an unexpected keyword argument '" ++ k ++ "'"))
  | None =>
      match lookup kw "actor", lookup kw "event_type" with
      | Some (AUser a), Some (AStr e) =>
          match lookup kw "message", lookup kw "team", lookup kw "project",
                lookup kw "task", lookup kw "metadata" with
          | (None | Some (AStr _)) as m, (None | Some (ATeam _)) as t,
            (None | Some (AProject _)) as p, (None | Some (ATask _)) as k,
            (None | Some (AMeta _)) as d =>
              create_activity_log
                {| actor := a; event_type := e;
                   message := match m with Some (AStr s) => s | _ => "" end;
                   team := match t with Some (ATeam pk) => Some pk | _ => None end;
                   project := match p with Some (AProject pk) => Some pk | _ => None end;
                   task := match k with Some (ATask pk) => Some pk | _ => None end;
                   metadata := match d with Some (AMeta x) => Some x | _ => None end |}
          | _, _, _, _, _ =>
              raise (py.ValueError "Cannot assign: must be a model instance.")
          end
      | None, _ | _, None =>
          raise (py.TypeError
            "create_activity_log() missing required keyword-only argument")
      | _, _ => raise (py.ValueError "Cannot assign: must be a model instance.")
      end
  end.

End services.

(* ===================================================================== *)
(** ** api/serializers.py *)
(* ===================================================================== *)

Module serializers.
Import models orm.

(** [str(n)] for an integer. *)
Definition str_of_int (n : Z) : string := NilZero.string_of_int (Z.to_int n).

(** The writable fields of [TaskSerializer], as a dictionary: [None] is a
    key that is absent, and for a nullable field [Some None] is an explicit
    null.  A value is the one the field converts the input to: text
    without the surrounding white space, an integer, a datetime. *)
Record TaskData := {
  title : option string;
  description : option string;
  status : option string;
  priority : option Z;
  assignee_id : option (option Z);
  due_date : option (option datetime);
  start_date : option (option datetime) }.

Definition set_assignee_id (v : option (option Z)) (d : TaskData) : TaskData :=
  {| title := title d; description := description d; status := status d;
     priority := priority d; assignee_id := v; due_date := due_date d;
     start_date := start_date d |}.

(** [TaskSerializer.validate_assignee_id] *)
Definition validate_assignee_id (s : Store) (value : option Z)
  : outcome (option Z) :=
  match value with
  | None => Return None
  | Some v =>
      if negb (exists_ (filter (fun u => User.id u =? v) (users s)))
      then Raise (py.ValidationError "assignee_id" "Assignee user not found.")
      else Return (Some v)
  end.

Definition quote : string := String (ascii_of_nat 34) EmptyString.

(** [Task.Status.choices] and [Task.Priority.choices], the values. *)
Definition status_choices : list string :=
  [Task.Status.TODO; Task.Status.IN_PROGRESS; Task.Status.BLOCKED; Task.Status.DONE].
Definition priority_choices : list Z :=
  [Task.Priority.LOW; Task.Priority.MEDIUM; Task.Priority.HIGH; Task.Priority.URGENT].

(** What the fields that [Meta.fields] takes from the model refuse.
    [title] is [CharField(max_length=250)] without default: the key is
    required unless the serializer is partial, and the text may not be
    blank.  [status] and [priority] have choices.  [description] may be
    blank, the dates may be null, and none of these keys is required. *)
Definition title_errors (partial : bool) (data : TaskData)
  : list (string * string) :=
  match title data with
  | None => if partial then [] else [("title", "This field is required.")]
  | Some t =>
      if (t =? "")%string then [("title", "This field may not be blank.")]
      else if Nat.ltb 250 (String.length t)
           then [("title", "Ensure this field has no more than 250 characters.")]
           else []
  end.

Definition invalid_choice (field input : string) : string * string :=
  (field, quote ++ input ++ quote ++ " is not a valid choice.").

Definition status_errors (data : TaskData) : list (string * string) :=
  match status data with
  | Some s => if existsb (String.eqb s) status_choices then []
              else [invalid_choice "status" s]
  | None => []
  end.

Definition priority_errors (data : TaskData) : list (string * string) :=
  match priority data with
  | Some p => if existsb (Z.eqb p) priority_choices then []
              else [invalid_choice "priority" (str_of_int p)]
  | None => []
  end.

(** The errors of the fields before [assignee_id], in the order of
    [Meta.fields]. *)
Definition declared_errors (partial : bool) (data : TaskData)
  : list (string * string) :=
  title_errors partial data ++ status_errors data ++ priority_errors data.

(** [validate_assignee_id] runs when the key is present. *)
Definition assignee_id_errors (s : Store) (data : TaskData)
  : list (string * string) :=
  match assignee_id data with
  | Some v => match validate_assignee_id s v with
              | Return _ => []
              | Raise e => py.detail e
              end
  | None => []
  end.

(** [serializer.is_valid(raise_exception=True)] for [TaskSerializer], with
    the [partial] flag the view gives the serializer: every field is run,
    the errors are collected under the names of the fields, and one
    [ValidationError] with all of them is raised if there is any; the
    answer is [serializer.validated_data]. *)
Definition TaskSerializer_is_valid (partial : bool) (data : TaskData)
  : M TaskData :=
  fun w =>
    match (declared_errors partial data ++ assignee_id_errors (db w) data)%list with
    | [] => (Return data, w)
    | [(field, msg)] => (Raise (py.ValidationError field msg), w)
    | detail => (Raise (py.ValidationErrors detail), w)
    end.

(** The writable fields of [TeamMembershipCreateSerializer]. *)
Record TeamMembershipCreateData := {
  user_id : Z;
  role : option string }.

(** [TeamMembershipCreateSerializer.validate_user_id] inside [is_valid]. *)
Definition TeamMembershipCreateSerializer_is_valid
    (data : TeamMembershipCreateData) : M TeamMembershipCreateData :=
  fun w =>
    if negb (exists_ (filter (fun u => User.id u =? user_id data) (users (db w))))
    then (Raise (py.ValidationError "user_id" "User not found."), w)
    else (Return data, w).

(** [AIPrioritySuggestRequestSerializer]: [title], [description] and
    [status] may be blank, [due_date] may be null. *)
Record AIPrioritySuggestRequest := {
  ps_task_id : Z;
  ps_title : option string;
  ps_description : option string;
  ps_due_date : option (option datetime);
  ps_status : option string }.

(** [AIDelayRiskRequestSerializer] *)
Record AIDelayRiskRequest := {
  dr_task_id : Z;
  dr_due_date : option (option datetime);
  dr_status : option string;
  dr_priority : option Z;
  dr_has_assignee : option bool }.

Record AIPrioritySuggestResponse := {
  suggested_priority : Z;
  rationale : string }.

Record AIDelayRiskResponse := {
  risk_score : float;
  risk_level : string;
  explanation : string }.

End serializers.

(* ===================================================================== *)
(** ** api/views.py: teams and tasks *)
(* ===================================================================== *)

Module views.
Import models orm permissions services serializers.

(** [User.objects.filter(id=pk).first()] *)
Definition user_by_id (s : Store) (pk : Z) : option User.t :=
  first (filter (fun u => User.id u =? pk) (users s)).

(** [User.objects.get(id=pk)] *)
Definition User_objects_get (pk : Z) : M User.t :=
  fun w => match user_by_id (db w) pk with
           | Some u => (Return u, w)
           | None => (Raise (py.DoesNotExist "User"), w)
           end.

(** [ProjectMembership.objects.filter(project_id=p, user=u).exists()] *)
Definition is_project_member (s : Store) (project_pk user_pk : Z) : bool :=
  exists_ (filter (fun m => (ProjectMembership.project_id m =? project_pk)
                            && (ProjectMembership.user_id m =? user_pk))
                  (project_memberships s)).

(** [self.request.user] where a model instance is required. *)
Definition require_user (user : principal) : M Z :=
  match user with
  | AuthUser pk => ret pk
  | _ => raise (py.ValueError "Cannot assign: must be a User instance.")
  end.

(** [bool(pk)] and [if pk] on an optional integer. *)
Definition truthy_id (v : option Z) : bool :=
  match v with Some z => negb (z =? 0) | None => false end.

Module TeamViewSet.

(** [TeamMembership.objects.create(team_id=pk, user=user, role=role)]: the
    constructor takes [created_at] from its default, [save] stamps
    [updated_at], and the insert is refused with [IntegrityError] when it
    breaks [unique_together = ("team", "user")] or the foreign key to the
    team. *)
Definition TeamMembership_objects_create (team_pk user_pk : Z) (role : string)
  : M TeamMembership.t :=
  created <- now;;
  stamp <- now;;
  fun w =>
    let table := team_memberships (db w) in
    if exists_ (filter (fun m => (TeamMembership.team_id m =? team_pk)
                                 && (TeamMembership.user_id m =? user_pk)) table)
       || negb (exists_ (filter (fun t => Team.id t =? team_pk) (teams (db w))))
    then (Raise py.IntegrityError, w)
    else
      let row :=
        {| TeamMembership.id := next_pk (map TeamMembership.id table);
           TeamMembership.team_id := team_pk;
           TeamMembership.user_id := user_pk;
           TeamMembership.role := role;
           TeamMembership.created_at := created;
           TeamMembership.updated_at := stamp |} in
      (Return row,
       add_write (TeamMembershipInsert row)
         (set_db (set_team_memberships (table ++ [row]) (db w)) w)).

Definition is_IntegrityError (e : py.exn) : bool :=
  match e with py.IntegrityError => true | _ => false end.

(** [add_member(self, request, pk)]; the answer is the membership the
    201 response serializes.  [pk] is the number the URL carries. *)
Definition add_member (request_user : principal) (pk : Z)
    (request_data : TeamMembershipCreateData) : M TeamMembership.t :=
  validated_data <- TeamMembershipCreateSerializer_is_valid request_data;;
  user <- User_objects_get (user_id validated_data);;
  let role := match serializers.role validated_data with
              | Some r => r
              | None => TeamMembership.Role.MEMBER
              end in
  membership <-
    try_except
      (TeamMembership_objects_create pk (User.id user) role)
      is_IntegrityError
      (raise (py.ValidationError "detail" "User is already a member of this team."));;
  call_create_activity_log
    [("actor", AUser request_user);
     ("event_type", AStr ActivityLog.EventType.TEAM_MEMBER_ADDED);
     ("team_id", AInt pk);
     ("message", AStr ("Added user " ++ str_of_int (User.id user) ++ " to team"));
     ("metadata", AMeta [("user_id", JInt (User.id user)); ("role", JStr role)])];;;
  ret membership.

End TeamViewSet.

Module TaskViewSet.

(** [get_queryset]: the tasks of the project the URL names, for a user who
    is a member of that project. *)
Definition get_queryset (s : Store) (user_pk project_pk : Z) : list Task.t :=
  filter (fun t =>
            (Task.project_id t =? project_pk)
            && exists_ (filter (fun p => Project.id p =? Task.project_id t)
                               (projects s))
            && is_project_member s (Task.project_id t) user_pk)
         (tasks s).

(** [self.get_object()] of the generic view: the row of the queryset with
    this primary key or a 404, then the object-level permission check. *)
Definition get_object (request_user : principal) (project_pk pk : Z) : M Task.t :=
  match request_user with
  | AuthUser user_pk =>
      fun w =>
        match first (filter (fun t => Task.id t =? pk)
                            (get_queryset (db w) user_pk project_pk)) with
        | None => (Raise py.Http404, w)
        | Some obj =>
            if IsAuthenticatedAndProjectMember.has_object_permission
                 (db w) request_user obj
            then (Return obj, w)
            else (Raise (py.PermissionDenied "You must be a member of this project."), w)
        end
  | _ => raise (py.TypeError "Field 'id' expected a number.")
  end.

(** [serializer.save(project_id=..., created_by=..., assignee=...)] on a
    serializer without instance: a [Task] is built from the validated data
    and the keyword arguments (absent keys take the model's defaults, the
    [assignee] keyword decides the assignee) and inserted. *)
Definition Task_objects_create (validated_data : TaskData)
    (project_pk created_by : Z) (assignee : option Z) : M Task.t :=
  created <- now;;
  stamp <- now;;
  fun w =>
    if negb (exists_ (filter (fun p => Project.id p =? project_pk) (projects (db w))))
    then (Raise py.IntegrityError, w)
    else
      let row :=
        {| Task.id := next_pk (map Task.id (tasks (db w)));
           Task.project_id := project_pk;
           Task.title := match title validated_data with Some v => v | None => "" end;
           Task.description :=
             match description validated_data with Some v => v | None => "" end;
           Task.status :=
             match status validated_data with Some v => v | None => Task.Status.TODO end;
           Task.priority :=
             match priority validated_data with
             | Some v => v | None => Task.Priority.MEDIUM end;
           Task.created_by_id := created_by;
           Task.assignee_id := assignee;
           Task.due_date :=
             match due_date validated_data with Some v => v | None => None end;
           Task.start_date :=
             match start_date validated_data with Some v => v | None => None end;
           Task.completed_at := None;
           Task.created_at := created;
           Task.updated_at := stamp |} in
      (Return row,
       add_write (TaskInsert row)
         (set_db (set_tasks (tasks (db w) ++ [row]) (db w)) w)).

(** [validated_data.pop("assignee_id", None)]: the value and the dictionary
    without the key. *)
Definition pop_assignee_id (validated_data : TaskData) : option Z * TaskData :=
  (match assignee_id validated_data with Some v => v | None => None end,
   set_assignee_id None validated_data).

(** ["assignee_id" in validated_data] *)
Definition has_assignee_id (validated_data : TaskData) : bool :=
  match assignee_id validated_data with Some _ => true | None => false end.

Definition perform_create (request_user : principal) (project_pk : Z)
    (validated_data : TaskData) : M unit :=
  let '(assignee_id, validated_data) := pop_assignee_id validated_data in
  assignee <-
    gets (fun w => if truthy_id assignee_id
                   then match assignee_id with
                        | Some a => user_by_id (db w) a
                        | None => None
                        end
                   else None);;
  (fun w =>
     match assignee with
     | Some u =>
         if negb (is_project_member (db w) project_pk (User.id u))
         then (Raise (py.ValidationError "assignee_id"
                        "Assignee must be a member of the project."), w)
         else (Return tt, w)
     | None => (Return tt, w)
     end);;;
  created_by <- require_user request_user;;
  task <- Task_objects_create validated_data project_pk created_by
            (option_map User.id assignee);;
  call_create_activity_log
    [("actor", AUser request_user);
     ("event_type", AStr ActivityLog.EventType.TASK_CREATED);
     ("project_id", AInt project_pk);
     ("task", ATask (Task.id task));
     ("message", AStr ("Task created: " ++ Task.title task))];;;
  ret tt.

(** [create] of the generic view, past the permission checks: validate the
    payload, then [perform_create]. *)
Definition create (request_user : principal) (project_pk : Z)
    (request_data : TaskData) : M unit :=
  validated_data <- TaskSerializer_is_valid false request_data;;
  perform_create request_user project_pk validated_data.

(** A [TaskSerializer] bound to an instance, after [is_valid]. *)
Record Serializer := {
  instance : Task.t;
  validated_data : TaskData }.

(** [list(validated_data.keys())], in the order the fields are declared. *)
Definition keys (d : TaskData) : list string :=
  (match title d with Some _ => ["title"] | None => [] end)
  ++ (match description d with Some _ => ["description"] | None => [] end)
  ++ (match status d with Some _ => ["status"] | None => [] end)
  ++ (match priority d with Some _ => ["priority"] | None => [] end)
  ++ (match assignee_id d with Some _ => ["assignee_id"] | None => [] end)
  ++ (match due_date d with Some _ => ["due_date"] | None => [] end)
  ++ (match start_date d with Some _ => ["start_date"] | None => [] end).

(** The attribute assignments of [ModelSerializer.update]: every key of the
    validated data, then the [assignee] keyword of [save], which is set
    last and so decides the assignee. *)
Definition setattrs (d : TaskData) (assignee : option Z) (x : Task.t) : Task.t :=
  {| Task.id := Task.id x;
     Task.project_id := Task.project_id x;
     Task.title := match title d with Some v => v | None => Task.title x end;
     Task.description :=
       match description d with Some v => v | None => Task.description x end;
     Task.status := match status d with Some v => v | None => Task.status x end;
     Task.priority :=
       match priority d with Some v => v | None => Task.priority x end;
     Task.created_by_id := Task.created_by_id x;
     Task.assignee_id := assignee;
     Task.due_date := match due_date d with Some v => v | None => Task.due_date x end;
     Task.start_date :=
       match start_date d with Some v => v | None => Task.start_date x end;
     Task.completed_at := Task.completed_at x;
     Task.created_at := Task.created_at x;
     Task.updated_at := Task.updated_at x |}.

(** [instance.save()]: [updated_at] is stamped and every column of the row
    with this primary key is written; the row is inserted if it is gone. *)
Definition Task_save (x : Task.t) : M Task.t :=
  stamp <- now;;
  let row := Task.set_updated_at stamp x in
  modify (fun w =>
    let table := tasks (db w) in
    let table' :=
      if exists_ (filter (fun r => Task.id r =? Task.id row) table)
      then update_where (fun r => Task.id r =? Task.id row) (fun _ => row) table
      else (table ++ [row])%list in
    add_write (TaskSave None row) (set_db (set_tasks table' (db w)) w));;;
  ret row.

(** [serializer.save(assignee=...)] on a serializer bound to an instance. *)
Definition serializer_save (serializer : Serializer) (assignee : option Z)
  : M Task.t :=
  Task_save (setattrs (validated_data serializer) assignee (instance serializer)).

(** [task.save(update_fields=["completed_at"])]: only that column of the
    row is written. *)
Definition Task_save_completed_at (x : Task.t) : M unit :=
  fun w =>
    let table := tasks (db w) in
    if exists_ (filter (fun r => Task.id r =? Task.id x) table)
    then
      (Return tt,
       add_write (TaskSave (Some ["completed_at"]) x)
         (set_db (set_tasks
                    (update_where (fun r => Task.id r =? Task.id x)
                       (Task.set_completed_at (Task.completed_at x)) table)
                    (db w)) w))
    else (Raise (py.DatabaseError "Save with update_fields did not affect any rows."), w).

Definition is_none {A} (v : option A) : bool :=
  match v with None => true | Some _ => false end.

Definition perform_update (request_user : principal) (project_pk pk : Z)
    (serializer : Serializer) : M unit :=
  old_task <- get_object request_user project_pk pk;;
  let old_status := Task.status old_task in
  let '(assignee_id, validated_data) :=
    if has_assignee_id (validated_data serializer)
    then pop_assignee_id (validated_data serializer)
    else (None, validated_data serializer) in
  let serializer := {| instance := instance serializer;
                       validated_data := validated_data |} in
  assignee <-
    (if has_assignee_id validated_data || negb (is_none assignee_id)
     then match assignee_id with
          | None => ret None
          | Some a =>
              fun w =>
                match user_by_id (db w) a with
                | None =>
                    (Raise (py.ValidationError "assignee_id"
                              "Assignee user not found."), w)
                | Some u =>
                    if negb (is_project_member (db w) (Task.project_id old_task)
                               (User.id u))
                    then (Raise (py.ValidationError "assignee_id"
                                   "Assignee must be a member of the project."), w)
                    else (Return (Some (User.id u)), w)
                end
          end
     else ret None);;
  task <- serializer_save serializer
            (if has_assignee_id validated_data then assignee
             else Task.assignee_id old_task);;
  call_create_activity_log
    [("actor", AUser request_user);
     ("event_type", AStr ActivityLog.EventType.TASK_UPDATED);
     ("project", AProject (Task.project_id task));
     ("task", ATask (Task.id task));
     ("message", AStr "Task updated");
     ("metadata", AMeta [("fields", JStrList (keys validated_data))])];;;
  if negb (old_status =? Task.status task)%string
  then
    task <-
      (if (Task.status task =? Task.Status.DONE)%string
          && is_none (Task.completed_at task)
       then
         stamp <- now;;
         let task := Task.set_completed_at (Some stamp) task in
         Task_save_completed_at task;;;
         ret task
       else ret task);;
    call_create_activity_log
      [("actor", AUser request_user);
       ("event_type", AStr ActivityLog.EventType.TASK_STATUS_CHANGED);
       ("project", AProject (Task.project_id task));
       ("task", ATask (Task.id task));
       ("message", AStr ("Status changed " ++ old_status ++ " -> "
                         ++ Task.status task))];;;
    ret tt
  else ret tt.

(** [update] of the generic view, past the permission checks: load the
    instance, validate the payload, [perform_update].  PUT calls it with
    [partial] false, and PATCH, through [partial_update], with [partial]
    true. *)
Definition update (partial : bool) (request_user : principal)
    (project_pk pk : Z) (request_data : TaskData) : M unit :=
  instance <- get_object request_user project_pk pk;;
  validated_data <- TaskSerializer_is_valid partial request_data;;
  perform_update request_user project_pk pk
    {| instance := instance; validated_data := validated_data |}.

End TaskViewSet.

(* ===================================================================== *)
(** ** api/views.py: the heuristic endpoints *)
(* ===================================================================== *)

Module AIViewSet.

(** [x in {a, b}] on strings and on integers. *)
Definition str_in (x : string) (set : list string) : bool :=
  existsb (String.eqb x) set.
Definition int_in (x : Z) (set : list Z) : bool := existsb (Z.eqb x) set.

(** [validated_data.get(k) or stored] for a text field and its use
    [... or ""]. *)
Definition get_or_str (override : option string) (stored : string) : string :=
  match override with
  | Some s => py.str_or s stored
  | None => stored
  end.

(** [validated_data.get("due_date") or task.due_date]: every [datetime] is
    truthy, an explicit null and an absent key are both [None]. *)
Definition get_or_due (override : option (option datetime))
    (stored : option datetime) : option datetime :=
  match override with
  | Some (Some d) => Some d
  | _ => stored
  end.

(** [validated_data.get("priority") or task.priority] *)
Definition get_or_priority (override : option Z) (stored : Z) : Z :=
  match override with
  | Some p => if p =? 0 then stored else p
  | None => stored
  end.

(** The task with its project, as
    [Task.objects.select_related("project", "project__team")] joins them. *)
Definition select_related (s : Store) (t : Task.t) : list (Task.t * Project.t) :=
  flat_map (fun p => if exists_ (filter (fun tm => Team.id tm =? Project.team_id p)
                                        (teams s))
                     then [(t, p)] else [])
           (filter (fun p => Project.id p =? Task.project_id t) (projects s)).

Definition _get_task_for_user (request_user : principal) (task_id : Z)
  : M (Task.t * Project.t) :=
  fun w =>
    match first (flat_map (select_related (db w))
                          (filter (fun t => Task.id t =? task_id) (tasks (db w)))) with
    | None => (Raise (py.ValidationError "task_id" "Task not found."), w)
    | Some (task, project) =>
        match request_user with
        | AuthUser user_pk =>
            if negb (is_project_member (db w) (Project.id project) user_pk)
            then (Raise (py.PermissionDenied
                    "You must be a project member to use AI features on this task."), w)
            else (Return (task, project), w)
        | _ => (Raise (py.TypeError "Field 'id' expected a number."), w)
        end
    end.

Definition newline : string := String (ascii_of_nat 10) EmptyString.

Definition urgent_keywords := ["urgent"; "asap"; "blocker"; "critical"; "p0"].
Definition high_keywords := ["important"; "deadline"; "risk"; "customer"; "incident"].

(** The rules of [priority_suggest], from [suggested = Task.Priority.MEDIUM]
    to the last status rule: the suggestion and the rationale parts. *)
Definition suggest (text : string) (due_date : option datetime)
    (status_val : string) (now : datetime) : Z * list string :=
  let suggested := Task.Priority.MEDIUM in
  let rationale_parts : list string := [] in
  let '(suggested, rationale_parts) :=
    if py.any_in urgent_keywords text
    then (Task.Priority.URGENT, (rationale_parts ++ ["Detected urgency keywords."])%list)
    else if py.any_in high_keywords text
    then (Task.Priority.HIGH, (rationale_parts ++ ["Detected high-impact keywords."])%list)
    else (suggested, rationale_parts) in
  let '(suggested, rationale_parts) :=
    match due_date with
    | Some due_date =>
        let delta := due_date - now in
        if delta <=? timedelta_days 1
        then (Z.max suggested Task.Priority.URGENT,
              (rationale_parts ++ ["Due within 24 hours."])%list)
        else if delta <=? timedelta_days 3
        then (Z.max suggested Task.Priority.HIGH,
              (rationale_parts ++ ["Due within 3 days."])%list)
        else if delta <=? timedelta_days 7
        then (Z.max suggested Task.Priority.MEDIUM,
              (rationale_parts ++ ["Due within 7 days."])%list)
        else (suggested, rationale_parts)
    | None => (suggested, rationale_parts)
    end in
  let '(suggested, rationale_parts) :=
    if str_in status_val [Task.Status.BLOCKED; "blocked"]
    then (Z.max suggested Task.Priority.HIGH,
          (rationale_parts ++ ["Task is blocked."])%list)
    else (suggested, rationale_parts) in
  let '(suggested, rationale_parts) :=
    if str_in status_val [Task.Status.DONE; "done"]
    then (Task.Priority.LOW, (rationale_parts ++ ["Task is done; low priority."])%list)
    else (suggested, rationale_parts) in
  (suggested, rationale_parts).

(** The effective inputs of [priority_suggest]; [str_lower] is [str.lower]. *)
Definition ps_due (data : AIPrioritySuggestRequest) (task : Task.t) :=
  get_or_due (ps_due_date data) (Task.due_date task).
Definition ps_title_val (data : AIPrioritySuggestRequest) (task : Task.t) :=
  py.str_or (get_or_str (ps_title data) (Task.title task)) "".
Definition ps_description_val (data : AIPrioritySuggestRequest) (task : Task.t) :=
  py.str_or (get_or_str (ps_description data) (Task.description task)) "".
Definition ps_status_val (str_lower : string -> string)
    (data : AIPrioritySuggestRequest) (task : Task.t) :=
  str_lower (py.str_or (get_or_str (ps_status data) (Task.status task)) "").

Definition priority_suggest (str_lower : string -> string)
    (request_user : principal) (data : AIPrioritySuggestRequest)
  : M AIPrioritySuggestResponse :=
  found <- _get_task_for_user request_user (ps_task_id data);;
  let '(task, project) := found in
  let due_date := ps_due data task in
  let title := ps_title_val data task in
  let description := ps_description_val data task in
  let status_val := ps_status_val str_lower data task in
  now <- now;;
  let text := str_lower (title ++ newline ++ description) in
  let '(suggested, rationale_parts) := suggest text due_date status_val now in
  let rationale :=
    match rationale_parts with
    | [] => "Baseline heuristic: default medium priority."
    | _ => String.concat " " rationale_parts
    end in
  call_create_activity_log
    [("actor", AUser request_user);
     ("event_type", AStr ActivityLog.EventType.AI_PRIORITY_SUGGESTED);
     ("team", ATeam (Project.team_id project));
     ("project", AProject (Project.id project));
     ("task", ATask (Task.id task));
     ("message", AStr "AI suggested priority");
     ("metadata", AMeta [("suggested_priority", JInt suggested)])];;;
  ret {| suggested_priority := suggested; rationale := rationale |}.

(** [max(0.0, min(1.0, float(risk)))] with Python's [min] and [max], which
    answer their first argument unless the second is strictly beyond it. *)
Definition clamp (risk : float) : float :=
  let m := if PrimFloat.ltb risk 1.0 then risk else 1.0%float in
  if PrimFloat.ltb 0.0 m then m else 0.0%float.

(** The score of [delay_risk], from [risk = 0.15] to the clamp. *)
Definition score (has_assignee : bool) (status_val : string) (priority_val : Z)
    (due_date : option datetime) (now : datetime) : float :=
  let risk := 0.15%float in
  let risk := if negb has_assignee then (risk + 0.25)%float else risk in
  let risk := if str_in status_val [Task.Status.TODO; "todo"]
              then (risk + 0.10)%float else risk in
  let risk := if str_in status_val [Task.Status.BLOCKED; "blocked"]
              then (risk + 0.35)%float else risk in
  let risk := if str_in status_val [Task.Status.DONE; "done"]
              then 0.0%float else risk in
  let risk := if int_in priority_val [Task.Priority.URGENT; Task.Priority.HIGH]
              then (risk + 0.10)%float else risk in
  let risk :=
    match due_date with
    | Some due_date =>
        let delta := due_date - now in
        if delta <? 0 then (risk + 0.35)%float
        else if delta <=? timedelta_days 1 then (risk + 0.25)%float
        else if delta <=? timedelta_days 3 then (risk + 0.15)%float
        else if delta <=? timedelta_days 7 then (risk + 0.05)%float
        else risk
    | None => risk
    end in
  clamp risk.

Definition level_of (risk : float) : string :=
  if PrimFloat.leb 0.67 risk then "high"
  else if PrimFloat.leb 0.34 risk then "medium"
  else "low".

(** The effective inputs of [delay_risk]. *)
Definition dr_due (data : AIDelayRiskRequest) (task : Task.t) :=
  get_or_due (dr_due_date data) (Task.due_date task).
Definition dr_status_val (str_lower : string -> string)
    (data : AIDelayRiskRequest) (task : Task.t) :=
  str_lower (py.str_or (get_or_str (dr_status data) (Task.status task)) "").
Definition dr_priority_val (data : AIDelayRiskRequest) (task : Task.t) :=
  get_or_priority (dr_priority data) (Task.priority task).
Definition dr_has_assignee_val (data : AIDelayRiskRequest) (task : Task.t) :=
  match dr_has_assignee data with
  | Some b => b
  | None => truthy_id (Task.assignee_id task)
  end.

Definition delay_risk (str_lower : string -> string)
    (request_user : principal) (data : AIDelayRiskRequest)
  : M AIDelayRiskResponse :=
  found <- _get_task_for_user request_user (dr_task_id data);;
  let '(task, project) := found in
  let due_date := dr_due data task in
  let status_val := dr_status_val str_lower data task in
  let priority_val := dr_priority_val data task in
  let has_assignee := dr_has_assignee_val data task in
  now <- now;;
  let risk := score has_assignee status_val priority_val due_date now in
  let level := level_of risk in
  let explanation :=
    "Baseline heuristic model using due date proximity, status, assignee presence, and priority." in
  call_create_activity_log
    [("actor", AUser request_user);
     ("event_type", AStr ActivityLog.EventType.AI_DELAY_RISK_PREDICTED);
     ("team", ATeam (Project.team_id project));
     ("project", AProject (Project.id project));
     ("task", ATask (Task.id task));
     ("message", AStr "AI predicted delay risk");
     ("metadata", AMeta [("risk_score", JFloat risk); ("risk_level", JStr level)])];;;
  ret {| risk_score := risk; risk_level := level; explanation := explanation |}.

End AIViewSet.

End views.

(* ===================================================================== *)
(** ** A small database to run the code on *)
(* ===================================================================== *)

Module sample.
Import models orm permissions services serializers views.

Definition alice := {| User.id := 1; User.username := "alice"; User.email := "alice@example.org" |}.
Definition bob := {| User.id := 2; User.username := "bob"; User.email := "bob@example.org" |}.
Definition carol := {| User.id := 3; User.username := "carol"; User.email := "carol@example.org" |}.

Definition team1 :=
  {| Team.id := 1; Team.name := "Core"; Team.description := "";
     Team.created_by_id := 1; Team.created_at := 1000; Team.updated_at := 1000 |}.

Definition tm (pk team user : Z) (role : string) :=
  {| TeamMembership.id := pk; TeamMembership.team_id := team;
     TeamMembership.user_id := user; TeamMembership.role := role;
     TeamMembership.created_at := 1000; TeamMembership.updated_at := 1000 |}.

Definition project1 :=
  {| Project.id := 1; Project.team_id := 1; Project.name := "Launch";
     Project.description := ""; Project.created_by_id := 1;
     Project.created_at := 2000; Project.updated_at := 2000 |}.

Definition pm (pk project user : Z) (role : string) :=
  {| ProjectMembership.id := pk; ProjectMembership.project_id := project;
     ProjectMembership.user_id := user; ProjectMembership.role := role;
     ProjectMembership.created_at := 2000; ProjectMembership.updated_at := 2000 |}.

(** A task of project 1 created by alice. *)
Definition task (pk : Z) (title status : string) (priority : Z)
    (assignee : option Z) (due completed : option datetime) :=
  {| Task.id := pk; Task.project_id := 1; Task.title := title;
     Task.description := ""; Task.status := status; Task.priority := priority;
     Task.created_by_id := 1; Task.assignee_id := assignee;
     Task.due_date := due; Task.start_date := None;
     Task.completed_at := completed;
     Task.created_at := 3000; Task.updated_at := 3000 |}.

(** Alice owns team 1 and manages project 1; bob is a team admin without
    project membership; carol is a team member and contributor; dave (4) is
    a team member and viewer. *)
Definition store (tasks : list Task.t) : Store :=
  {| users := [alice; bob; carol;
               {| User.id := 4; User.username := "dave"; User.email := "" |}];
     teams := [team1];
     team_memberships := [tm 1 1 1 "owner"; tm 2 1 2 "admin"; tm 3 1 3 "member";
                          tm 4 1 4 "member"];
     projects := [project1];
     project_memberships := [pm 1 1 1 "manager"; pm 2 1 3 "contributor";
                             pm 3 1 4 "viewer"];
     tasks := tasks;
     activity_logs := [] |}.

Definition world (tasks : list Task.t) (faults : list (option py.exn)) : World :=
  {| db := store tasks; clock := 5000; elapsed := [10; 20; 30; 40; 50; 60]%N;
     log_faults := faults; writes := []; logged := [] |}.

(** Task 1 of project 1, open and then completed at time 4000. *)
Definition todo_task := task 1 "Write docs" "todo" 2 None None None.
Definition done_task := task 1 "Write docs" "done" 2 None None (Some 4000).
Definition assigned_task := task 1 "Write docs" "todo" 2 (Some 3) None None.

(** Payloads with a single key. *)
Definition patch_status (v : string) : TaskData :=
  {| title := None; description := None; status := Some v; priority := None;
     assignee_id := None; due_date := None; start_date := None |}.
Definition patch_assignee (v : option Z) : TaskData :=
  {| title := None; description := None; status := None; priority := None;
     assignee_id := Some v; due_date := None; start_date := None |}.

(** A creation payload with a title and an assignee. *)
Definition new_task (v : option Z) : TaskData :=
  {| title := Some "Ship it"; description := None; status := None;
     priority := None; assignee_id := Some v; due_date := None;
     start_date := None |}.

(** [str.lower] and [int] on ASCII text. *)
Definition lower_ascii (c : ascii) : ascii :=
  let n := nat_of_ascii c in
  if (65 <=? n)%nat && (n <=? 90)%nat then ascii_of_nat (n + 32) else c.

Fixpoint str_lower (s : string) : string :=
  match s with
  | EmptyString => EmptyString
  | String c rest => String (lower_ascii c) (str_lower rest)
  end.

(** Requests to the heuristic endpoints about task 1. *)
Definition ps_request (title status : option string)
    (due : option (option datetime)) : AIPrioritySuggestRequest :=
  {| ps_task_id := 1; ps_title := title; ps_description := None;
     ps_due_date := due; ps_status := status |}.
Definition dr_request (status : option string) (priority : option Z)
    (due : option (option datetime)) (has_assignee : option bool)
  : AIDelayRiskRequest :=
  {| dr_task_id := 1; dr_due_date := due; dr_status := status;
     dr_priority := priority; dr_has_assignee := has_assignee |}.

Definition int_of_str (s : string) : option Z :=
  match NilEmpty.int_of_string s with
  | Some d => Some (Z.of_int d)
  | None => None
  end.

End sample.

(* ===================================================================== *)
(** ** What the schema guarantees, and who holds which role *)
(* ===================================================================== *)

Module schema.
Import models orm permissions.

(** [unique_together = ("project", "user")] *)
Definition project_membership_unique (s : Store) : Prop :=
  forall m1 m2,
    In m1 (project_memberships s) -> In m2 (project_memberships s) ->
    ProjectMembership.project_id m1 = ProjectMembership.project_id m2 ->
    ProjectMembership.user_id m1 = ProjectMembership.user_id m2 ->
    m1 = m2.

(** [unique_together = ("team", "user")] *)
Definition team_membership_unique (s : Store) : Prop :=
  forall m1 m2,
    In m1 (team_memberships s) -> In m2 (team_memberships s) ->
    TeamMembership.team_id m1 = TeamMembership.team_id m2 ->
    TeamMembership.user_id m1 = TeamMembership.user_id m2 ->
    m1 = m2.

(** The primary key of [Project]. *)
Definition project_pk_unique (s : Store) : Prop :=
  forall p1 p2,
    In p1 (projects s) -> In p2 (projects s) ->
    Project.id p1 = Project.id p2 -> p1 = p2.

(** [ProjectMembership.project] is a foreign key that cascades. *)
Definition project_membership_fk (s : Store) : Prop :=
  forall m, In m (project_memberships s) ->
    exists p, In p (projects s) /\ Project.id p = ProjectMembership.project_id m.

(** [TeamMembership.user] is a foreign key that cascades. *)
Definition team_membership_user_fk (s : Store) : Prop :=
  forall m, In m (team_memberships s) ->
    exists u, In u (users s) /\ User.id u = TeamMembership.user_id m.

(** An [AutoField] primary key is never 0. *)
Definition user_pk_nonzero (s : Store) : Prop :=
  forall u, In u (users s) -> User.id u <> 0.

(** The constraints the membership checks rely on. *)
Record constraints (s : Store) : Prop := {
  c_pm_unique : project_membership_unique s;
  c_tm_unique : team_membership_unique s;
  c_project_pk : project_pk_unique s;
  c_pm_fk : project_membership_fk s }.

(** Principal [P] holds a [ProjectMembership] on project [R] with [role]. *)
Definition holds_project_role (s : Store) (P : principal) (R : Z)
    (role : string) : Prop :=
  exists m, In m (project_memberships s)
            /\ ProjectMembership.project_id m = R
            /\ P = AuthUser (ProjectMembership.user_id m)
            /\ ProjectMembership.role m = role.

(** Principal [P] holds a [TeamMembership] on team [T] with [role]. *)
Definition holds_team_role (s : Store) (P : principal) (T : Z)
    (role : string) : Prop :=
  exists m, In m (team_memberships s)
            /\ TeamMembership.team_id m = T
            /\ P = AuthUser (TeamMembership.user_id m)
            /\ TeamMembership.role m = role.

(** Team [T] owns project [R]. *)
Definition owning_team (s : Store) (R T : Z) : Prop :=
  exists p, In p (projects s) /\ Project.id p = R /\ Project.team_id p = T.

End schema.

(* ===================================================================== *)
(** ** What an update does to the task table *)
(* ===================================================================== *)

Module logic.
Import models orm permissions services serializers views.

(** The primary key of [Task]. *)
Definition task_pk_unique (s : Store) : Prop :=
  forall t1 t2, In t1 (tasks s) -> In t2 (tasks s) -> Task.id t1 = Task.id t2 -> t1 = t2.

(** The writes to the task table among the writes of a world. *)
Definition task_writes (w : World) : list write := filter is_task_write (writes w).

(** A write of [save(update_fields=...)]. *)
Definition is_partial_save (x : write) : bool :=
  match x with TaskSave (Some _) _ => true | _ => false end.

(** The test [perform_update] makes before it stamps [completed_at]. *)
Definition stamps_completion (old_status : string) (task : Task.t) : bool :=
  negb (old_status =? Task.status task)%string
  && ((Task.status task =? Task.Status.DONE)%string
      && TaskViewSet.is_none (Task.completed_at task)).

(** The row [serializer.save] writes for instance [inst] at time [stamp]. *)
Definition saved_row (data : TaskData) (inst : Task.t) (stamp : datetime) : Task.t :=
  Task.set_updated_at stamp (TaskViewSet.setattrs data (Task.assignee_id inst) inst).

(** The three ways [TaskViewSet.update] can leave the task table: untouched
    (the request failed before the save), saved once, or saved and then
    stamped with the completion time. *)
Inductive update_effect (w : World) (pk : Z) (data : TaskData)
    (r : outcome unit) (w' : World) : Prop :=
| NoWrite :
    tasks (db w') = tasks (db w) ->
    task_writes w' = task_writes w ->
    r <> Return tt ->
    update_effect w pk data r w'
| Saved (inst : Task.t) (stamp : datetime) :
    In inst (tasks (db w)) -> Task.id inst = pk -> clock w <= stamp ->
    tasks (db w')
    = update_where (fun x => Task.id x =? pk) (fun _ => saved_row data inst stamp)
        (tasks (db w)) ->
    task_writes w' = (task_writes w ++ [TaskSave None (saved_row data inst stamp)])%list ->
    (r = Return tt ->
     stamps_completion (Task.status inst) (saved_row data inst stamp) = false) ->
    update_effect w pk data r w'
| SavedAndStamped (inst : Task.t) (stamp ts : datetime) :
    In inst (tasks (db w)) -> Task.id inst = pk -> clock w <= stamp -> stamp <= ts ->
    stamps_completion (Task.status inst) (saved_row data inst stamp) = true ->
    tasks (db w')
    = update_where (fun x => Task.id x =? pk) (Task.set_completed_at (Some ts))
        (update_where (fun x => Task.id x =? pk)
           (fun _ => saved_row data inst stamp) (tasks (db w))) ->
    task_writes w'
    = (task_writes w
       ++ [TaskSave None (saved_row data inst stamp);
           TaskSave (Some ["completed_at"])
             (Task.set_completed_at (Some ts) (saved_row data inst stamp))])%list ->
    update_effect w pk data r w'.

(** A request of [priority_suggest] with the falsy overrides (a blank text,
    a null due date) taken out, as if the keys were absent. *)
Definition ps_without_falsy (data : AIPrioritySuggestRequest)
  : AIPrioritySuggestRequest :=
  {| ps_task_id := ps_task_id data;
     ps_title := match ps_title data with Some "" => None | v => v end;
     ps_description := match ps_description data with Some "" => None | v => v end;
     ps_due_date := match ps_due_date data with Some None => None | v => v end;
     ps_status := match ps_status data with Some "" => None | v => v end |}.

(** The same for [delay_risk] (a zero priority is falsy too); the key
    [has_assignee] is left as it is. *)
Definition dr_without_falsy (data : AIDelayRiskRequest) : AIDelayRiskRequest :=
  {| dr_task_id := dr_task_id data;
     dr_due_date := match dr_due_date data with Some None => None | v => v end;
     dr_status := match dr_status data with Some "" => None | v => v end;
     dr_priority := match dr_priority data with Some 0 => None | v => v end;
     dr_has_assignee := dr_has_assignee data |}.

(** Every coming failure of the audit insert is of class [Exception]. *)
Definition faults_are_exceptions (w : World) : Prop :=
  Forall (fun f => match f with
                   | Some e => py.isinstance_Exception e = true
                   | None => True
                   end) (log_faults w).

(** The payload's assignee, if any, names a user who is a member of the
    project. *)
Definition assignee_acceptable (s : Store) (project_pk : Z) (data : TaskData) : Prop :=
  match assignee_id data with
  | Some (Some a) =>
      exists x, user_by_id s a = Some x
                /\ is_project_member s project_pk (User.id x) = true
  | _ => True
  end.

End logic.

(* ===================================================================== *)
(** ** api/permissions.py: the team and project membership checks *)
(* ===================================================================== *)

Module permissions_more.
Import models orm permissions views.

(** The objects a view hands to [has_object_permission]. *)
Inductive model_object :=
| OTeam (x : Team.t)
| OTeamMembership (x : TeamMembership.t)
| OProject (x : Project.t)
| OProjectMembership (x : ProjectMembership.t)
| OTask (x : Task.t)
| OActivityLog (x : ActivityLog.t).

(** [getattr(obj, "team_id", None)] and [getattr(obj, "project_id", None)] *)
Definition team_id_attr (obj : model_object) : option Z :=
  match obj with
  | OTeamMembership x => Some (TeamMembership.team_id x)
  | OProject x => Some (Project.team_id x)
  | OActivityLog x => ActivityLog.team_id x
  | _ => None
  end.

Definition project_id_attr (obj : model_object) : option Z :=
  match obj with
  | OProjectMembership x => Some (ProjectMembership.project_id x)
  | OTask x => Some (Task.project_id x)
  | OActivityLog x => ActivityLog.project_id x
  | _ => None
  end.

Module IsAuthenticatedAndTeamMember.

(** The id [has_permission] looks for: URL keyword, query string, body. *)
Definition team_id_of (view_kwargs query_params request_data : py.dict) : py.value :=
  py.or_ (py.or_ (py.or_ (py.get view_kwargs "team_pk")
                         (py.get query_params "team"))
                 (py.get request_data "team"))
         (py.get request_data "team_id").

Definition has_permission (int_of_str : string -> option Z) (s : Store)
    (user : principal) (view_kwargs query_params request_data : py.dict) : bool :=
  let team_id := team_id_of view_kwargs query_params request_data in
  if negb (py.truthy team_id) then is_authenticated user
  else
    match py_int int_of_str team_id with
    | None => false
    | Some team_id_int => is_member (_team_membership s user team_id_int)
    end.

Definition has_object_permission (s : Store) (user : principal)
    (obj : model_object) : bool :=
  let team_id := match obj with
                 | OTeam x => Some (Team.id x)
                 | _ => team_id_attr obj
                 end in
  match team_id with
  | Some t => if t =? 0 then false else is_member (_team_membership s user t)
  | None => false
  end.

End IsAuthenticatedAndTeamMember.

Module IsAuthenticatedAndTeamAdmin.

Definition team_id_of (view_kwargs request_data : py.dict) : py.value :=
  py.or_ (py.or_ (py.get view_kwargs "team_pk") (py.get request_data "team"))
         (py.get request_data "team_id").

Definition has_permission (int_of_str : string -> option Z) (s : Store)
    (user : principal) (view_kwargs request_data : py.dict) : bool :=
  let team_id := team_id_of view_kwargs request_data in
  if negb (py.truthy team_id) then false
  else
    match py_int int_of_str team_id with
    | None => false
    | Some team_id_int =>
        let info := _team_membership s user team_id_int in
        is_member info
        && role_in info [TeamMembership.Role.OWNER; TeamMembership.Role.ADMIN]
    end.

End IsAuthenticatedAndTeamAdmin.

Module IsAuthenticatedAndProjectMember.

Definition project_id_of (view_kwargs query_params request_data : py.dict)
  : py.value :=
  py.or_ (py.or_ (py.or_ (py.get view_kwargs "project_pk")
                         (py.get query_params "project"))
                 (py.get request_data "project"))
         (py.get request_data "project_id").

Definition has_permission (int_of_str : string -> option Z) (s : Store)
    (user : principal) (view_kwargs query_params request_data : py.dict) : bool :=
  let project_id := project_id_of view_kwargs query_params request_data in
  if negb (py.truthy project_id) then is_authenticated user
  else
    match py_int int_of_str project_id with
    | None => false
    | Some project_id_int => is_member (_project_membership s user project_id_int)
    end.

Definition has_object_permission (s : Store) (user : principal)
    (obj : model_object) : bool :=
  let project_id := match obj with
                    | OProject x => Some (Project.id x)
                    | _ => project_id_attr obj
                    end in
  match project_id with
  | Some p => if p =? 0 then false else is_member (_project_membership s user p)
  | None => false
  end.

End IsAuthenticatedAndProjectMember.

End permissions_more.

(* ===================================================================== *)
(** ** api/views.py: teams, projects and the activity log *)
(* ===================================================================== *)

Module views_more.
Import models orm permissions services serializers views.

Definition set_teams (v : list Team.t) (s : Store) :=
  {| users := users s; teams := v; team_memberships := team_memberships s;
     projects := projects s; project_memberships := project_memberships s;
     tasks := tasks s; activity_logs := activity_logs s |}.

Definition set_projects (v : list Project.t) (s : Store) :=
  {| users := users s; teams := teams s; team_memberships := team_memberships s;
     projects := v; project_memberships := project_memberships s;
     tasks := tasks s; activity_logs := activity_logs s |}.

Definition set_project_memberships (v : list ProjectMembership.t) (s : Store) :=
  {| users := users s; teams := teams s; team_memberships := team_memberships s;
     projects := projects s; project_memberships := v;
     tasks := tasks s; activity_logs := activity_logs s |}.

(** [with transaction.atomic(): body].  The block is rolled back when an
    exception leaves it.  It is also rolled back, without any exception,
    when a [save] inside it raised and the exception was caught before the
    end of the block: Django marks the transaction for rollback at the
    failed save.  In the modelled code the one error that is caught is the
    failed insert of [create_activity_log], seen here as a failure taken
    from [log_faults].  A rollback restores the database and forgets the
    writes of the block. *)
Definition save_failed_inside (before after : World) : bool :=
  existsb (fun f => match f with Some _ => true | None => false end)
    (firstn (List.length (log_faults before) - List.length (log_faults after))
            (log_faults before)).

Definition rollback (before after : World) : World :=
  {| db := db before; clock := clock after; elapsed := elapsed after;
     log_faults := log_faults after; writes := writes before;
     logged := logged after |}.

Definition atomic {A} (body : M A) : M A :=
  fun w => match body w with
           | (Raise e, w') => (Raise e, rollback w w')
           | (Return a, w') =>
               if save_failed_inside w w' then (Return a, rollback w w')
               else (Return a, w')
           end.

(** The validated data of [TeamSerializer] and [ProjectSerializer]. *)
Record NamedData := {
  name : string;
  description : option string }.

(** [ProjectMembershipCreateSerializer] *)
Record ProjectMembershipCreateData := {
  pm_user_id : Z;
  pm_role : option string }.

Definition ProjectMembershipCreateSerializer_is_valid
    (data : ProjectMembershipCreateData) : M ProjectMembershipCreateData :=
  fun w =>
    if negb (exists_ (filter (fun u => User.id u =? pm_user_id data) (users (db w))))
    then (Raise (py.ValidationError "user_id" "User not found."), w)
    else (Return data, w).

(** [TeamMembership.objects.filter(team_id=t, user=u).exists()] *)
Definition is_team_member (s : Store) (team_pk user_pk : Z) : bool :=
  exists_ (filter (fun m => (TeamMembership.team_id m =? team_pk)
                            && (TeamMembership.user_id m =? user_pk))
                  (team_memberships s)).

Definition user_exists (s : Store) (user_pk : Z) : bool :=
  exists_ (filter (fun u => User.id u =? user_pk) (users s)).

Module TeamViewSet.

(** [get_queryset]: the teams the user is a member of. *)
Definition get_queryset (s : Store) (user_pk : Z) : list Team.t :=
  filter (fun t => is_team_member s (Team.id t) user_pk) (teams s).

(** [serializer.save(created_by=...)] on a [TeamSerializer] without
    instance: the team is inserted, unless its creator is no user. *)
Definition Team_objects_create (data : NamedData) (created_by : Z) : M Team.t :=
  created <- now;;
  stamp <- now;;
  fun w =>
    if negb (user_exists (db w) created_by)
    then (Raise py.IntegrityError, w)
    else
      let row :=
        {| Team.id := next_pk (map Team.id (teams (db w)));
           Team.name := name data;
           Team.description :=
             match description data with Some v => v | None => "" end;
           Team.created_by_id := created_by;
           Team.created_at := created;
           Team.updated_at := stamp |} in
      (Return row, set_db (set_teams (teams (db w) ++ [row]) (db w)) w).

(** [perform_create]; the answer is [serializer.instance], the team the
    201 response serializes. *)
Definition perform_create (request_user : principal) (validated_data : NamedData)
  : M Team.t :=
  atomic
    (created_by <- require_user request_user;;
     team <- Team_objects_create validated_data created_by;;
     views.TeamViewSet.TeamMembership_objects_create (Team.id team) created_by
       TeamMembership.Role.OWNER;;;
     call_create_activity_log
       [("actor", AUser request_user);
        ("event_type", AStr ActivityLog.EventType.TEAM_CREATED);
        ("team", ATeam (Team.id team));
        ("message", AStr ("Team created: " ++ Team.name team))];;;
     ret team).

End TeamViewSet.

Module ProjectViewSet.

(** [get_queryset]: the projects of the team the URL names, for a member
    of that team. *)
Definition get_queryset (s : Store) (user_pk team_pk : Z) : list Project.t :=
  filter (fun p =>
            (Project.team_id p =? team_pk)
            && exists_ (filter (fun t => Team.id t =? Project.team_id p) (teams s))
            && is_team_member s (Project.team_id p) user_pk)
         (projects s).

(** [serializer.save(team_id=..., created_by=...)]: the insert is refused
    when it breaks [unique_together = ("team", "name")] or a foreign key. *)
Definition Project_objects_create (data : NamedData) (team_pk created_by : Z)
  : M Project.t :=
  created <- now;;
  stamp <- now;;
  fun w =>
    if exists_ (filter (fun p => (Project.team_id p =? team_pk)
                                 && (Project.name p =? name data)%string)
                       (projects (db w)))
       || negb (exists_ (filter (fun t => Team.id t =? team_pk) (teams (db w))))
       || negb (user_exists (db w) created_by)
    then (Raise py.IntegrityError, w)
    else
      let row :=
        {| Project.id := next_pk (map Project.id (projects (db w)));
           Project.team_id := team_pk;
           Project.name := name data;
           Project.description :=
             match description data with Some v => v | None => "" end;
           Project.created_by_id := created_by;
           Project.created_at := created;
           Project.updated_at := stamp |} in
      (Return row, set_db (set_projects (projects (db w) ++ [row]) (db w)) w).

(** [ProjectMembership.objects.create(project_id=pk, user=user, role=role)] *)
Definition ProjectMembership_objects_create (project_pk user_pk : Z)
    (role : string) : M ProjectMembership.t :=
  created <- now;;
  stamp <- now;;
  fun w =>
    let table := project_memberships (db w) in
    if is_project_member (db w) project_pk user_pk
       || negb (exists_ (filter (fun p => Project.id p =? project_pk)
                                (projects (db w))))
       || negb (user_exists (db w) user_pk)
    then (Raise py.IntegrityError, w)
    else
      let row :=
        {| ProjectMembership.id := next_pk (map ProjectMembership.id table);
           ProjectMembership.project_id := project_pk;
           ProjectMembership.user_id := user_pk;
           ProjectMembership.role := role;
           ProjectMembership.created_at := created;
           ProjectMembership.updated_at := stamp |} in
      (Return row,
       set_db (set_project_memberships (table ++ [row]) (db w)) w).

Definition perform_create (request_user : principal) (team_pk : Z)
    (validated_data : NamedData) : M Project.t :=
  atomic
    (created_by <- require_user request_user;;
     project <- Project_objects_create validated_data team_pk created_by;;
     ProjectMembership_objects_create (Project.id project) created_by
       ProjectMembership.Role.MANAGER;;;
     call_create_activity_log
       [("actor", AUser request_user);
        ("event_type", AStr ActivityLog.EventType.PROJECT_CREATED);
        ("team_id", AInt team_pk);
        ("project", AProject (Project.id project));
        ("message", AStr ("Project created: " ++ Project.name project))];;;
     ret project).

(** [add_member(self, request, team_pk, pk)]; the answer is the membership
    the 201 response serializes. *)
Definition add_member (request_user : principal) (team_pk pk : Z)
    (request_data : ProjectMembershipCreateData) : M ProjectMembership.t :=
  validated_data <- ProjectMembershipCreateSerializer_is_valid request_data;;
  user <- User_objects_get (pm_user_id validated_data);;
  let role := match pm_role validated_data with
              | Some r => r
              | None => ProjectMembership.Role.CONTRIBUTOR
              end in
  (fun w => if negb (is_team_member (db w) team_pk (User.id user))
            then (Raise (py.ValidationError "detail"
                           "User must be a member of the team before joining project."), w)
            else (Return tt, w));;;
  membership <-
    try_except
      (ProjectMembership_objects_create pk (User.id user) role)
      views.TeamViewSet.is_IntegrityError
      (raise (py.ValidationError "detail" "User is already a member of this project."));;
  call_create_activity_log
    [("actor", AUser request_user);
     ("event_type", AStr ActivityLog.EventType.PROJECT_MEMBER_ADDED);
     ("team_id", AInt team_pk);
     ("project_id", AInt pk);
     ("message", AStr ("Added user " ++ str_of_int (User.id user) ++ " to project"));
     ("metadata", AMeta [("user_id", JInt (User.id user)); ("role", JStr role)])];;;
  ret membership.

End ProjectViewSet.

Module ActivityLogViewSet.

(** [get_queryset]: the log entries of the teams the user belongs to; an
    entry without team joins no team. *)
Definition get_queryset (s : Store) (user_pk : Z) : list ActivityLog.t :=
  filter (fun l => match ActivityLog.team_id l with
                   | Some t =>
                       exists_ (filter (fun tm => Team.id tm =? t) (teams s))
                       && is_team_member s t user_pk
                   | None => false
                   end)
         (activity_logs s).

End ActivityLogViewSet.

End views_more.

(* ===================================================================== *)
(** ** What a run leaves unchanged; a user outside every team *)
(* ===================================================================== *)

Module logic_more.
Import models orm permissions services serializers views views_more.

(** Every run of [m] relates the world before it to the world after it. *)
Definition preserves {A} (R : World -> World -> Prop) (m : M A) : Prop :=
  forall w r w', m w = (r, w') -> R w w'.

(** Every run of [m] ends in an exception. *)
Definition never_returns {A} (m : M A) : Prop :=
  forall w, exists e w', m w = (Raise e, w').

(** Teams and team memberships are as before, and the log rows that were
    added carry no team. *)
Definition feed_unchanged (w w' : World) : Prop :=
  teams (db w') = teams (db w)
  /\ team_memberships (db w') = team_memberships (db w)
  /\ exists l, activity_logs (db w') = (activity_logs (db w) ++ l)%list
               /\ Forall (fun row => ActivityLog.team_id row = None) l.

(** [TeamMembership.team] is a foreign key that cascades. *)
Definition team_membership_team_fk (s : Store) : Prop :=
  forall m, In m (team_memberships s) ->
    exists t, In t (teams s) /\ Team.id t = TeamMembership.team_id m.

End logic_more.

Module sample_more.
Import models orm permissions services serializers views views_more.

(** Erin has an account and belongs to no team. *)
Definition erin :=
  {| User.id := 5; User.username := "erin"; User.email := "erin@example.org" |}.

Definition store (tasks : list Task.t) : Store :=
  {| users := (users (sample.store tasks) ++ [erin])%list;
     teams := teams (sample.store tasks);
     team_memberships := team_memberships (sample.store tasks);
     projects := projects (sample.store tasks);
     project_memberships := project_memberships (sample.store tasks);
     tasks := tasks;
     activity_logs := [] |}.

Definition world (tasks : list Task.t) (faults : list (option py.exn)) : World :=
  {| db := store tasks; clock := 5000; elapsed := [10; 20; 30; 40; 50; 60]%N;
     log_faults := faults; writes := []; logged := [] |}.

(** The keyword arguments of the routes under a team and under a project. *)
Definition team_url (team_pk : Z) : py.dict := [("team_pk", py.PyInt team_pk)].
Definition project_url (project_pk : Z) : py.dict :=
  [("project_pk", py.PyInt project_pk)].

Definition new_team : NamedData := {| name := "Platform"; description := None |}.

(** The failure the insert of a log row meets on a locked database. *)
Definition locked : py.exn := py.DatabaseError "database is locked".

End sample_more.

(* ===================================================================== *)
(** * Properties *)
(* ===================================================================== *)

Import models orm permissions services serializers views logic.

(** ** Querysets *)

Lemma first_filter_Some {A} (f : A -> bool) (l : list A) (x : A) :
  first (filter f l) = Some x -> In x l /\ f x = true.
Proof.
  induction l as [|a l IH]; simpl; [discriminate|].
  destruct (f a) eqn:Ha; simpl.
  - intros [= <-]. auto.
  - intros H. destruct (IH H). auto.
Qed.

Lemma first_filter_None {A} (f : A -> bool) (l : list A) :
  first (filter f l) = None -> forall x, In x l -> f x = false.
Proof.
  induction l as [|a l IH]; simpl; intros H x Hx; [contradiction|].
  destruct (f a) eqn:Ha; simpl in H; [discriminate|].
  destruct Hx as [<-|Hx]; auto.
Qed.

Lemma first_filter_In {A} (f : A -> bool) (l : list A) (x : A) :
  In x l -> f x = true -> exists y, first (filter f l) = Some y.
Proof.
  intros Hx Hf. destruct (first (filter f l)) eqn:E; [eauto|].
  rewrite (first_filter_None f l E x Hx) in Hf. discriminate.
Qed.

Lemma exists_first {A} (l : list A) :
  exists_ l = match first l with Some _ => true | None => false end.
Proof. destruct l; reflexivity. Qed.

Lemma exists_filter_true {A} (f : A -> bool) (l : list A) :
  exists_ (filter f l) = true <-> exists x, In x l /\ f x = true.
Proof.
  rewrite exists_first. split.
  - destruct (first (filter f l)) eqn:E; [|discriminate].
    intros _. exists a. now apply first_filter_Some.
  - intros (x & Hx & Hf). destruct (first_filter_In f l x Hx Hf) as [y ->].
    reflexivity.
Qed.

Lemma exists_filter_false {A} (f : A -> bool) (l : list A) :
  exists_ (filter f l) = false <-> forall x, In x l -> f x = false.
Proof.
  rewrite exists_first. split.
  - destruct (first (filter f l)) eqn:E; [discriminate|].
    intros _. now apply first_filter_None.
  - intros H. destruct (first (filter f l)) eqn:E; [|reflexivity].
    apply first_filter_Some in E as [Hx Hf]. rewrite (H _ Hx) in Hf. discriminate.
Qed.

(** ** Membership lookups *)

Section Membership.
Variable s : Store.
Hypothesis Hc : schema.constraints s.

Lemma project_membership_role (P : principal) (R : Z) (r : string) :
  (is_member (_project_membership s P R) && role_is (_project_membership s P R) r
   = true)
  <-> schema.holds_project_role s P R r.
Proof.
  unfold _project_membership, role_is, schema.holds_project_role. split.
  - destruct P as [| |uid]; simpl; try discriminate.
    destruct (first _) as [m|] eqn:E; simpl; [|discriminate].
    intros H%String.eqb_eq. apply first_filter_Some in E as [Hm Hf].
    apply andb_true_iff in Hf as [H1%Z.eqb_eq H2%Z.eqb_eq].
    exists m. subst. auto.
  - intros (m & Hm & HR & -> & Hr).
    destruct (first_filter_In
                (fun m0 => (ProjectMembership.project_id m0 =? R)
                           && (ProjectMembership.user_id m0 =? ProjectMembership.user_id m))
                _ m Hm) as [m0 E].
    { rewrite HR, !Z.eqb_refl. reflexivity. }
    rewrite E. simpl. apply first_filter_Some in E as [Hm0 Hf].
    apply andb_true_iff in Hf as [H1%Z.eqb_eq H2%Z.eqb_eq].
    assert (m0 = m) as -> by (apply (schema.c_pm_unique s Hc); congruence).
    now apply String.eqb_eq.
Qed.

Lemma team_membership_role (P : principal) (T : Z) (rs : list string) :
  (is_member (_team_membership s P T) && role_in (_team_membership s P T) rs
   = true)
  <-> exists r, In r rs /\ schema.holds_team_role s P T r.
Proof.
  unfold _team_membership, role_in, schema.holds_team_role. split.
  - destruct P as [| |uid]; simpl; try discriminate.
    destruct (first _) as [m|] eqn:E; simpl; [|discriminate].
    intros (r & Hr & He%String.eqb_eq)%existsb_exists.
    apply first_filter_Some in E as [Hm Hf].
    apply andb_true_iff in Hf as [H1%Z.eqb_eq H2%Z.eqb_eq].
    exists r. split; [assumption|]. exists m. subst. auto.
  - intros (r & Hr & m & Hm & HT & -> & Hrole).
    destruct (first_filter_In
                (fun m0 => (TeamMembership.team_id m0 =? T)
                           && (TeamMembership.user_id m0 =? TeamMembership.user_id m))
                _ m Hm) as [m0 E].
    { rewrite HT, !Z.eqb_refl. reflexivity. }
    rewrite E. simpl. apply first_filter_Some in E as [Hm0 Hf].
    apply andb_true_iff in Hf as [H1%Z.eqb_eq H2%Z.eqb_eq].
    assert (m0 = m) as -> by (apply (schema.c_tm_unique s Hc); congruence).
    apply existsb_exists. exists r. split; [assumption|]. now apply String.eqb_eq.
Qed.

Lemma project_lookup (R : Z) (p : Project.t) :
  first (filter (fun p => Project.id p =? R) (projects s)) = Some p
  <-> In p (projects s) /\ Project.id p = R.
Proof.
  split.
  - intros [Hp Hf%Z.eqb_eq]%first_filter_Some. auto.
  - intros [Hp HR].
    destruct (first_filter_In (fun p => Project.id p =? R) _ p Hp) as [p0 E].
    { now apply Z.eqb_eq. }
    rewrite E. apply first_filter_Some in E as [Hp0 Hf%Z.eqb_eq].
    f_equal. apply (schema.c_project_pk s Hc); congruence.
Qed.

(** What [has_permission] of [IsAuthenticatedAndProjectManager] decides for
    a project id. *)
Lemma check_iff (P : principal) (R : Z) :
  IsAuthenticatedAndProjectManager.check s P R = true
  <-> schema.holds_project_role s P R ProjectMembership.Role.MANAGER
      \/ exists T, schema.owning_team s R T
                   /\ (schema.holds_team_role s P T TeamMembership.Role.OWNER
                       \/ schema.holds_team_role s P T TeamMembership.Role.ADMIN).
Proof.
  unfold IsAuthenticatedAndProjectManager.check.
  rewrite <- project_membership_role.
  destruct (is_member _ && role_is _ _) eqn:Hm.
  { split; auto. }
  split.
  - destruct (first _) as [p|] eqn:E; [|discriminate].
    intros H. right. apply project_lookup in E as [Hp HR].
    exists (Project.team_id p). split; [exists p; auto|].
    apply team_membership_role in H as (r & [<-|[<-|[]]] & Hr); auto.
  - intros [H|(T & (p & Hp & HR & HT) & H)]; [discriminate|].
    assert (E : first (filter (fun p => Project.id p =? R) (projects s)) = Some p)
      by (apply project_lookup; auto).
    rewrite E, HT. apply team_membership_role.
    destruct H as [H|H]; eexists; (split; [|exact H]); simpl; auto.
Qed.

End Membership.

(** How [has_permission] finds the project id: a non-zero integer under the
    URL keyword [project_pk] is the id that is checked; without any id, or
    with a text [int] refuses, access is denied. *)
Lemma has_permission_resolves (int_of_str : string -> option Z) (s : Store)
    (P : principal) (R : Z) (view_kwargs request_data : py.dict) :
  (py.get view_kwargs "project_pk" = py.PyInt R -> R <> 0 ->
   IsAuthenticatedAndProjectManager.has_permission int_of_str s P view_kwargs request_data
   = IsAuthenticatedAndProjectManager.check s P R)
  /\ IsAuthenticatedAndProjectManager.has_permission int_of_str s P [] [] = false
  /\ (forall t, t <> "" -> int_of_str t = None ->
        IsAuthenticatedAndProjectManager.has_permission int_of_str s P
          [("project_pk", py.PyStr t)] request_data = false).
Proof.
  unfold IsAuthenticatedAndProjectManager.has_permission. repeat split.
  - intros -> HR. apply Z.eqb_neq in HR.
    unfold py.or_. simpl. rewrite HR. simpl. rewrite HR. simpl.
    rewrite HR. reflexivity.
  - intros t Hne Ht. apply String.eqb_neq in Hne.
    unfold py.or_. simpl. rewrite Hne. simpl. rewrite Hne. simpl.
    rewrite Hne. simpl. rewrite Ht. reflexivity.
Qed.

(** The sample database satisfies the schema. *)
Lemma sample_constraints (tasks : list Task.t) :
  schema.constraints (sample.store tasks).
Proof.
  split.
  - intros m1 m2 H1 H2; simpl in H1, H2.
    repeat (destruct H1 as [<-|H1]; [|]); try contradiction;
      repeat (destruct H2 as [<-|H2]; [|]); try contradiction;
      simpl; intros; try reflexivity; discriminate.
  - intros m1 m2 H1 H2; simpl in H1, H2.
    repeat (destruct H1 as [<-|H1]; [|]); try contradiction;
      repeat (destruct H2 as [<-|H2]; [|]); try contradiction;
      simpl; intros; try reflexivity; discriminate.
  - intros p1 p2 H1 H2; simpl in H1, H2.
    destruct H1 as [<-|[]], H2 as [<-|[]]. reflexivity.
  - intros m H. exists sample.project1. split; [simpl; auto|].
    simpl in H. repeat (destruct H as [<-|H]; [reflexivity|]). contradiction.
Qed.

Lemma sample_team_membership_user_fk (tasks : list Task.t) :
  schema.team_membership_user_fk (sample.store tasks).
Proof.
  intros m H; simpl in H.
  assert (E : exists_ (filter (fun u => User.id u =? TeamMembership.user_id m)
                              (users (sample.store tasks))) = true).
  { repeat (destruct H as [<-|H]; [reflexivity|]). contradiction. }
  apply exists_filter_true in E as (u & Hu & Hf%Z.eqb_eq). eauto.
Qed.

Lemma sample_user_pk_nonzero (tasks : list Task.t) :
  schema.user_pk_nonzero (sample.store tasks).
Proof.
  intros u H; simpl in H.
  repeat (destruct H as [<-|H]; [simpl; discriminate|]). contradiction.
Qed.

(** C1.  Under the schema's uniqueness and foreign-key constraints, the
    project-manager check answers true exactly when the principal holds a
    project membership with role manager on the project, or a team
    membership with role owner or admin on the team that owns the project.
    In particular it answers false when no project has the id, and false
    for a contributor or viewer who is neither owner nor admin of the
    owning team. *)
Theorem can_manage_project_iff (s : Store) (P : principal) (R : Z) :
  schema.constraints s ->
  let allowed := IsAuthenticatedAndProjectManager.check s P R in
  (allowed = true
   <-> schema.holds_project_role s P R "manager"
       \/ exists T, schema.owning_team s R T
                    /\ (schema.holds_team_role s P T "owner"
                        \/ schema.holds_team_role s P T "admin"))
  /\ ((forall p, In p (projects s) -> Project.id p <> R) -> allowed = false)
  /\ (schema.holds_project_role s P R "contributor"
      \/ schema.holds_project_role s P R "viewer" ->
      (forall T, schema.owning_team s R T ->
                 ~ schema.holds_team_role s P T "owner"
                 /\ ~ schema.holds_team_role s P T "admin") ->
      allowed = false).
Proof.
  intros Hc allowed. pose proof (check_iff s Hc P R) as Hiff.
  fold allowed in Hiff. split; [exact Hiff|]. split.
  - intros Hno. destruct allowed; [|reflexivity]. exfalso.
    destruct (proj1 Hiff eq_refl) as [(m & Hm & HR & _)|(T & (p & Hp & HR & _) & _)].
    + destruct (schema.c_pm_fk s Hc m Hm) as (p & Hp & Hid).
      apply (Hno p Hp). congruence.
    + exact (Hno p Hp HR).
  - intros Hrole Hteam. destruct allowed; [|reflexivity]. exfalso.
    destruct (proj1 Hiff eq_refl) as [(m & Hm & HR & HP & Hr)|(T & HT & Ho)].
    + assert (Hne : exists m', In m' (project_memberships s)
                               /\ ProjectMembership.project_id m' = R
                               /\ P = AuthUser (ProjectMembership.user_id m')
                               /\ ProjectMembership.role m' <> "manager").
      { destruct Hrole as [(m' & ? & ? & ? & Hr')|(m' & ? & ? & ? & Hr')];
          exists m'; repeat split; auto; rewrite Hr'; discriminate. }
      destruct Hne as (m' & Hm' & HR' & HP' & Hr').
      apply Hr'. transitivity (ProjectMembership.role m); [f_equal|exact Hr].
      apply (schema.c_pm_unique s Hc); congruence.
    + destruct (Hteam T HT) as [H1 H2]. tauto.
Qed.

Lemma can_manage_project_iff_witness :
  schema.constraints (sample.store [])
  /\ IsAuthenticatedAndProjectManager.check (sample.store []) (AuthUser 1) 1 = true
  /\ IsAuthenticatedAndProjectManager.check (sample.store []) (AuthUser 2) 1 = true
  /\ IsAuthenticatedAndProjectManager.check (sample.store []) (AuthUser 3) 1 = false
  /\ IsAuthenticatedAndProjectManager.check (sample.store []) (AuthUser 1) 7 = false
  /\ (IsAuthenticatedAndProjectManager.check (sample.store []) AnonymousUser 1 = true
      <-> schema.holds_project_role (sample.store []) AnonymousUser 1 "manager"
          \/ exists T, schema.owning_team (sample.store []) 1 T
                       /\ (schema.holds_team_role (sample.store []) AnonymousUser T "owner"
                           \/ schema.holds_team_role (sample.store []) AnonymousUser T "admin")).
Proof.
  split; [apply sample_constraints|].
  repeat split; try reflexivity;
    apply (can_manage_project_iff (sample.store []) AnonymousUser 1
             (sample_constraints [])).
Defined.

(** ** The audit logger *)

(** The logger's own part of its contract.  Whatever exception of class
    [Exception] the store raises on the insert of the log row,
    [create_activity_log] returns: the error is logged on the module logger
    and not raised, the caller gets the unsaved in-memory event built from
    the same arguments, and the database is as it was. *)
Theorem create_activity_log_suppresses_store_errors
    (p : params) (w : World) (e : py.exn) (rest : list (option py.exn)) :
  log_faults w = Some e :: rest ->
  py.isinstance_Exception e = true ->
  exists created w',
    create_activity_log p w = (Return (unsaved p created), w')
    /\ ActivityLog.id (unsaved p created) = None
    /\ db w' = db w
    /\ writes w' = writes w
    /\ logged w'
       = (logged w
          ++ [("Failed to create ActivityLog event_type=" ++ event_type p)%string])%list
    /\ log_faults w' = rest.
Proof.
  intros Hf He.
  unfold create_activity_log, try_except, ActivityLog_objects_create, bind, now.
  simpl. rewrite Hf, He. simpl.
  eexists. eexists. split; [reflexivity|]. simpl. auto.
Qed.

Lemma create_activity_log_suppresses_store_errors_witness :
  exists created w',
    create_activity_log
      {| actor := AuthUser 1; event_type := "task_updated"; message := "Task updated";
         team := None; project := Some 1; task := Some 1; metadata := None |}
      (sample.world [] [Some (py.DatabaseError "database is locked")])
    = (Return (unsaved
                 {| actor := AuthUser 1; event_type := "task_updated";
                    message := "Task updated"; team := None; project := Some 1;
                    task := Some 1; metadata := None |} created), w')
    /\ ActivityLog.id
         (unsaved {| actor := AuthUser 1; event_type := "task_updated";
                     message := "Task updated"; team := None; project := Some 1;
                     task := Some 1; metadata := None |} created) = None
    /\ db w' = db (sample.world [] [Some (py.DatabaseError "database is locked")])
    /\ writes w' = writes (sample.world [] [Some (py.DatabaseError "database is locked")])
    /\ logged w'
       = (logged (sample.world [] [Some (py.DatabaseError "database is locked")])
          ++ [("Failed to create ActivityLog event_type=" ++ "task_updated")%string])%list
    /\ log_faults w' = [].
Proof.
  apply (create_activity_log_suppresses_store_errors
           {| actor := AuthUser 1; event_type := "task_updated";
              message := "Task updated"; team := None; project := Some 1;
              task := Some 1; metadata := None |}
           (sample.world [] [Some (py.DatabaseError "database is locked")])
           (py.DatabaseError "database is locked") []);
    reflexivity.
Defined.

(** C6 fails on the code.  The logger catches the error of the insert, and
    the triggering operation fails all the same where the logger is called
    inside [transaction.atomic].  Erin creates the team "Platform".  When
    the insert of the log row goes through, the team and her owner
    membership are stored.  When it fails on a locked database, the view
    still returns the new team, with key 2, and the error is only logged,
    but the failed insert has marked the transaction for rollback: the
    database is as it was before the request, without the team and without
    the membership. *)
Theorem audit_failure_undoes_team_creation :
  map Team.name
    (teams (db (snd (views_more.TeamViewSet.perform_create (AuthUser 5)
                       sample_more.new_team (sample_more.world [] [])))))
  = ["Core"; "Platform"]
  /\ views_more.is_team_member
       (db (snd (views_more.TeamViewSet.perform_create (AuthUser 5)
                   sample_more.new_team (sample_more.world [] [])))) 2 5 = true
  /\ match fst (views_more.TeamViewSet.perform_create (AuthUser 5)
                  sample_more.new_team
                  (sample_more.world [] [Some sample_more.locked])) with
     | Return team => Some (Team.id team, Team.name team)
     | Raise _ => None
     end = Some (2, "Platform")
  /\ logged (snd (views_more.TeamViewSet.perform_create (AuthUser 5)
                    sample_more.new_team
                    (sample_more.world [] [Some sample_more.locked])))
     = ["Failed to create ActivityLog event_type=team_created"]
  /\ db (snd (views_more.TeamViewSet.perform_create (AuthUser 5)
                sample_more.new_team
                (sample_more.world [] [Some sample_more.locked])))
     = db (sample_more.world [] [Some sample_more.locked])
  /\ map Team.name
       (teams (db (snd (views_more.TeamViewSet.perform_create (AuthUser 5)
                          sample_more.new_team
                          (sample_more.world [] [Some sample_more.locked])))))
     = ["Core"]
  /\ views_more.is_team_member
       (db (snd (views_more.TeamViewSet.perform_create (AuthUser 5)
                   sample_more.new_team
                   (sample_more.world [] [Some sample_more.locked])))) 2 5 = false.
Proof. repeat split; vm_compute; reflexivity. Qed.

(** Without a fault the row is inserted and returned with its key. *)
Lemma create_activity_log_persists (p : params) (w : World) :
  match log_faults w with Some _ :: _ => False | _ => True end ->
  exists row w',
    create_activity_log p w = (Return row, w')
    /\ ActivityLog.id row <> None
    /\ activity_logs (db w') = (activity_logs (db w) ++ [row])%list
    /\ writes w' = (writes w ++ [ActivityLogInsert row])%list
    /\ tasks (db w') = tasks (db w).
Proof.
  intros Hf.
  unfold create_activity_log, try_except, ActivityLog_objects_create, bind, now.
  simpl. destruct (log_faults w) as [|[e|] rest]; try contradiction; simpl;
    (eexists; eexists; split; [reflexivity|]; simpl; repeat split; discriminate).
Qed.

(** A keyword that is no parameter of [create_activity_log] is refused at
    the call, before the body and its [try] run: nothing is written, and
    the [TypeError] reaches the caller. *)
Lemma call_with_unexpected_keyword (kw : kwargs) (k : string) (w : World) :
  unexpected_keyword kw = Some k ->
  call_create_activity_log kw w
  = (Raise (py.TypeError
       ("create_activity_log() got an unexpected keyword argument '" ++ k ++ "'")), w).
Proof. intros H. unfold call_create_activity_log. rewrite H. reflexivity. Qed.

(** ** The monad *)

Lemma bind_inv {A B} (m : M A) (f : A -> M B) (w : World) (r : outcome B) (w' : World) :
  bind m f w = (r, w') ->
  (exists a w1, m w = (Return a, w1) /\ f a w1 = (r, w'))
  \/ (exists e, m w = (Raise e, w') /\ r = Raise e).
Proof.
  unfold bind. destruct (m w) as [[a|e] w1].
  - intros H. left. eauto.
  - intros [= <- <-]. right. eauto.
Qed.

Lemma bind_ext {A B} (m : M A) (f g : A -> M B) (w : World) :
  (forall a w1, f a w1 = g a w1) -> bind m f w = bind m g w.
Proof. intros H. unfold bind. destruct (m w) as [[a|e] w1]; auto. Qed.

(** ** Task updates *)

Lemma get_object_inv (u : principal) (ppk pk : Z) (w : World) r w1 :
  TaskViewSet.get_object u ppk pk w = (r, w1) ->
  w1 = w /\ forall obj, r = Return obj -> In obj (tasks (db w)) /\ Task.id obj = pk.
Proof.
  unfold TaskViewSet.get_object. destruct u as [| |uid]; try (intros [= <- <-]; split; [reflexivity|discriminate]).
  destruct (first _) as [obj|] eqn:E.
  - apply first_filter_Some in E as [Hin Hid%Z.eqb_eq].
    apply filter_In in Hin as [Hin _].
    destruct (IsAuthenticatedAndProjectMember.has_object_permission _ _ _);
      intros [= <- <-]; split; try reflexivity; try discriminate.
    intros ? [= <-]. auto.
  - intros [= <- <-]. split; [reflexivity|discriminate].
Qed.

Lemma is_valid_inv (partial : bool) (data : TaskData) (w : World) r w1 :
  TaskSerializer_is_valid partial data w = (r, w1) ->
  w1 = w /\ forall vd, r = Return vd -> vd = data.
Proof.
  unfold TaskSerializer_is_valid.
  destruct (_ ++ _)%list as [|[field msg] [|more]]; intros [= <- <-];
    (split; [reflexivity|]); try discriminate.
  now intros ? [= <-].
Qed.

(** A payload whose fields all pass is the validated data. *)
Lemma is_valid_returns (partial : bool) (data : TaskData) (w : World) :
  declared_errors partial data = [] ->
  assignee_id_errors (db w) data = [] ->
  TaskSerializer_is_valid partial data w = (Return data, w).
Proof. unfold TaskSerializer_is_valid. now intros -> ->. Qed.

(** The assignee of the payload, when it names a user, passes
    [validate_assignee_id]. *)
Lemma assignee_id_passes (s : Store) (project_pk : Z) (data : TaskData) :
  assignee_acceptable s project_pk data -> assignee_id_errors s data = [].
Proof.
  unfold assignee_acceptable, assignee_id_errors, validate_assignee_id.
  destruct (assignee_id data) as [[a|]|]; try reflexivity.
  intros (x & Hx & _). unfold user_by_id in Hx. now rewrite exists_first, Hx.
Qed.

Lemma create_activity_log_frame (p : params) (w : World) r w1 :
  create_activity_log p w = (r, w1) ->
  tasks (db w1) = tasks (db w) /\ task_writes w1 = task_writes w /\ clock w <= clock w1.
Proof.
  unfold create_activity_log, try_except, ActivityLog_objects_create, bind, now, logger_exception, modify, ret.
  simpl. destruct (log_faults w) as [|[e|] rest]; simpl.
  - intros [= <- <-]. simpl. unfold task_writes. simpl. rewrite filter_app. simpl. rewrite app_nil_r. repeat split. lia.
  - destruct (py.isinstance_Exception e); intros [= <- <-]; simpl; unfold task_writes; simpl; repeat split; lia.
  - intros [= <- <-]. simpl. unfold task_writes. simpl. rewrite filter_app. simpl. rewrite app_nil_r. repeat split. lia.
Qed.

Lemma call_frame (kw : kwargs) (w : World) r w1 :
  call_create_activity_log kw w = (r, w1) ->
  tasks (db w1) = tasks (db w) /\ task_writes w1 = task_writes w /\ clock w <= clock w1.
Proof.
  unfold call_create_activity_log.
  assert (Hraise : forall e, @raise ActivityLog.t e w = (r, w1) ->
            tasks (db w1) = tasks (db w) /\ task_writes w1 = task_writes w /\ clock w <= clock w1).
  { intros e [= <- <-]. repeat split. lia. }
  destruct (unexpected_keyword kw); [apply Hraise|].
  repeat match goal with
         | |- context [match ?x with _ => _ end] => destruct x; try apply Hraise
         end; apply create_activity_log_frame.
Qed.

Lemma Task_save_inv (x y : Task.t) (w : World) :
  In y (tasks (db w)) -> Task.id y = Task.id x ->
  exists w1,
    TaskViewSet.Task_save x w = (Return (Task.set_updated_at (clock (tick w)) x), w1)
    /\ tasks (db w1)
       = update_where (fun r => Task.id r =? Task.id x)
           (fun _ => Task.set_updated_at (clock (tick w)) x) (tasks (db w))
    /\ task_writes w1 = (task_writes w ++ [TaskSave None (Task.set_updated_at (clock (tick w)) x)])%list
    /\ clock w1 = clock (tick w).
Proof.
  intros Hin Hid. unfold TaskViewSet.Task_save, bind, now, modify, ret. simpl.
  assert (E : exists_ (filter (fun r => Task.id r =? Task.id x) (tasks (db w))) = true).
  { apply exists_filter_true. exists y. split; [assumption|now apply Z.eqb_eq]. }
  rewrite E. eexists. split; [reflexivity|]. simpl. repeat split.
  unfold task_writes. simpl. rewrite filter_app. reflexivity.
Qed.

Lemma Task_save_completed_at_inv (x : Task.t) (w : World) r w1 :
  TaskViewSet.Task_save_completed_at x w = (r, w1) ->
  (r = Return tt
   /\ tasks (db w1)
      = update_where (fun r => Task.id r =? Task.id x)
          (Task.set_completed_at (Task.completed_at x)) (tasks (db w))
   /\ task_writes w1 = (task_writes w ++ [TaskSave (Some ["completed_at"]) x])%list
   /\ clock w1 = clock w)
  \/ (r <> Return tt /\ w1 = w).
Proof.
  unfold TaskViewSet.Task_save_completed_at.
  destruct (exists_ _); intros [= <- <-].
  - left. simpl. repeat split. unfold task_writes. simpl. rewrite filter_app. reflexivity.
  - right. split; [discriminate|reflexivity].
Qed.

Lemma tick_clock (w : World) : clock w <= clock (tick w).
Proof. unfold tick; simpl. lia. Qed.

Lemma update_effect_holds (partial : bool) (u : principal) (ppk pk : Z) (data : TaskData)
    (w : World) (r : outcome unit) (w' : World) :
  TaskViewSet.update partial u ppk pk data w = (r, w') -> update_effect w pk data r w'.
Proof.
  unfold TaskViewSet.update. intros H.
  apply bind_inv in H as [(inst & w1 & Hget & H)|(e & Hget & ->)].
  2: { apply get_object_inv in Hget as [-> _]. apply NoWrite; auto; discriminate. }
  pose proof Hget as Hget0. apply get_object_inv in Hget as [-> Hinst].
  destruct (Hinst _ eq_refl) as [Hin Hid]. clear Hinst.
  apply bind_inv in H as [(vd & w1 & Hv & H)|(e & Hv & ->)].
  2: { apply is_valid_inv in Hv as [-> _]. apply NoWrite; auto; discriminate. }
  apply is_valid_inv in Hv as [-> Hvd]. rewrite (Hvd _ eq_refl) in H. clear vd Hvd.
  unfold TaskViewSet.perform_update in H.
  apply bind_inv in H as [(old & w1 & Hget & H)|(e & Hget & ->)].
  2: { rewrite Hget0 in Hget. discriminate. }
  rewrite Hget0 in Hget. injection Hget as <- <-. simpl in H.
  destruct (if TaskViewSet.has_assignee_id data then _ else _) as [aid vd] eqn:Hpop.
  assert (Hvd : TaskViewSet.has_assignee_id vd = false
                /\ forall a x, TaskViewSet.setattrs vd a x = TaskViewSet.setattrs data a x).
  { destruct (TaskViewSet.has_assignee_id data) eqn:Hh;
      unfold TaskViewSet.pop_assignee_id in Hpop; injection Hpop as <- <-;
      split; auto. }
  destruct Hvd as [Hhas Hset]. rewrite Hhas in H. simpl in H.
  match type of H with
  | bind ?m _ _ = _ =>
      assert (Hstep : forall r1 w1, m w = (r1, w1) -> w1 = w)
  end.
  { clear H Hpop. intros r1 w1. unfold ret. destruct aid as [a|]; simpl; [|now intros [= <- <-]].
    destruct (user_by_id (db w) a); [destruct (negb _)|]; now intros [= <- <-]. }
  apply bind_inv in H as [(assignee & w1 & Ha & H)|(e & Ha & ->)].
  2: { apply Hstep in Ha as ->. apply NoWrite; auto; discriminate. }
  apply Hstep in Ha as ->. clear Hstep.
  unfold TaskViewSet.serializer_save in H. simpl in H. rewrite Hset in H.
  destruct (Task_save_inv (TaskViewSet.setattrs data (Task.assignee_id inst) inst)
              inst w Hin eq_refl) as (w1 & Hsave & Ht1 & Hw1 & Hc1).
  change (Task.id (TaskViewSet.setattrs data (Task.assignee_id inst) inst))
    with (Task.id inst) in Ht1.
  rewrite Hid in Ht1.
  fold (saved_row data inst (clock (tick w))) in Hsave, Ht1, Hw1.
  set (stamp := clock (tick w)) in *.
  assert (Hstamp : clock w <= stamp) by apply tick_clock.
  assert (Hrid : Task.id (saved_row data inst stamp) = pk) by exact Hid.
  remember (saved_row data inst stamp) as row eqn:Hrow.
  apply bind_inv in H as [(task & w1' & Hs & H)|(e & Hs & ->)];
    rewrite Hsave in Hs; [|discriminate].
  injection Hs as <- <-.
  apply bind_inv in H as [(ev & w2 & Hlog & H)|(e & Hlog & ->)].
  2: { apply call_frame in Hlog as (Ht2 & Hw2 & Hc2).
       apply (Saved w pk data _ w' inst stamp); rewrite <- ?Hrow; auto; congruence. }
  apply call_frame in Hlog as (Ht2 & Hw2 & Hc2).
  destruct (negb (Task.status inst =? Task.status row)%string) eqn:Hchanged.
  2: { injection H as <- <-.
       apply (Saved w pk data _ w2 inst stamp); rewrite <- ?Hrow; auto; try congruence.
       intros _. unfold stamps_completion. rewrite Hchanged. reflexivity. }
  destruct ((Task.status row =? Task.Status.DONE)%string
            && TaskViewSet.is_none (Task.completed_at row)) eqn:Hdone.
  2: { apply bind_inv in H as [(t0 & w3 & Hr & H)|(e & Hr & ->)]; [|discriminate].
       injection Hr as <- <-.
       assert (Hst : stamps_completion (Task.status inst) row = false).
       { unfold stamps_completion. rewrite Hchanged, Hdone. reflexivity. }
       apply bind_inv in H as [(ev2 & w3 & Hlog2 & H)|(e & Hlog2 & ->)].
       - injection H as <- <-. apply call_frame in Hlog2 as (Ht3 & Hw3 & Hc3).
         apply (Saved w pk data _ w3 inst stamp); rewrite <- ?Hrow; auto; congruence.
       - apply call_frame in Hlog2 as (Ht3 & Hw3 & Hc3).
         apply (Saved w pk data _ w' inst stamp); rewrite <- ?Hrow; auto; congruence. }
  assert (Hst : stamps_completion (Task.status inst) row = true).
  { unfold stamps_completion. rewrite Hchanged, Hdone. reflexivity. }
  apply bind_inv in H as [(t0 & w3 & Hr & H)|(e & Hr & ->)].
  - apply bind_inv in Hr as [(ts & w4 & Hnow & Hr)|(e & Hnow & _)]; [|discriminate].
    injection Hnow as <- <-.
    apply bind_inv in Hr as [([] & w5 & Hp & Hr)|(e & Hp & [=])].
    injection Hr as <- <-.
    apply Task_save_completed_at_inv in Hp as [(_ & Ht5 & Hw5 & Hc5)|[Hne _]];
      [|now contradiction Hne].
    simpl in Ht5, Hw5. rewrite Hrid in Ht5.
    assert (Hfin : tasks (db w') = tasks (db w5) /\ task_writes w' = task_writes w5).
    { apply bind_inv in H as [(ev2 & w6 & Hlog2 & H)|(e & Hlog2 & ->)].
      - injection H as <- <-. apply call_frame in Hlog2 as (? & ? & ?). auto.
      - apply call_frame in Hlog2 as (? & ? & ?). auto. }
    destruct Hfin as [Hf1 Hf2].
    apply (SavedAndStamped w pk data r w' inst stamp (clock (tick w2))); rewrite <- ?Hrow; auto.
    + pose proof (tick_clock w2). lia.
    + rewrite Hf1, Ht5. simpl. rewrite Ht2, Ht1. reflexivity.
    + rewrite Hf2, Hw5. unfold task_writes at 1. simpl. fold (task_writes w2).
      rewrite Hw2, Hw1, <- app_assoc. reflexivity.
  - apply bind_inv in Hr as [(ts & w4 & Hnow & Hr)|(e0 & Hnow & _)]; [|discriminate].
    injection Hnow as <- <-.
    apply bind_inv in Hr as [([] & w5 & Hp & [=])|(e' & Hp & _)].
    apply Task_save_completed_at_inv in Hp as [([=] & _)|[_ ->]].
    apply (Saved w pk data _ _ inst stamp); rewrite <- ?Hrow; auto; simpl; try congruence.
    change (task_writes (tick w2)) with (task_writes w2). congruence.
Qed.

Lemma update_where_pk (pk : Z) (f : Task.t -> Task.t) (l : list Task.t) (x' : Task.t) :
  (forall x, Task.id x = pk -> Task.id (f x) = pk) ->
  (In x' (update_where (fun x => Task.id x =? pk) f l) /\ Task.id x' = pk)
  <-> exists x, In x l /\ Task.id x = pk /\ x' = f x.
Proof.
  intros Hf. unfold update_where. rewrite in_map_iff. split.
  - intros [(x & Hx & Hin) Hid]. destruct (Task.id x =? pk) eqn:E.
    + apply Z.eqb_eq in E. eauto.
    + apply Z.eqb_neq in E. congruence.
  - intros (x & Hin & Hid & ->). split; [|auto].
    exists x. rewrite (proj2 (Z.eqb_eq _ _) Hid). auto.
Qed.

(** The rows with key [pk] after the save of an update. *)
Lemma rows_after_save (pk : Z) (row : Task.t) (l : list Task.t) (x' : Task.t) :
  Task.id row = pk ->
  In x' (update_where (fun x => Task.id x =? pk) (fun _ => row) l) ->
  Task.id x' = pk -> x' = row.
Proof.
  intros Hrow Hin Hid.
  destruct (proj1 (update_where_pk pk (fun _ => row) l x' (fun _ _ => Hrow))
              (conj Hin Hid)) as (x & _ & _ & ->).
  reflexivity.
Qed.

Lemma rows_after_stamp (pk : Z) (row : Task.t) (ts : datetime) (l : list Task.t)
    (x' : Task.t) :
  Task.id row = pk ->
  In x' (update_where (fun x => Task.id x =? pk) (Task.set_completed_at (Some ts))
           (update_where (fun x => Task.id x =? pk) (fun _ => row) l)) ->
  Task.id x' = pk -> x' = Task.set_completed_at (Some ts) row.
Proof.
  intros Hrow Hin Hid.
  destruct (proj1 (update_where_pk pk (Task.set_completed_at (Some ts)) _ x'
                     (fun _ H => H)) (conj Hin Hid)) as (x & Hx & Hxid & ->).
  f_equal. eapply rows_after_save; eauto.
Qed.

Lemma row_survives (pk : Z) (f : Task.t -> Task.t) (l : list Task.t) :
  (forall x, Task.id x = pk -> Task.id (f x) = pk) ->
  (exists x, In x l /\ Task.id x = pk) ->
  exists x', In x' (update_where (fun x => Task.id x =? pk) f l) /\ Task.id x' = pk.
Proof.
  intros Hf (x & Hin & Hid). exists (f x).
  apply (update_where_pk pk f l (f x) Hf). eauto.
Qed.

Lemma stamps_completion_spec (old : string) (task : Task.t) :
  stamps_completion old task = true
  <-> old <> Task.status task /\ Task.status task = "done"
      /\ Task.completed_at task = None.
Proof.
  unfold stamps_completion. rewrite !andb_true_iff, negb_true_iff, String.eqb_neq,
    String.eqb_eq. unfold TaskViewSet.is_none.
  destruct (Task.completed_at task); intuition congruence.
Qed.

(** With failures of class [Exception] only, the audit logger returns. *)
Lemma create_activity_log_returns (p : params) (w : World) :
  faults_are_exceptions w ->
  exists ev w1, create_activity_log p w = (Return ev, w1)
                /\ faults_are_exceptions w1
                /\ tasks (db w1) = tasks (db w).
Proof.
  unfold faults_are_exceptions. intros Hf.
  unfold create_activity_log, try_except, ActivityLog_objects_create, bind, now,
    logger_exception, modify, ret.
  simpl. destruct (log_faults w) as [|[e|] rest] eqn:E; simpl.
  - eexists. eexists. split; [reflexivity|]. simpl. auto.
  - inversion Hf as [|? ? He Hrest]; subst. rewrite He.
    eexists. eexists. split; [reflexivity|]. simpl. auto.
  - inversion Hf as [|? ? _ Hrest]; subst.
    eexists. eexists. split; [reflexivity|]. simpl. auto.
Qed.

Lemma get_object_returns (uid ppk pk : Z) (w : World) (T : Task.t) :
  task_pk_unique (db w) ->
  In T (tasks (db w)) -> Task.id T = pk -> Task.project_id T = ppk -> ppk <> 0 ->
  (exists p, In p (projects (db w)) /\ Project.id p = ppk) ->
  is_project_member (db w) ppk uid = true ->
  TaskViewSet.get_object (AuthUser uid) ppk pk w = (Return T, w).
Proof.
  intros Huniq HT Hid Hp Hnz (p & Hpin & Hpid) Hmem.
  unfold TaskViewSet.get_object.
  assert (Hq : In T (TaskViewSet.get_queryset (db w) uid ppk)).
  { apply filter_In. split; [exact HT|]. rewrite Hp, Z.eqb_refl, Hmem. simpl.
    rewrite andb_true_r. apply exists_filter_true. exists p. split; [exact Hpin|].
    now apply Z.eqb_eq. }
  destruct (first_filter_In (fun t => Task.id t =? pk) _ T Hq) as [y E].
  { now apply Z.eqb_eq. }
  rewrite E. apply first_filter_Some in E as [Hy Hyid%Z.eqb_eq].
  apply filter_In in Hy as [Hy _].
  assert (y = T) as -> by (apply Huniq; congruence).
  unfold IsAuthenticatedAndProjectMember.has_object_permission.
  rewrite Hp, (proj2 (Z.eqb_neq _ _) Hnz).
  unfold _project_membership. unfold is_project_member in Hmem.
  rewrite exists_first in Hmem.
  destruct (first _); [reflexivity|discriminate].
Qed.

Lemma bind_returns {A B} (m : M A) (f : A -> M B) (w w1 : World) (a : A) :
  m w = (Return a, w1) -> bind m f w = f a w1.
Proof. intros H. unfold bind. now rewrite H. Qed.

Lemma call_returns (kw : kwargs) (p : params) (w : World) :
  (forall w0, call_create_activity_log kw w0 = create_activity_log p w0) ->
  faults_are_exceptions w ->
  exists ev w1, call_create_activity_log kw w = (Return ev, w1)
                /\ faults_are_exceptions w1
                /\ tasks (db w1) = tasks (db w).
Proof. intros -> Hf. now apply create_activity_log_returns. Qed.

Lemma stamp_returns (row : Task.t) (w : World) :
  exists_ (filter (fun r => Task.id r =? Task.id row) (tasks (db w))) = true ->
  exists w1,
    (stamp <- now;;
     TaskViewSet.Task_save_completed_at (Task.set_completed_at (Some stamp) row);;;
     ret (Task.set_completed_at (Some stamp) row)) w
    = (Return (Task.set_completed_at (Some (clock (tick w))) row), w1)
    /\ log_faults w1 = log_faults w.
Proof.
  intros H. unfold bind, now, TaskViewSet.Task_save_completed_at, ret. simpl.
  rewrite H. eexists. split; reflexivity.
Qed.

(** An update by a member of the project of the task, with a payload the
    fields accept and an acceptable assignee, succeeds whatever failures of
    class [Exception] the audit inserts meet. *)
Lemma update_succeeds (partial : bool) (uid ppk pk : Z) (data : TaskData) (w : World) (T : Task.t) :
  task_pk_unique (db w) ->
  In T (tasks (db w)) -> Task.id T = pk -> Task.project_id T = ppk -> ppk <> 0 ->
  (exists p, In p (projects (db w)) /\ Project.id p = ppk) ->
  is_project_member (db w) ppk uid = true ->
  declared_errors partial data = [] ->
  assignee_acceptable (db w) ppk data ->
  faults_are_exceptions w ->
  exists w', TaskViewSet.update partial (AuthUser uid) ppk pk data w = (Return tt, w').
Proof.
  intros Huniq HT Hid Hp Hnz Hproj Hmem Hdecl Hass Hf.
  pose proof (get_object_returns uid ppk pk w T Huniq HT Hid Hp Hnz Hproj Hmem) as Hget.
  unfold TaskViewSet.update. rewrite (bind_returns _ _ _ _ _ Hget).
  pose proof (is_valid_returns partial data w Hdecl
                (assignee_id_passes _ _ _ Hass)) as Hvalid.
  rewrite (bind_returns _ _ _ _ _ Hvalid).
  unfold TaskViewSet.perform_update. rewrite (bind_returns _ _ _ _ _ Hget). simpl.
  destruct (if TaskViewSet.has_assignee_id data then _ else _) as [aid vd] eqn:Hpop.
  assert (Hvd : TaskViewSet.has_assignee_id vd = false
                /\ match aid with
                   | Some a => assignee_id data = Some (Some a)
                   | None => True
                   end).
  { destruct data as [t d s p [[a|]|] du st]; simpl in Hpop;
      injection Hpop as <- <-; split; reflexivity. }
  destruct Hvd as [Hhas Haid]. rewrite Hhas. simpl.
  match goal with
  | |- exists _, bind ?m _ _ = _ =>
      assert (Hstep : exists v, m w = (Return v, w))
  end.
  { destruct aid as [a|]; simpl; [|eexists; reflexivity].
    unfold assignee_acceptable in Hass. rewrite Haid in Hass.
    destruct Hass as (x & -> & Hx). rewrite Hp, Hx. simpl. eexists; reflexivity. }
  destruct Hstep as [v Hstep]. rewrite (bind_returns _ _ _ _ _ Hstep).
  unfold TaskViewSet.serializer_save. simpl.
  destruct (Task_save_inv (TaskViewSet.setattrs vd (Task.assignee_id T) T)
              T w HT eq_refl) as (w1 & Hsave & Ht1 & _ & _).
  assert (Hf1 : faults_are_exceptions w1).
  { unfold faults_are_exceptions.
    replace (log_faults w1)
      with (log_faults (snd (TaskViewSet.Task_save
                               (TaskViewSet.setattrs vd (Task.assignee_id T) T) w)))
      by now rewrite Hsave.
    exact Hf. }
  rewrite (bind_returns _ _ _ _ _ Hsave).
  set (row := Task.set_updated_at (clock (tick w))
                (TaskViewSet.setattrs vd (Task.assignee_id T) T)) in *.
  edestruct (call_returns) as (ev & w2 & Hlog & Hf2 & Ht2);
    [|exact Hf1|rewrite (bind_returns _ _ _ _ _ Hlog)].
  { intros w0. reflexivity. }
  destruct (negb (Task.status T =? Task.status row)%string); [|eexists; reflexivity].
  assert (Hrow : exists_ (filter (fun r => Task.id r =? Task.id row) (tasks (db w2)))
                 = true).
  { apply exists_filter_true. rewrite Ht2, Ht1.
    destruct (row_survives (Task.id T) (fun _ => row) (tasks (db w)))
      as (x & Hx & Hxid); [reflexivity|eauto|].
    exists x. split; [exact Hx|]. now apply Z.eqb_eq. }
  destruct ((Task.status row =? Task.Status.DONE)%string
            && TaskViewSet.is_none (Task.completed_at row)).
  - destruct (stamp_returns row w2 Hrow) as (w3 & Hst & Hf3).
    rewrite (bind_returns _ _ _ _ _ Hst).
    edestruct (call_returns) as (ev2 & w4 & Hlog2 & _ & _);
      [| |rewrite (bind_returns _ _ _ _ _ Hlog2); eexists; reflexivity].
    { intros w0. reflexivity. }
    unfold faults_are_exceptions. rewrite Hf3. exact Hf2.
  - rewrite (bind_returns _ _ w2 w2 row eq_refl).
    edestruct (call_returns) as (ev2 & w3 & Hlog2 & _ & _);
      [| |rewrite (bind_returns _ _ _ _ _ Hlog2); eexists; reflexivity].
    { intros w0. reflexivity. }
    exact Hf2.
Qed.

(** C2.  When a task that is not done and has no completion time is
    updated to status done, the update writes the task table exactly twice:
    the save of the changed fields, whose row still has no completion time,
    and one save of [completed_at] alone, which sets it to a time at or
    after the start of the update and leaves the stored task done with that
    time.  Repeating the same update afterwards, whatever its outcome,
    adds no save of [completed_at] and leaves the stored time as it is. *)
Theorem completion_is_stamped_once (partial : bool) (u : principal) (ppk pk : Z) (data : TaskData)
    (w w' : World) (T : Task.t) :
  task_pk_unique (db w) ->
  In T (tasks (db w)) -> Task.id T = pk ->
  Task.status T <> "done" -> Task.completed_at T = None ->
  status data = Some "done" ->
  TaskViewSet.update partial u ppk pk data w = (Return tt, w') ->
  exists row ts,
    task_writes w'
    = (task_writes w
       ++ [TaskSave None row;
           TaskSave (Some ["completed_at"]) (Task.set_completed_at (Some ts) row)])%list
    /\ Task.completed_at row = None
    /\ clock w <= ts
    /\ (exists T', In T' (tasks (db w')) /\ Task.id T' = pk)
    /\ (forall T', In T' (tasks (db w')) -> Task.id T' = pk ->
          Task.status T' = "done" /\ Task.completed_at T' = Some ts)
    /\ forall r2 w2,
         TaskViewSet.update partial u ppk pk data w' = (r2, w2) ->
         (exists more, task_writes w2 = (task_writes w' ++ more)%list
                       /\ existsb is_partial_save more = false)
         /\ (forall T', In T' (tasks (db w2)) -> Task.id T' = pk ->
               Task.completed_at T' = Some ts).
Proof.
  intros Huniq HT Hid Hst Hnull Hdata Hrun.
  destruct (update_effect_holds _ _ _ _ _ _ _ _ Hrun)
    as [_ _ Hne|inst stamp Hin Hiid Hclk Htab Hwr Hno
        |inst stamp ts Hin Hiid Hclk Hts Hstamp Htab Hwr].
  - now contradiction Hne.
  - assert (inst = T) as -> by (apply Huniq; congruence).
    specialize (Hno eq_refl). exfalso.
    assert (Hyes : stamps_completion (Task.status T) (saved_row data T stamp) = true).
    { apply stamps_completion_spec. simpl. rewrite Hdata. auto. }
    congruence.
  - assert (inst = T) as -> by (apply Huniq; congruence).
    set (row := saved_row data T stamp) in *.
    assert (Hrid : Task.id row = pk) by exact Hid.
    assert (Hrows : forall T', In T' (tasks (db w')) -> Task.id T' = pk ->
                               T' = Task.set_completed_at (Some ts) row).
    { intros T' HT' HidT'. rewrite Htab in HT'. eapply rows_after_stamp; eauto. }
    exists row, ts. split; [exact Hwr|]. split; [exact Hnull|]. split; [lia|].
    split.
    { rewrite Htab. apply row_survives; [auto|]. apply row_survives; eauto. }
    split.
    { intros T' HT' HidT'. rewrite (Hrows T' HT' HidT'). simpl. rewrite Hdata. auto. }
    intros r2 w2 Hrun2.
    destruct (update_effect_holds _ _ _ _ _ _ _ _ Hrun2)
      as [Ht2 Hw2 _|inst2 stamp2 Hin2 Hiid2 _ Htab2 Hw2 _
          |inst2 stamp2 ts2 Hin2 Hiid2 _ _ Hstamp2 _ _].
    + split; [exists []; rewrite app_nil_r; auto|].
      intros T' HT' HidT'. rewrite Ht2 in HT'. now rewrite (Hrows T' HT' HidT').
    + split; [eexists; split; [exact Hw2|reflexivity]|].
      intros T' HT' HidT'. rewrite Htab2 in HT'.
      rewrite (rows_after_save pk (saved_row data inst2 stamp2) _ T' Hiid2 HT' HidT').
      simpl. now rewrite (Hrows inst2 Hin2 Hiid2).
    + exfalso. apply stamps_completion_spec in Hstamp2 as (Hdiff & _ & _).
      apply Hdiff. rewrite (Hrows inst2 Hin2 Hiid2). simpl. now rewrite Hdata.
Qed.

Lemma single_task_pk_unique (t : Task.t) (faults : list (option py.exn)) :
  task_pk_unique (db (sample.world [t] faults)).
Proof. intros t1 t2 [<-|[]] [<-|[]] _. reflexivity. Qed.

Lemma completion_is_stamped_once_witness :
  exists row ts,
    task_writes (snd (TaskViewSet.update true (AuthUser 1) 1 1 (sample.patch_status "done")
                        (sample.world [sample.todo_task] [])))
    = (task_writes (sample.world [sample.todo_task] [])
       ++ [TaskSave None row;
           TaskSave (Some ["completed_at"]) (Task.set_completed_at (Some ts) row)])%list
    /\ Task.completed_at row = None
    /\ clock (sample.world [sample.todo_task] []) <= ts
    /\ (exists T', In T' (tasks (db (snd (TaskViewSet.update true (AuthUser 1) 1 1
                                           (sample.patch_status "done")
                                           (sample.world [sample.todo_task] [])))))
                   /\ Task.id T' = 1)
    /\ (forall T', In T' (tasks (db (snd (TaskViewSet.update true (AuthUser 1) 1 1
                                           (sample.patch_status "done")
                                           (sample.world [sample.todo_task] []))))) ->
          Task.id T' = 1 ->
          Task.status T' = "done" /\ Task.completed_at T' = Some ts)
    /\ forall r2 w2,
         TaskViewSet.update true (AuthUser 1) 1 1 (sample.patch_status "done")
           (snd (TaskViewSet.update true (AuthUser 1) 1 1 (sample.patch_status "done")
                   (sample.world [sample.todo_task] [])))
         = (r2, w2) ->
         (exists more,
             task_writes w2
             = (task_writes (snd (TaskViewSet.update true (AuthUser 1) 1 1
                                    (sample.patch_status "done")
                                    (sample.world [sample.todo_task] [])))
                ++ more)%list
             /\ existsb is_partial_save more = false)
         /\ (forall T', In T' (tasks (db w2)) -> Task.id T' = 1 ->
               Task.completed_at T' = Some ts).
Proof.
  apply (completion_is_stamped_once true (AuthUser 1) 1 1 (sample.patch_status "done")
           (sample.world [sample.todo_task] []) _ sample.todo_task).
  - apply single_task_pk_unique.
  - simpl. auto.
  - reflexivity.
  - discriminate.
  - reflexivity.
  - reflexivity.
  - vm_compute. reflexivity.
Defined.

(** C3.  When a task that is done and has a completion time is updated to
    another status, the stored completion time is the same after the
    update, whatever the outcome of the request; the task is still stored,
    and after a successful update it has the new status. *)
Theorem completed_at_survives_leaving_done (partial : bool) (u : principal) (ppk pk : Z)
    (data : TaskData) (w : World) (r : outcome unit) (w' : World)
    (T : Task.t) (c : datetime) (s : string) :
  task_pk_unique (db w) ->
  In T (tasks (db w)) -> Task.id T = pk ->
  Task.status T = "done" -> Task.completed_at T = Some c ->
  status data = Some s -> s <> "done" ->
  TaskViewSet.update partial u ppk pk data w = (r, w') ->
  (exists T', In T' (tasks (db w')) /\ Task.id T' = pk)
  /\ (forall T', In T' (tasks (db w')) -> Task.id T' = pk ->
        Task.completed_at T' = Some c)
  /\ (r = Return tt ->
      forall T', In T' (tasks (db w')) -> Task.id T' = pk -> Task.status T' = s).
Proof.
  intros Huniq HT Hid Hst Hc Hdata Hs Hrun.
  destruct (update_effect_holds _ _ _ _ _ _ _ _ Hrun)
    as [Ht _ Hne|inst stamp Hin Hiid _ Htab _ _
        |inst stamp ts Hin Hiid _ _ Hstamp _ _].
  - rewrite Ht. split; [eauto|]. split.
    + intros T' HT' HidT'. now rewrite (Huniq T' T HT' HT) by congruence.
    + intros ->. now contradiction Hne.
  - assert (inst = T) as -> by (apply Huniq; congruence).
    rewrite Htab. split.
    { apply row_survives; eauto. }
    split.
    + intros T' HT' HidT'.
      rewrite (rows_after_save pk (saved_row data T stamp) _ T' Hid HT' HidT').
      exact Hc.
    + intros _ T' HT' HidT'.
      rewrite (rows_after_save pk (saved_row data T stamp) _ T' Hid HT' HidT').
      simpl. now rewrite Hdata.
  - assert (inst = T) as -> by (apply Huniq; congruence).
    apply stamps_completion_spec in Hstamp as (_ & _ & Hnone).
    simpl in Hnone. congruence.
Qed.

Lemma completed_at_survives_leaving_done_witness :
  (exists T', In T' (tasks (db (snd (TaskViewSet.update true (AuthUser 1) 1 1
                                       (sample.patch_status "in_progress")
                                       (sample.world [sample.done_task] [])))))
              /\ Task.id T' = 1)
  /\ (forall T', In T' (tasks (db (snd (TaskViewSet.update true (AuthUser 1) 1 1
                                          (sample.patch_status "in_progress")
                                          (sample.world [sample.done_task] []))))) ->
                 Task.id T' = 1 -> Task.completed_at T' = Some 4000)
  /\ (fst (TaskViewSet.update true (AuthUser 1) 1 1 (sample.patch_status "in_progress")
             (sample.world [sample.done_task] [])) = Return tt ->
      forall T', In T' (tasks (db (snd (TaskViewSet.update true (AuthUser 1) 1 1
                                          (sample.patch_status "in_progress")
                                          (sample.world [sample.done_task] []))))) ->
                 Task.id T' = 1 -> Task.status T' = "in_progress").
Proof.
  apply (completed_at_survives_leaving_done true (AuthUser 1) 1 1
           (sample.patch_status "in_progress") (sample.world [sample.done_task] [])
           _ _ sample.done_task 4000 "in_progress").
  - apply single_task_pk_unique.
  - simpl. auto.
  - reflexivity.
  - reflexivity.
  - reflexivity.
  - reflexivity.
  - discriminate.
  - vm_compute. reflexivity.
Defined.

(** No update changes the assignee: [perform_update] pops the key
    [assignee_id] from the validated data and afterwards asks whether the
    key is in them, so it always saves the assignee the task had. *)
Lemma update_keeps_assignee (partial : bool) (u : principal) (ppk pk : Z) (data : TaskData)
    (w : World) (r : outcome unit) (w' : World) (T : Task.t) :
  task_pk_unique (db w) ->
  In T (tasks (db w)) -> Task.id T = pk ->
  TaskViewSet.update partial u ppk pk data w = (r, w') ->
  forall T', In T' (tasks (db w')) -> Task.id T' = pk ->
             Task.assignee_id T' = Task.assignee_id T.
Proof.
  intros Huniq HT Hid Hrun T' HT' HidT'.
  destruct (update_effect_holds _ _ _ _ _ _ _ _ Hrun)
    as [Ht _ _|inst stamp Hin Hiid _ Htab _ _
        |inst stamp ts Hin Hiid _ _ _ Htab _].
  - rewrite Ht in HT'. now rewrite (Huniq T' T HT' HT) by congruence.
  - assert (inst = T) as -> by (apply Huniq; congruence).
    rewrite Htab in HT'.
    now rewrite (rows_after_save pk (saved_row data T stamp) _ T' Hid HT' HidT').
  - assert (inst = T) as -> by (apply Huniq; congruence).
    rewrite Htab in HT'.
    now rewrite (rows_after_stamp pk (saved_row data T stamp) ts _ T' Hid HT' HidT').
Qed.

(** C4 fails on the code.  Carol (user 3) exists and is a member of
    project 1; the update of task 1 with [assignee_id = 3] succeeds and the
    stored task still has no assignee.  The update of a task assigned to
    carol with an explicit null succeeds and the task is still assigned to
    carol. *)
Theorem update_discards_the_assignee :
  user_by_id (sample.store [sample.todo_task]) 3 = Some sample.carol
  /\ is_project_member (sample.store [sample.todo_task]) 1 3 = true
  /\ fst (TaskViewSet.update true (AuthUser 1) 1 1 (sample.patch_assignee (Some 3))
            (sample.world [sample.todo_task] [])) = Return tt
  /\ map Task.assignee_id
       (tasks (db (snd (TaskViewSet.update true (AuthUser 1) 1 1
                          (sample.patch_assignee (Some 3))
                          (sample.world [sample.todo_task] []))))) = [None]
  /\ fst (TaskViewSet.update true (AuthUser 1) 1 1 (sample.patch_assignee None)
            (sample.world [sample.assigned_task] [])) = Return tt
  /\ map Task.assignee_id
       (tasks (db (snd (TaskViewSet.update true (AuthUser 1) 1 1
                          (sample.patch_assignee None)
                          (sample.world [sample.assigned_task] []))))) = [Some 3].
Proof. repeat split; vm_compute; reflexivity. Qed.

(** ** Task creation *)

(** A payload that some field refuses is refused by [is_valid] with a
    validation error whose detail lists the errors; nothing changes. *)
Lemma is_valid_raises (partial : bool) (data : TaskData) (w : World) :
  (declared_errors partial data ++ assignee_id_errors (db w) data)%list <> [] ->
  exists e,
    TaskSerializer_is_valid partial data w = (Raise e, w)
    /\ py.is_ValidationError e = true
    /\ py.detail e
       = (declared_errors partial data ++ assignee_id_errors (db w) data)%list.
Proof.
  unfold TaskSerializer_is_valid.
  destruct (_ ++ _)%list as [|[field msg] [|more rest]]; intros H;
    [contradiction| |]; eexists; repeat split; reflexivity.
Qed.

(** What [validate_assignee_id] says of an assignee: nothing when the user
    exists, "not found" otherwise. *)
Lemma assignee_id_errors_spec (s : Store) (data : TaskData) (a : Z) :
  assignee_id data = Some (Some a) ->
  assignee_id_errors s data
  = match user_by_id s a with
    | Some _ => []
    | None => [("assignee_id", "Assignee user not found.")]
    end.
Proof.
  intros Ha. unfold assignee_id_errors, validate_assignee_id, user_by_id.
  rewrite Ha, exists_first. now destruct (first _).
Qed.

(** [perform_create] refuses an assignee who exists and is no member of
    the project, before anything is written. *)
Lemma perform_create_rejects_non_member (u : principal) (project_pk : Z)
    (data : TaskData) (a : Z) (x : User.t) (w : World) :
  schema.user_pk_nonzero (db w) ->
  assignee_id data = Some (Some a) ->
  user_by_id (db w) a = Some x ->
  is_project_member (db w) project_pk a = false ->
  TaskViewSet.perform_create u project_pk data w
  = (Raise (py.ValidationError "assignee_id"
              "Assignee must be a member of the project."), w).
Proof.
  intros Hpk Ha E Hbad. pose proof E as E'. unfold user_by_id in E'.
  apply first_filter_Some in E' as [Hin Hx%Z.eqb_eq].
  assert (Hnz : (a =? 0) = false) by (apply Z.eqb_neq; rewrite <- Hx; now apply Hpk).
  unfold TaskViewSet.perform_create, TaskViewSet.pop_assignee_id, bind, gets.
  rewrite Ha. simpl. rewrite Hnz. simpl. rewrite E, Hx, Hbad. reflexivity.
Qed.

(** C5.  A creation request whose [assignee_id] names no user, or a user
    who is no member of the target project, is refused with a validation
    error, and the world, and so the task table, is as it was.  The error
    names the field [assignee_id] when the user does not exist, and when
    the other fields of the payload are valid it is the error on
    [assignee_id] alone. *)
Theorem create_rejects_bad_assignee (u : principal) (project_pk : Z)
    (data : TaskData) (a : Z) (w : World) :
  schema.user_pk_nonzero (db w) ->
  assignee_id data = Some (Some a) ->
  user_by_id (db w) a = None \/ is_project_member (db w) project_pk a = false ->
  (exists e,
      TaskViewSet.create u project_pk data w = (Raise e, w)
      /\ py.is_ValidationError e = true
      /\ (user_by_id (db w) a = None -> In "assignee_id" (map fst (py.detail e))))
  /\ (declared_errors false data = [] ->
      exists msg,
        TaskViewSet.create u project_pk data w
        = (Raise (py.ValidationError "assignee_id" msg), w)).
Proof.
  intros Hpk Ha Hbad.
  pose proof (assignee_id_errors_spec (db w) data a Ha) as Herr.
  unfold TaskViewSet.create.
  destruct (user_by_id (db w) a) as [x|] eqn:E.
  - destruct Hbad as [Hbad|Hbad]; [discriminate|].
    pose proof (perform_create_rejects_non_member u project_pk data a x w
                  Hpk Ha E Hbad) as Hperform.
    destruct (declared_errors false data) as [|d rest] eqn:Hd.
    + rewrite (bind_returns _ _ _ _ _ (is_valid_returns false data w Hd Herr)).
      rewrite Hperform. split; [|eauto].
      eexists. repeat split. discriminate.
    + destruct (is_valid_raises false data w) as (e & He & Hv & _);
        [rewrite Hd; discriminate|].
      split; [|discriminate]. exists e. unfold bind. rewrite He.
      repeat split; [exact Hv|discriminate].
  - destruct (is_valid_raises false data w) as (e & He & Hv & Hdetail).
    { rewrite Herr. intros H. now apply app_eq_nil in H as [_ H]. }
    unfold bind. rewrite He. split.
    + exists e. repeat split; [exact Hv|]. intros _. rewrite Hdetail, Herr.
      rewrite map_app. apply in_or_app. right. now left.
    + intros Hd. unfold TaskSerializer_is_valid in He. rewrite Hd, Herr in He.
      injection He as <-. eauto.
Qed.

Lemma create_rejects_bad_assignee_witness :
  ((exists e,
       TaskViewSet.create (AuthUser 1) 1 (sample.new_task (Some 9))
         (sample.world [sample.todo_task] [])
       = (Raise e, sample.world [sample.todo_task] [])
       /\ py.is_ValidationError e = true
       /\ (user_by_id (db (sample.world [sample.todo_task] [])) 9 = None ->
           In "assignee_id" (map fst (py.detail e))))
   /\ (exists msg,
         TaskViewSet.create (AuthUser 1) 1 (sample.new_task (Some 9))
           (sample.world [sample.todo_task] [])
         = (Raise (py.ValidationError "assignee_id" msg),
            sample.world [sample.todo_task] [])))
  /\ ((exists e,
          TaskViewSet.create (AuthUser 1) 1 (sample.new_task (Some 2))
            (sample.world [sample.todo_task] [])
          = (Raise e, sample.world [sample.todo_task] [])
          /\ py.is_ValidationError e = true
          /\ (user_by_id (db (sample.world [sample.todo_task] [])) 2 = None ->
              In "assignee_id" (map fst (py.detail e))))
      /\ (exists msg,
            TaskViewSet.create (AuthUser 1) 1 (sample.new_task (Some 2))
              (sample.world [sample.todo_task] [])
            = (Raise (py.ValidationError "assignee_id" msg),
               sample.world [sample.todo_task] []))).
Proof.
  split.
  - destruct (create_rejects_bad_assignee (AuthUser 1) 1 (sample.new_task (Some 9)) 9
                (sample.world [sample.todo_task] [])) as [Hany Hvalid].
    + apply sample_user_pk_nonzero.
    + reflexivity.
    + left. reflexivity.
    + split; [exact Hany|]. apply Hvalid. reflexivity.
  - destruct (create_rejects_bad_assignee (AuthUser 1) 1 (sample.new_task (Some 2)) 2
                (sample.world [sample.todo_task] [])) as [Hany Hvalid].
    + apply sample_user_pk_nonzero.
    + reflexivity.
    + right. reflexivity.
    + split; [exact Hany|]. apply Hvalid. reflexivity.
Defined.

(** The payloads of the witness are valid but for the assignee, and the
    two requests end in the two errors on [assignee_id]. *)
Lemma create_with_bad_assignee :
  declared_errors false (sample.new_task (Some 9)) = []
  /\ fst (TaskViewSet.create (AuthUser 1) 1 (sample.new_task (Some 9))
            (sample.world [sample.todo_task] []))
     = Raise (py.ValidationError "assignee_id" "Assignee user not found.")
  /\ fst (TaskViewSet.create (AuthUser 1) 1 (sample.new_task (Some 2))
            (sample.world [sample.todo_task] []))
     = Raise (py.ValidationError "assignee_id"
                "Assignee must be a member of the project.").
Proof. repeat split; vm_compute; reflexivity. Qed.

(** Without a title the serializer refuses the payload before the view
    looks at the assignee: for bob, who exists and is no member of the
    project, the error names the title alone; for an unknown user it names
    both fields.  Nothing is stored. *)
Lemma create_without_title :
  TaskViewSet.create (AuthUser 1) 1 (sample.patch_assignee (Some 2))
    (sample.world [sample.todo_task] [])
  = (Raise (py.ValidationError "title" "This field is required."),
     sample.world [sample.todo_task] [])
  /\ TaskViewSet.create (AuthUser 1) 1 (sample.patch_assignee (Some 9))
       (sample.world [sample.todo_task] [])
     = (Raise (py.ValidationErrors
                 [("title", "This field is required.");
                  ("assignee_id", "Assignee user not found.")]),
        sample.world [sample.todo_task] []).
Proof. split; vm_compute; reflexivity. Qed.

(** With a valid assignee the task is inserted, and then the call of the
    audit logger with the keyword [project_id] raises [TypeError]. *)
Lemma create_with_member_assignee :
  fst (TaskViewSet.create (AuthUser 1) 1 (sample.new_task (Some 3))
         (sample.world [sample.todo_task] []))
  = Raise (py.TypeError
             "create_activity_log() got an unexpected keyword argument 'project_id'")
  /\ map (fun t => (Task.id t, Task.assignee_id t))
       (tasks (db (snd (TaskViewSet.create (AuthUser 1) 1 (sample.new_task (Some 3))
                          (sample.world [sample.todo_task] [])))))
     = [(1, None); (2, Some 3)].
Proof. split; vm_compute; reflexivity. Qed.

(** ** Team membership *)

(** C9.  When the team already has a membership for the user, [add_member]
    ends in the validation error "User is already a member of this team.":
    the insert is refused by the uniqueness constraint, nothing is written,
    and the database, with the membership that was there, is unchanged. *)
Theorem add_member_rejects_duplicate (u : principal) (pk : Z)
    (data : TeamMembershipCreateData) (w : World) (m : TeamMembership.t) :
  schema.team_membership_user_fk (db w) ->
  In m (team_memberships (db w)) ->
  TeamMembership.team_id m = pk ->
  TeamMembership.user_id m = user_id data ->
  exists w',
    TeamViewSet.add_member u pk data w
    = (Raise (py.ValidationError "detail" "User is already a member of this team."), w')
    /\ db w' = db w
    /\ In m (team_memberships (db w'))
    /\ writes w' = writes w.
Proof.
  intros Hfk Hm Hteam Huser.
  destruct (Hfk m Hm) as (x & Hx & Hxid).
  unfold TeamViewSet.add_member, TeamMembershipCreateSerializer_is_valid, bind.
  assert (E : exists_ (filter (fun x => User.id x =? user_id data) (users (db w))) = true).
  { apply exists_filter_true. exists x. split; [exact Hx|]. apply Z.eqb_eq. congruence. }
  rewrite E. simpl.
  unfold User_objects_get, user_by_id.
  destruct (first (filter (fun x => User.id x =? user_id data) (users (db w))))
    as [x0|] eqn:E0; [|rewrite exists_first, E0 in E; discriminate].
  apply first_filter_Some in E0 as [_ Hx0%Z.eqb_eq].
  unfold try_except, TeamViewSet.TeamMembership_objects_create, bind, now. simpl.
  assert (Edup : exists_ (filter (fun m0 => (TeamMembership.team_id m0 =? pk)
                                            && (TeamMembership.user_id m0 =? User.id x0))
                                 (team_memberships (db w))) = true).
  { apply exists_filter_true. exists m. split; [exact Hm|].
    apply andb_true_iff. split; apply Z.eqb_eq; congruence. }
  rewrite Edup. simpl. eexists. split; [reflexivity|]. simpl. auto.
Qed.

Lemma add_member_rejects_duplicate_witness :
  exists w',
    TeamViewSet.add_member (AuthUser 1) 1 {| user_id := 3; role := Some "admin" |}
      (sample.world [] [])
    = (Raise (py.ValidationError "detail" "User is already a member of this team."), w')
    /\ db w' = db (sample.world [] [])
    /\ In (sample.tm 3 1 3 "member") (team_memberships (db w'))
    /\ writes w' = writes (sample.world [] []).
Proof.
  apply (add_member_rejects_duplicate (AuthUser 1) 1
           {| user_id := 3; role := Some "admin" |} (sample.world [] [])
           (sample.tm 3 1 3 "member")).
  - apply sample_team_membership_user_fk.
  - simpl. auto.
  - reflexivity.
  - reflexivity.
Defined.

(** For a user who is not yet a member the row is inserted, and then the
    call of the audit logger with the keyword [team_id] raises
    [TypeError]. *)
Lemma add_member_of_new_user :
  fst (TeamViewSet.add_member (AuthUser 1) 1 {| user_id := 3; role := None |}
         {| db := set_team_memberships [sample.tm 1 1 1 "owner"] (sample.store []);
            clock := 5000; elapsed := []; log_faults := []; writes := [];
            logged := [] |})
  = Raise (py.TypeError
             "create_activity_log() got an unexpected keyword argument 'team_id'")
  /\ map (fun m => (TeamMembership.user_id m, TeamMembership.role m))
       (team_memberships
          (db (snd (TeamViewSet.add_member (AuthUser 1) 1
                      {| user_id := 3; role := None |}
                      {| db := set_team_memberships [sample.tm 1 1 1 "owner"]
                                 (sample.store []);
                         clock := 5000; elapsed := []; log_faults := [];
                         writes := []; logged := [] |}))))
     = [(1, "owner"); (3, "member")].
Proof. split; vm_compute; reflexivity. Qed.

(** ** The heuristic endpoints *)

(** With a fault of class [Exception], or none, the audit logger returns;
    it raises only what [except Exception] does not catch. *)
Lemma call_outcome (kw : kwargs) (w : World) (r : outcome ActivityLog.t) (w' : World) :
  unexpected_keyword kw = None ->
  (exists a, lookup kw "actor" = Some (AUser a)) ->
  (exists e, lookup kw "event_type" = Some (AStr e)) ->
  (exists m, lookup kw "message" = Some (AStr m)) ->
  (exists t, lookup kw "team" = Some (ATeam t)) ->
  (exists p, lookup kw "project" = Some (AProject p)) ->
  (exists t, lookup kw "task" = Some (ATask t)) ->
  (exists d, lookup kw "metadata" = Some (AMeta d)) ->
  call_create_activity_log kw w = (r, w') ->
  match r with
  | Return _ => True
  | Raise e => py.isinstance_Exception e = false
  end.
Proof.
  intros Hk [a Ha] [e He] [m Hm] [t Ht] [p Hp] [k Hkk] [d Hd].
  unfold call_create_activity_log. rewrite Hk, Ha, He, Hm, Ht, Hp, Hkk, Hd.
  unfold create_activity_log, try_except, ActivityLog_objects_create, bind, now,
    logger_exception, modify, ret.
  simpl. destruct (log_faults w) as [|[x|] rest]; simpl.
  - now intros [= <- <-].
  - destruct (py.isinstance_Exception x) eqn:Hx; now intros [= <- <-].
  - now intros [= <- <-].
Qed.

(** The rules of [priority_suggest] end in low for a done task. *)
Lemma suggest_done (text : string) (due : option datetime) (now : datetime) :
  fst (AIViewSet.suggest text due "done" now) = Task.Priority.LOW.
Proof.
  unfold AIViewSet.suggest.
  change (AIViewSet.str_in "done" [Task.Status.BLOCKED; "blocked"]) with false.
  change (AIViewSet.str_in "done" [Task.Status.DONE; "done"]) with true.
  destruct (py.any_in AIViewSet.urgent_keywords text),
    (py.any_in AIViewSet.high_keywords text);
    destruct due as [d|];
    repeat match goal with
           | |- context [if ?c then _ else _] => destruct c
           end; reflexivity.
Qed.

(** C8.  For a request of [priority_suggest] on a task the user may see,
    whose effective status (the override, else the stored status,
    lower-cased) is done: whatever the text, the due date and the other
    overrides, and whatever failures of class [Exception] the insert of
    the audit row meets, the endpoint answers, and the response suggests
    priority low (1).  Under any failures at all, a response suggests
    priority low, and the endpoint raises only an exception of the audit
    insert that is not of class [Exception]. *)
Theorem done_forces_low_priority (str_lower : string -> string) (u : principal)
    (data : AIPrioritySuggestRequest) (w : World) (task : Task.t)
    (project : Project.t) :
  AIViewSet._get_task_for_user u (ps_task_id data) w = (Return (task, project), w) ->
  AIViewSet.ps_status_val str_lower data task = "done" ->
  (faults_are_exceptions w ->
   exists response w',
     AIViewSet.priority_suggest str_lower u data w = (Return response, w')
     /\ suggested_priority response = 1)
  /\ (forall r w',
        AIViewSet.priority_suggest str_lower u data w = (r, w') ->
        match r with
        | Return response => suggested_priority response = 1
        | Raise e => py.isinstance_Exception e = false
        end).
Proof.
  intros Hget Hdone. unfold AIViewSet.priority_suggest.
  rewrite (bind_returns _ _ _ _ _ Hget).
  rewrite (bind_returns now _ w (tick w) (clock (tick w)) eq_refl).
  rewrite Hdone.
  pose proof (suggest_done
                (str_lower (AIViewSet.ps_title_val data task ++ AIViewSet.newline
                            ++ AIViewSet.ps_description_val data task))
                (AIViewSet.ps_due data task) (clock (tick w))) as Hlow.
  destruct (AIViewSet.suggest _ _ "done" _) as [suggested parts].
  simpl in Hlow. subst suggested. split.
  - intros Hf.
    match goal with
    | |- context [call_create_activity_log ?kw] =>
        destruct (call_returns kw
                    {| actor := u;
                       event_type := ActivityLog.EventType.AI_PRIORITY_SUGGESTED;
                       message := "AI suggested priority";
                       team := Some (Project.team_id project);
                       project := Some (Project.id project);
                       task := Some (Task.id task);
                       metadata := Some [("suggested_priority",
                                          JInt Task.Priority.LOW)] |}
                    (tick w) (fun _ => eq_refl) Hf)
          as (ev & w1 & Hcall & _ & _)
    end.
    rewrite (bind_returns _ _ _ _ _ Hcall).
    eexists. eexists. split; reflexivity.
  - intros r w' H. apply bind_inv in H as [(ev & w1 & Hlog & H)|(e & Hlog & ->)].
    + injection H as <- <-. reflexivity.
    + eapply (call_outcome _ _ (Raise e)); [| | | | | | | |exact Hlog];
        try reflexivity; eexists; reflexivity.
Qed.

Lemma done_forces_low_priority_witness :
  (exists response w',
      AIViewSet.priority_suggest sample.str_lower (AuthUser 1)
        (sample.ps_request (Some "URGENT: customer incident") (Some "Done")
           (Some (Some 5100)))
        (sample.world [sample.todo_task]
           [Some (py.DatabaseError "database is locked")])
      = (Return response, w')
      /\ suggested_priority response = 1)
  /\ (forall r w',
        AIViewSet.priority_suggest sample.str_lower (AuthUser 1)
          (sample.ps_request (Some "URGENT: customer incident") (Some "Done")
             (Some (Some 5100)))
          (sample.world [sample.todo_task]
             [Some (py.DatabaseError "database is locked")])
        = (r, w') ->
        match r with
        | Return response => suggested_priority response = 1
        | Raise e => py.isinstance_Exception e = false
        end).
Proof.
  destruct (done_forces_low_priority sample.str_lower (AuthUser 1)
              (sample.ps_request (Some "URGENT: customer incident") (Some "Done")
                 (Some (Some 5100)))
              (sample.world [sample.todo_task]
                 [Some (py.DatabaseError "database is locked")])
              sample.todo_task sample.project1) as [Hreturns Hany].
  - reflexivity.
  - reflexivity.
  - split; [|exact Hany]. apply Hreturns. repeat constructor.
Defined.

(** The request of the witness is answered with priority low, and with a
    database failure at the audit insert as well. *)
Lemma done_request_is_answered :
  fst (AIViewSet.priority_suggest sample.str_lower (AuthUser 1)
         (sample.ps_request (Some "URGENT: customer incident") (Some "Done")
            (Some (Some 5100)))
         (sample.world [sample.todo_task] []))
  = Return {| suggested_priority := 1;
              rationale := "Detected urgency keywords. Due within 24 hours. Task is done; low priority." |}
  /\ fst (AIViewSet.priority_suggest sample.str_lower (AuthUser 1)
            (sample.ps_request (Some "URGENT: customer incident") (Some "Done")
               (Some (Some 5100)))
            (sample.world [sample.todo_task]
               [Some (py.DatabaseError "database is locked")]))
     = Return {| suggested_priority := 1;
                 rationale := "Detected urgency keywords. Due within 24 hours. Task is done; low priority." |}.
Proof. split; vm_compute; reflexivity. Qed.

(** The same request without the done status is urgent: the keyword and
    the due date within a day both ask for it. *)
Lemma urgent_without_done :
  fst (AIViewSet.priority_suggest sample.str_lower (AuthUser 1)
         (sample.ps_request (Some "URGENT: customer incident") None
            (Some (Some 5100)))
         (sample.world [sample.todo_task] []))
  = Return {| suggested_priority := 4;
              rationale := "Detected urgency keywords. Due within 24 hours." |}.
Proof. vm_compute. reflexivity. Qed.

(** A done task that is neither high nor urgent and has no due date scores
    0.0, level low, with or without assignee: the reset wipes what was
    added before it. *)
Lemma score_done_plain (has_assignee : bool) (priority_val : Z) (now : datetime) :
  AIViewSet.int_in priority_val [Task.Priority.URGENT; Task.Priority.HIGH] = false ->
  AIViewSet.score has_assignee "done" priority_val None now = 0.0%float
  /\ AIViewSet.level_of (AIViewSet.score has_assignee "done" priority_val None now)
     = "low".
Proof.
  intros Hp. unfold AIViewSet.score. rewrite Hp.
  destruct has_assignee; split; vm_compute; reflexivity.
Qed.

(** C7 fails on the code.  Task 1 with the overrides status done, priority
    urgent and a due date in the past: the reset to 0.0 comes before the
    additions for the priority (0.10) and for the overdue date (0.35), so
    the response has score 0.1 + 0.35 (in binary64) and level medium. *)
Theorem delay_risk_of_done_task_is_not_zero :
  fst (AIViewSet.delay_risk sample.str_lower (AuthUser 1)
         (sample.dr_request (Some "done") (Some 4) (Some (Some 100)) None)
         (sample.world [sample.todo_task] []))
  = Return {| risk_score := 0.44999999999999996%float;
              risk_level := "medium";
              explanation :=
                "Baseline heuristic model using due date proximity, status, assignee presence, and priority." |}
  /\ AIViewSet.dr_status_val sample.str_lower
       (sample.dr_request (Some "done") (Some 4) (Some (Some 100)) None)
       sample.todo_task = "done"
  /\ PrimFloat.ltb 0.0 0.44999999999999996 = true.
Proof. repeat split; vm_compute; reflexivity. Qed.

(** ** Overrides of the heuristic endpoints *)

Lemma str_or_empty (s : string) : py.str_or s "" = s.
Proof.
  unfold py.str_or. destruct (s =? "")%string eqn:E; [|reflexivity].
  apply String.eqb_eq in E. now subst.
Qed.

Lemma ps_without_falsy_vals (str_lower : string -> string)
    (data : AIPrioritySuggestRequest) (task : Task.t) :
  AIViewSet.ps_title_val (ps_without_falsy data) task = AIViewSet.ps_title_val data task
  /\ AIViewSet.ps_description_val (ps_without_falsy data) task
     = AIViewSet.ps_description_val data task
  /\ AIViewSet.ps_status_val str_lower (ps_without_falsy data) task
     = AIViewSet.ps_status_val str_lower data task
  /\ AIViewSet.ps_due (ps_without_falsy data) task = AIViewSet.ps_due data task.
Proof.
  destruct data as [tid [[|c1 t]|] [[|c2 d]|] [[due|]|] [[|c3 st]|]];
    repeat split; reflexivity.
Qed.

Lemma dr_without_falsy_vals (str_lower : string -> string)
    (data : AIDelayRiskRequest) (task : Task.t) :
  AIViewSet.dr_due (dr_without_falsy data) task = AIViewSet.dr_due data task
  /\ AIViewSet.dr_status_val str_lower (dr_without_falsy data) task
     = AIViewSet.dr_status_val str_lower data task
  /\ AIViewSet.dr_priority_val (dr_without_falsy data) task
     = AIViewSet.dr_priority_val data task
  /\ AIViewSet.dr_has_assignee_val (dr_without_falsy data) task
     = AIViewSet.dr_has_assignee_val data task.
Proof.
  destruct data as [tid [[due|]|] [[|c st]|] [[|p|p]|] ha];
    repeat split; reflexivity.
Qed.

(** C10.  In both endpoints a falsy override (a blank title, description or
    status, a null due date, a zero priority) gives the response and the
    world that the request without that key gives, and the effective value
    is then the stored one (lower-cased for the status); [has_assignee] is
    the exception: an explicit value, false included, is used as it is, the
    stored assignee is consulted only when the key is absent, and an
    explicit false changes the response for an assigned task. *)
Theorem falsy_overrides_fall_back_to_the_task :
  (forall str_lower u data w,
      AIViewSet.priority_suggest str_lower u data w
      = AIViewSet.priority_suggest str_lower u (ps_without_falsy data) w)
  /\ (forall str_lower u data w,
         AIViewSet.delay_risk str_lower u data w
         = AIViewSet.delay_risk str_lower u (dr_without_falsy data) w)
  /\ (forall str_lower data task,
         (ps_title data = Some "" \/ ps_title data = None ->
          AIViewSet.ps_title_val data task = Task.title task)
         /\ (ps_description data = Some "" \/ ps_description data = None ->
             AIViewSet.ps_description_val data task = Task.description task)
         /\ (ps_status data = Some "" \/ ps_status data = None ->
             AIViewSet.ps_status_val str_lower data task = str_lower (Task.status task))
         /\ (ps_due_date data = Some None \/ ps_due_date data = None ->
             AIViewSet.ps_due data task = Task.due_date task))
  /\ (forall str_lower data task,
         (dr_status data = Some "" \/ dr_status data = None ->
          AIViewSet.dr_status_val str_lower data task = str_lower (Task.status task))
         /\ (dr_due_date data = Some None \/ dr_due_date data = None ->
             AIViewSet.dr_due data task = Task.due_date task)
         /\ (dr_priority data = Some 0 \/ dr_priority data = None ->
             AIViewSet.dr_priority_val data task = Task.priority task))
  /\ (forall data task b,
         dr_has_assignee data = Some b -> AIViewSet.dr_has_assignee_val data task = b)
  /\ (forall data task,
         dr_has_assignee data = None ->
         AIViewSet.dr_has_assignee_val data task = truthy_id (Task.assignee_id task))
  /\ fst (AIViewSet.delay_risk sample.str_lower (AuthUser 1)
            (sample.dr_request None None None (Some false))
            (sample.world [sample.assigned_task] []))
     <> fst (AIViewSet.delay_risk sample.str_lower (AuthUser 1)
               (sample.dr_request None None None None)
               (sample.world [sample.assigned_task] [])).
Proof.
  split; [|split; [|split; [|split; [|split; [|split]]]]].
  - intros str_lower u data w. unfold AIViewSet.priority_suggest.
    simpl ps_task_id. apply bind_ext. intros [task project] w1.
    destruct (ps_without_falsy_vals str_lower data task) as (-> & -> & -> & ->).
    reflexivity.
  - intros str_lower u data w. unfold AIViewSet.delay_risk.
    simpl dr_task_id. apply bind_ext. intros [task project] w1.
    destruct (dr_without_falsy_vals str_lower data task) as (-> & -> & -> & ->).
    reflexivity.
  - intros str_lower data task.
    unfold AIViewSet.ps_due, AIViewSet.ps_title_val, AIViewSet.ps_description_val,
      AIViewSet.ps_status_val.
    repeat split; intros [-> | ->]; simpl; now rewrite ?str_or_empty.
  - intros str_lower data task.
    unfold AIViewSet.dr_due, AIViewSet.dr_status_val, AIViewSet.dr_priority_val.
    repeat split; intros [-> | ->]; simpl; now rewrite ?str_or_empty.
  - intros data task b Hb. unfold AIViewSet.dr_has_assignee_val. now rewrite Hb.
  - intros data task Hb. unfold AIViewSet.dr_has_assignee_val. now rewrite Hb.
  - intros H.
    apply (f_equal (fun r => match r with
                             | Return response => risk_level response
                             | Raise _ => ""
                             end)) in H.
    vm_compute in H. discriminate.
Qed.

(* ===================================================================== *)
(** * The permission classes, the other views and the heuristic rules *)
(* ===================================================================== *)

Import permissions_more views_more logic_more.

(** The permission classes of teams and projects *)

Lemma team_member_lookup (s : Store) (P : principal) (T : Z) :
  is_member (_team_membership s P T) = true
  <-> exists m, In m (team_memberships s) /\ TeamMembership.team_id m = T
                /\ P = AuthUser (TeamMembership.user_id m).
Proof.
  unfold _team_membership. split.
  - destruct P as [| |uid]; simpl; try discriminate.
    destruct (first _) as [m|] eqn:E; simpl; [|discriminate].
    intros _. apply first_filter_Some in E as [Hm Hf].
    apply andb_true_iff in Hf as [H1%Z.eqb_eq H2%Z.eqb_eq].
    exists m. subst. auto.
  - intros (m & Hm & HT & ->).
    destruct (first_filter_In
                (fun m0 => (TeamMembership.team_id m0 =? T)
                           && (TeamMembership.user_id m0 =? TeamMembership.user_id m))
                _ m Hm) as [m0 E].
    { rewrite HT, !Z.eqb_refl. reflexivity. }
    rewrite E. reflexivity.
Qed.

Lemma project_member_lookup (s : Store) (P : principal) (R : Z) :
  is_member (_project_membership s P R) = true
  <-> exists m, In m (project_memberships s) /\ ProjectMembership.project_id m = R
                /\ P = AuthUser (ProjectMembership.user_id m).
Proof.
  unfold _project_membership. split.
  - destruct P as [| |uid]; simpl; try discriminate.
    destruct (first _) as [m|] eqn:E; simpl; [|discriminate].
    intros _. apply first_filter_Some in E as [Hm Hf].
    apply andb_true_iff in Hf as [H1%Z.eqb_eq H2%Z.eqb_eq].
    exists m. subst. auto.
  - intros (m & Hm & HT & ->).
    destruct (first_filter_In
                (fun m0 => (ProjectMembership.project_id m0 =? R)
                           && (ProjectMembership.user_id m0 =? ProjectMembership.user_id m))
                _ m Hm) as [m0 E].
    { rewrite HT, !Z.eqb_refl. reflexivity. }
    rewrite E. reflexivity.
Qed.

Lemma unauthenticated_no_membership (s : Store) (P : principal) (k : Z) :
  is_authenticated P = false ->
  _team_membership s P k = {| is_member := false; permissions.role := None |}
  /\ _project_membership s P k = {| is_member := false; permissions.role := None |}.
Proof. destruct P; simpl; try discriminate; auto. Qed.

(** X1.  A request without an authenticated user (no user at all, or the
    anonymous user) is denied by every permission class of the module,
    whatever ids the URL, the query string and the body carry and whatever
    object is asked for. *)
Theorem unauthenticated_is_denied_everywhere (int_of_str : string -> option Z)
    (s : Store) (P : principal) (view_kwargs query_params request_data : py.dict)
    (obj : model_object) :
  is_authenticated P = false ->
  IsAuthenticatedAndTeamMember.has_permission int_of_str s P view_kwargs
    query_params request_data = false
  /\ IsAuthenticatedAndTeamMember.has_object_permission s P obj = false
  /\ IsAuthenticatedAndTeamAdmin.has_permission int_of_str s P view_kwargs
       request_data = false
  /\ IsAuthenticatedAndProjectMember.has_permission int_of_str s P view_kwargs
       query_params request_data = false
  /\ IsAuthenticatedAndProjectMember.has_object_permission s P obj = false
  /\ permissions.IsAuthenticatedAndProjectManager.has_permission int_of_str s P
       view_kwargs request_data = false.
Proof.
  intros HP.
  assert (Ht : forall k, _team_membership s P k = {| is_member := false; permissions.role := None |})
    by (intros k; now apply unauthenticated_no_membership).
  assert (Hp : forall k, _project_membership s P k = {| is_member := false; permissions.role := None |})
    by (intros k; now apply unauthenticated_no_membership).
  repeat split.
  - unfold IsAuthenticatedAndTeamMember.has_permission. rewrite HP.
    destruct (negb _); [reflexivity|]. destruct (py_int _ _); [|reflexivity].
    now rewrite Ht.
  - unfold IsAuthenticatedAndTeamMember.has_object_permission.
    destruct (match obj with OTeam x => _ | _ => _ end) as [t|]; [|reflexivity].
    destruct (t =? 0); [reflexivity|]. now rewrite Ht.
  - unfold IsAuthenticatedAndTeamAdmin.has_permission.
    destruct (negb _); [reflexivity|]. destruct (py_int _ _); [|reflexivity].
    now rewrite Ht.
  - unfold IsAuthenticatedAndProjectMember.has_permission. rewrite HP.
    destruct (negb _); [reflexivity|]. destruct (py_int _ _); [|reflexivity].
    now rewrite Hp.
  - unfold IsAuthenticatedAndProjectMember.has_object_permission.
    destruct (match obj with OProject x => _ | _ => _ end) as [t|]; [|reflexivity].
    destruct (t =? 0); [reflexivity|]. now rewrite Hp.
  - unfold permissions.IsAuthenticatedAndProjectManager.has_permission.
    destruct (negb _); [reflexivity|]. destruct (py_int _ _) as [k|]; [|reflexivity].
    unfold permissions.IsAuthenticatedAndProjectManager.check. rewrite Hp. simpl.
    destruct (first _); [|reflexivity]. now rewrite Ht.
Qed.

Lemma unauthenticated_is_denied_everywhere_witness :
  IsAuthenticatedAndTeamMember.has_permission sample.int_of_str (sample.store [])
    AnonymousUser [("team_pk", py.PyInt 1); ("project_pk", py.PyInt 1)] [] [] = false
  /\ IsAuthenticatedAndTeamMember.has_object_permission (sample.store [])
       AnonymousUser (OProject sample.project1) = false
  /\ IsAuthenticatedAndTeamAdmin.has_permission sample.int_of_str (sample.store [])
       AnonymousUser [("team_pk", py.PyInt 1); ("project_pk", py.PyInt 1)] [] = false
  /\ IsAuthenticatedAndProjectMember.has_permission sample.int_of_str (sample.store [])
       AnonymousUser [("team_pk", py.PyInt 1); ("project_pk", py.PyInt 1)] [] [] = false
  /\ IsAuthenticatedAndProjectMember.has_object_permission (sample.store [])
       AnonymousUser (OProject sample.project1) = false
  /\ permissions.IsAuthenticatedAndProjectManager.has_permission sample.int_of_str
       (sample.store []) AnonymousUser
       [("team_pk", py.PyInt 1); ("project_pk", py.PyInt 1)] [] = false.
Proof.
  apply (unauthenticated_is_denied_everywhere sample.int_of_str (sample.store [])
           AnonymousUser [("team_pk", py.PyInt 1); ("project_pk", py.PyInt 1)] [] []
           (OProject sample.project1)).
  reflexivity.
Defined.

Lemma truthy_or (a b : py.value) :
  py.truthy (py.or_ a b) = py.truthy a || py.truthy b.
Proof. unfold py.or_. destruct (py.truthy a) eqn:E; simpl; auto. Qed.

Lemma or_truthy_left (a b : py.value) : py.truthy a = true -> py.or_ a b = a.
Proof. unfold py.or_. now intros ->. Qed.

Lemma or_falsy_left (a b : py.value) : py.truthy a = false -> py.or_ a b = b.
Proof. unfold py.or_. now intros ->. Qed.

(** X2.  When neither the URL, the query string nor the body names a team
    (a project), the member check of teams (of projects) passes exactly for
    an authenticated user, and the admin and manager checks refuse. *)
Theorem requests_without_an_id (int_of_str : string -> option Z) (s : Store)
    (P : principal) (view_kwargs query_params request_data : py.dict) :
  py.truthy (IsAuthenticatedAndTeamMember.team_id_of view_kwargs query_params
               request_data) = false ->
  py.truthy (IsAuthenticatedAndProjectMember.project_id_of view_kwargs query_params
               request_data) = false ->
  IsAuthenticatedAndTeamMember.has_permission int_of_str s P view_kwargs
    query_params request_data = is_authenticated P
  /\ IsAuthenticatedAndProjectMember.has_permission int_of_str s P view_kwargs
       query_params request_data = is_authenticated P
  /\ IsAuthenticatedAndTeamAdmin.has_permission int_of_str s P view_kwargs
       request_data = false
  /\ permissions.IsAuthenticatedAndProjectManager.has_permission int_of_str s P
       view_kwargs request_data = false.
Proof.
  intros Ht Hp. repeat split.
  - unfold IsAuthenticatedAndTeamMember.has_permission. now rewrite Ht.
  - unfold IsAuthenticatedAndProjectMember.has_permission. now rewrite Hp.
  - unfold IsAuthenticatedAndTeamAdmin.has_permission,
      IsAuthenticatedAndTeamAdmin.team_id_of.
    unfold IsAuthenticatedAndTeamMember.team_id_of in Ht.
    rewrite !truthy_or in Ht. rewrite !truthy_or.
    apply orb_false_iff in Ht as [Ht H4]. apply orb_false_iff in Ht as [Ht H3].
    apply orb_false_iff in Ht as [H1 H2]. now rewrite H1, H3, H4.
  - unfold permissions.IsAuthenticatedAndProjectManager.has_permission.
    unfold IsAuthenticatedAndProjectMember.project_id_of in Hp.
    rewrite !truthy_or in Hp. rewrite !truthy_or.
    apply orb_false_iff in Hp as [Hp H4]. apply orb_false_iff in Hp as [Hp H3].
    apply orb_false_iff in Hp as [H1 H2]. now rewrite H1, H3, H4.
Qed.

Lemma requests_without_an_id_witness :
  IsAuthenticatedAndTeamMember.has_permission sample.int_of_str (sample.store [])
    (AuthUser 3) [] [("team", py.PyStr "")] [("project", py.PyInt 0)]
  = is_authenticated (AuthUser 3)
  /\ IsAuthenticatedAndProjectMember.has_permission sample.int_of_str (sample.store [])
       (AuthUser 3) [] [("team", py.PyStr "")] [("project", py.PyInt 0)]
     = is_authenticated (AuthUser 3)
  /\ IsAuthenticatedAndTeamAdmin.has_permission sample.int_of_str (sample.store [])
       (AuthUser 3) [] [("project", py.PyInt 0)] = false
  /\ permissions.IsAuthenticatedAndProjectManager.has_permission sample.int_of_str
       (sample.store []) (AuthUser 3) [] [("project", py.PyInt 0)] = false.
Proof.
  apply (requests_without_an_id sample.int_of_str (sample.store []) (AuthUser 3)
           [] [("team", py.PyStr "")] [("project", py.PyInt 0)]); reflexivity.
Defined.

(** X3.  When the request names a team by an id that [int] accepts,
    [IsAuthenticatedAndTeamMember.has_permission] passes exactly when the
    team has a membership row of the requesting user. *)
Theorem team_member_permission_iff (int_of_str : string -> option Z) (s : Store)
    (P : principal) (view_kwargs query_params request_data : py.dict) (T : Z) :
  py.truthy (IsAuthenticatedAndTeamMember.team_id_of view_kwargs query_params
               request_data) = true ->
  py_int int_of_str (IsAuthenticatedAndTeamMember.team_id_of view_kwargs
                       query_params request_data) = Some T ->
  IsAuthenticatedAndTeamMember.has_permission int_of_str s P view_kwargs
    query_params request_data = true
  <-> exists m, In m (team_memberships s) /\ TeamMembership.team_id m = T
                /\ P = AuthUser (TeamMembership.user_id m).
Proof.
  intros Ht Hi. unfold IsAuthenticatedAndTeamMember.has_permission.
  rewrite Ht, Hi. simpl. apply team_member_lookup.
Qed.

Lemma team_member_permission_iff_witness :
  IsAuthenticatedAndTeamMember.has_permission sample.int_of_str (sample.store [])
    (AuthUser 3) [] [("team", py.PyStr "1")] [] = true
  <-> exists m, In m (team_memberships (sample.store []))
                /\ TeamMembership.team_id m = 1
                /\ AuthUser 3 = AuthUser (TeamMembership.user_id m).
Proof.
  apply (team_member_permission_iff sample.int_of_str (sample.store []) (AuthUser 3)
           [] [("team", py.PyStr "1")] [] 1); reflexivity.
Defined.

(** X4.  When the request names a project by an id that [int] accepts,
    [IsAuthenticatedAndProjectMember.has_permission] passes exactly when
    the project has a membership row of the requesting user. *)
Theorem project_member_permission_iff (int_of_str : string -> option Z) (s : Store)
    (P : principal) (view_kwargs query_params request_data : py.dict) (R : Z) :
  py.truthy (IsAuthenticatedAndProjectMember.project_id_of view_kwargs query_params
               request_data) = true ->
  py_int int_of_str (IsAuthenticatedAndProjectMember.project_id_of view_kwargs
                       query_params request_data) = Some R ->
  IsAuthenticatedAndProjectMember.has_permission int_of_str s P view_kwargs
    query_params request_data = true
  <-> exists m, In m (project_memberships s) /\ ProjectMembership.project_id m = R
                /\ P = AuthUser (ProjectMembership.user_id m).
Proof.
  intros Ht Hi. unfold IsAuthenticatedAndProjectMember.has_permission.
  rewrite Ht, Hi. simpl. apply project_member_lookup.
Qed.

Lemma project_member_permission_iff_witness :
  IsAuthenticatedAndProjectMember.has_permission sample.int_of_str (sample.store [])
    (AuthUser 2) (sample_more.project_url 1) [] [] = true
  <-> exists m, In m (project_memberships (sample.store []))
                /\ ProjectMembership.project_id m = 1
                /\ AuthUser 2 = AuthUser (ProjectMembership.user_id m).
Proof.
  apply (project_member_permission_iff sample.int_of_str (sample.store []) (AuthUser 2)
           (sample_more.project_url 1) [] [] 1); reflexivity.
Defined.

Lemma team_role_lookup (s : Store) (P : principal) (T : Z) (rs : list string) :
  schema.team_membership_unique s ->
  (is_member (_team_membership s P T) && role_in (_team_membership s P T) rs = true)
  <-> exists r, In r rs /\ schema.holds_team_role s P T r.
Proof.
  intros Hu. unfold _team_membership, role_in, schema.holds_team_role. split.
  - destruct P as [| |uid]; simpl; try discriminate.
    destruct (first _) as [m|] eqn:E; simpl; [|discriminate].
    intros (r & Hr & He%String.eqb_eq)%existsb_exists.
    apply first_filter_Some in E as [Hm Hf].
    apply andb_true_iff in Hf as [H1%Z.eqb_eq H2%Z.eqb_eq].
    exists r. split; [assumption|]. exists m. subst. auto.
  - intros (r & Hr & m & Hm & HT & -> & Hrole).
    destruct (first_filter_In
                (fun m0 => (TeamMembership.team_id m0 =? T)
                           && (TeamMembership.user_id m0 =? TeamMembership.user_id m))
                _ m Hm) as [m0 E].
    { rewrite HT, !Z.eqb_refl. reflexivity. }
    rewrite E. simpl. apply first_filter_Some in E as [Hm0 Hf].
    apply andb_true_iff in Hf as [H1%Z.eqb_eq H2%Z.eqb_eq].
    assert (m0 = m) as -> by (apply Hu; congruence).
    apply existsb_exists. exists r. split; [assumption|]. now apply String.eqb_eq.
Qed.

(** X5.  With at most one membership per team and user, and a team named
    by an id that [int] accepts, [IsAuthenticatedAndTeamAdmin.has_permission]
    passes exactly when the requesting user is owner or admin of that
    team. *)
Theorem team_admin_permission_iff (int_of_str : string -> option Z) (s : Store)
    (P : principal) (view_kwargs request_data : py.dict) (T : Z) :
  schema.team_membership_unique s ->
  py.truthy (IsAuthenticatedAndTeamAdmin.team_id_of view_kwargs request_data) = true ->
  py_int int_of_str (IsAuthenticatedAndTeamAdmin.team_id_of view_kwargs request_data)
  = Some T ->
  IsAuthenticatedAndTeamAdmin.has_permission int_of_str s P view_kwargs request_data
  = true
  <-> schema.holds_team_role s P T "owner" \/ schema.holds_team_role s P T "admin".
Proof.
  intros Hu Ht Hi. unfold IsAuthenticatedAndTeamAdmin.has_permission.
  rewrite Ht, Hi. simpl. rewrite (team_role_lookup s P T _ Hu). split.
  - intros (r & [<-|[<-|[]]] & Hr); auto.
  - intros [H|H]; eexists; (split; [|exact H]); simpl; auto.
Qed.

Lemma team_admin_permission_iff_witness :
  IsAuthenticatedAndTeamAdmin.has_permission sample.int_of_str (sample.store [])
    (AuthUser 2) (sample_more.team_url 1) [] = true
  <-> schema.holds_team_role (sample.store []) (AuthUser 2) 1 "owner"
      \/ schema.holds_team_role (sample.store []) (AuthUser 2) 1 "admin".
Proof.
  apply (team_admin_permission_iff sample.int_of_str (sample.store []) (AuthUser 2)
           (sample_more.team_url 1) [] 1
           (schema.c_tm_unique _ (sample_constraints []))); reflexivity.
Defined.

(** X6.  A request that passes the team admin check passes the team member
    check too, provided the team comes from the URL or the query string
    names none: the admin check does not read the query string, the member
    check reads it before the body. *)
Theorem team_admin_implies_team_member (int_of_str : string -> option Z)
    (s : Store) (P : principal) (view_kwargs query_params request_data : py.dict) :
  py.truthy (py.get view_kwargs "team_pk") = true
  \/ py.truthy (py.get query_params "team") = false ->
  IsAuthenticatedAndTeamAdmin.has_permission int_of_str s P view_kwargs request_data
  = true ->
  IsAuthenticatedAndTeamMember.has_permission int_of_str s P view_kwargs
    query_params request_data = true.
Proof.
  intros Hq.
  assert (E : IsAuthenticatedAndTeamMember.team_id_of view_kwargs query_params
                request_data
              = IsAuthenticatedAndTeamAdmin.team_id_of view_kwargs request_data).
  { unfold IsAuthenticatedAndTeamMember.team_id_of,
      IsAuthenticatedAndTeamAdmin.team_id_of.
    destruct Hq as [Hk|Hq].
    - now rewrite !(or_truthy_left (py.get view_kwargs "team_pk")) by exact Hk.
    - destruct (py.truthy (py.get view_kwargs "team_pk")) eqn:Hk.
      + now rewrite !(or_truthy_left (py.get view_kwargs "team_pk")) by exact Hk.
      + rewrite !(or_falsy_left (py.get view_kwargs "team_pk")) by exact Hk.
        now rewrite (or_falsy_left (py.get query_params "team")) by exact Hq. }
  unfold IsAuthenticatedAndTeamAdmin.has_permission,
    IsAuthenticatedAndTeamMember.has_permission. rewrite E.
  destruct (negb _); [discriminate|].
  destruct (py_int _ _); [|discriminate].
  now intros [H _]%andb_true_iff.
Qed.

Lemma team_admin_implies_team_member_witness :
  IsAuthenticatedAndTeamMember.has_permission sample.int_of_str (sample.store [])
    (AuthUser 2) (sample_more.team_url 1) [("team", py.PyInt 9)] [] = true.
Proof.
  apply (team_admin_implies_team_member sample.int_of_str (sample.store [])
           (AuthUser 2) (sample_more.team_url 1) [("team", py.PyInt 9)] []).
  - left. reflexivity.
  - reflexivity.
Defined.

(** X7.  An owner or admin of the team that owns a project, who holds no
    membership of the project, passes the project manager check for the
    project of the URL and fails the project member check for it. *)
Theorem team_admin_manages_without_membership (int_of_str : string -> option Z)
    (s : Store) (P : principal) (R T : Z)
    (view_kwargs query_params request_data : py.dict) :
  schema.constraints s ->
  schema.owning_team s R T ->
  schema.holds_team_role s P T "owner" \/ schema.holds_team_role s P T "admin" ->
  (forall m, In m (project_memberships s) -> ProjectMembership.project_id m = R ->
             P <> AuthUser (ProjectMembership.user_id m)) ->
  py.get view_kwargs "project_pk" = py.PyInt R -> R <> 0 ->
  permissions.IsAuthenticatedAndProjectManager.has_permission int_of_str s P
    view_kwargs request_data = true
  /\ IsAuthenticatedAndProjectMember.has_permission int_of_str s P view_kwargs
       query_params request_data = false.
Proof.
  intros Hc HT Hrole Hno Hk HR. split.
  - rewrite (proj1 (has_permission_resolves int_of_str s P R view_kwargs request_data) Hk HR).
    apply (check_iff s Hc). right. exists T. auto.
  - unfold IsAuthenticatedAndProjectMember.has_permission,
      IsAuthenticatedAndProjectMember.project_id_of.
    rewrite Hk. apply Z.eqb_neq in HR. unfold py.or_. simpl. rewrite HR. simpl.
    rewrite HR. simpl. rewrite HR. simpl. rewrite HR. simpl.
    destruct (is_member (_project_membership s P R)) eqn:E; [|reflexivity].
    apply project_member_lookup in E as (m & Hm & HR' & HP).
    now contradiction (Hno m Hm HR').
Qed.

Lemma bob_is_team_admin : schema.holds_team_role (sample.store []) (AuthUser 2) 1 "admin".
Proof. exists (sample.tm 2 1 2 "admin"). simpl. auto 10. Qed.

Lemma bob_has_no_project_membership (m : ProjectMembership.t) :
  In m (project_memberships (sample.store [])) ->
  ProjectMembership.project_id m = 1 ->
  AuthUser 2 <> AuthUser (ProjectMembership.user_id m).
Proof. simpl. intros [<-|[<-|[<-|[]]]] _; discriminate. Qed.

Lemma team_admin_manages_without_membership_witness :
  permissions.IsAuthenticatedAndProjectManager.has_permission sample.int_of_str
    (sample.store []) (AuthUser 2) (sample_more.project_url 1) [] = true
  /\ IsAuthenticatedAndProjectMember.has_permission sample.int_of_str (sample.store [])
       (AuthUser 2) (sample_more.project_url 1) [] [] = false.
Proof.
  apply (team_admin_manages_without_membership sample.int_of_str (sample.store [])
           (AuthUser 2) 1 1 (sample_more.project_url 1) [] []).
  - apply sample_constraints.
  - exists sample.project1. simpl. auto.
  - right. apply bob_is_team_admin.
  - apply bob_has_no_project_membership.
  - reflexivity.
  - discriminate.
Defined.

(** What an update reads and what it leaves alone *)

(** X8.  [get_object] of the task views, for a project id that is not 0:
    a user who is no member of the project of the URL gets [Http404], and
    so does anyone asking for a task id that no task of that project has;
    whatever it answers, it changes nothing, an object it returns is a
    stored task of that project with the id asked for, shown to a member,
    and the only exception it raises is [Http404]. *)
Theorem get_object_hides_tasks_from_non_members (uid ppk pk : Z) (w : World) :
  ppk <> 0 ->
  (is_project_member (db w) ppk uid = false ->
   TaskViewSet.get_object (AuthUser uid) ppk pk w = (Raise py.Http404, w))
  /\ ((forall t, In t (tasks (db w)) -> Task.id t = pk -> Task.project_id t <> ppk) ->
      TaskViewSet.get_object (AuthUser uid) ppk pk w = (Raise py.Http404, w))
  /\ forall r w',
       TaskViewSet.get_object (AuthUser uid) ppk pk w = (r, w') ->
       w' = w
       /\ match r with
          | Return obj =>
              In obj (tasks (db w)) /\ Task.id obj = pk /\ Task.project_id obj = ppk
              /\ is_project_member (db w) ppk uid = true
          | Raise e => e = py.Http404
          end.
Proof.
  intros Hnz. unfold TaskViewSet.get_object. split; [|split].
  - intros Hno.
    destruct (first _) as [obj|] eqn:E; [|reflexivity].
    apply first_filter_Some in E as [Hin _].
    apply filter_In in Hin as [_ Hf].
    apply andb_true_iff in Hf as [Hf Hm]. apply andb_true_iff in Hf as [Hp%Z.eqb_eq _].
    rewrite Hp in Hm. congruence.
  - intros Hno.
    destruct (first _) as [obj|] eqn:E; [|reflexivity].
    apply first_filter_Some in E as [Hin Hid%Z.eqb_eq].
    apply filter_In in Hin as [Hin Hf].
    apply andb_true_iff in Hf as [Hf _]. apply andb_true_iff in Hf as [Hp%Z.eqb_eq _].
    now contradiction (Hno obj Hin Hid).
  - intros r w'. destruct (first _) as [obj|] eqn:E.
    + apply first_filter_Some in E as [Hin Hid%Z.eqb_eq].
      apply filter_In in Hin as [Hin Hf].
      apply andb_true_iff in Hf as [Hf Hm].
      apply andb_true_iff in Hf as [Hp%Z.eqb_eq _]. rewrite Hp in Hm.
      unfold permissions.IsAuthenticatedAndProjectMember.has_object_permission.
      rewrite Hp, (proj2 (Z.eqb_neq _ _) Hnz).
      unfold _project_membership. unfold is_project_member in Hm.
      pose proof Hm as Hm'. rewrite exists_first in Hm'.
      destruct (first (filter _ (project_memberships (db w)))); [|discriminate].
      simpl. intros [= <- <-]. auto.
    + intros [= <- <-]. auto.
Qed.

Lemma get_object_hides_tasks_from_non_members_witness :
  (is_project_member (db (sample.world [sample.todo_task] [])) 1 2 = false ->
   TaskViewSet.get_object (AuthUser 2) 1 1 (sample.world [sample.todo_task] [])
   = (Raise py.Http404, sample.world [sample.todo_task] []))
  /\ ((forall t, In t (tasks (db (sample.world [sample.todo_task] []))) ->
                 Task.id t = 1 -> Task.project_id t <> 1) ->
      TaskViewSet.get_object (AuthUser 2) 1 1 (sample.world [sample.todo_task] [])
      = (Raise py.Http404, sample.world [sample.todo_task] []))
  /\ forall r w',
       TaskViewSet.get_object (AuthUser 2) 1 1 (sample.world [sample.todo_task] [])
       = (r, w') ->
       w' = sample.world [sample.todo_task] []
       /\ match r with
          | Return obj =>
              In obj (tasks (db (sample.world [sample.todo_task] [])))
              /\ Task.id obj = 1 /\ Task.project_id obj = 1
              /\ is_project_member (db (sample.world [sample.todo_task] [])) 1 2 = true
          | Raise e => e = py.Http404
          end.
Proof.
  apply (get_object_hides_tasks_from_non_members 2 1 1
           (sample.world [sample.todo_task] [])).
  discriminate.
Defined.

(** X9.  An update, partial or not, of a task the user may see, whose
    payload is valid but for an assignee who is no user or no member of
    the project of the task, ends in a validation error on [assignee_id]
    and leaves the world as it was: nothing is saved and nothing is
    logged. *)
Theorem update_rejects_bad_assignee (partial : bool) (u : principal) (ppk pk : Z)
    (data : TaskData) (a : Z) (w : World) (T : Task.t) :
  TaskViewSet.get_object u ppk pk w = (Return T, w) ->
  declared_errors partial data = [] ->
  assignee_id data = Some (Some a) ->
  user_by_id (db w) a = None
  \/ is_project_member (db w) (Task.project_id T) a = false ->
  exists msg,
    TaskViewSet.update partial u ppk pk data w
    = (Raise (py.ValidationError "assignee_id" msg), w).
Proof.
  intros Hget Hd Ha Hbad. unfold TaskViewSet.update.
  rewrite (bind_returns _ _ _ _ _ Hget).
  pose proof (assignee_id_errors_spec (db w) data a Ha) as Herr.
  destruct (user_by_id (db w) a) as [x|] eqn:E.
  - destruct Hbad as [Hbad|Hbad]; [discriminate|].
    rewrite (bind_returns _ _ _ _ _ (is_valid_returns partial data w Hd Herr)).
    pose proof E as E'. unfold user_by_id in E'.
    apply first_filter_Some in E' as [_ Hx%Z.eqb_eq].
    unfold TaskViewSet.perform_update. rewrite (bind_returns _ _ _ _ _ Hget).
    destruct data as [t d s p aid du st]; simpl in Ha; subst aid. simpl.
    unfold bind at 1. rewrite E, Hx, Hbad. simpl. eauto.
  - unfold bind at 1, TaskSerializer_is_valid. rewrite Hd, Herr. simpl. eauto.
Qed.

Lemma update_rejects_bad_assignee_witness :
  exists msg,
    TaskViewSet.update true (AuthUser 1) 1 1 (sample.patch_assignee (Some 2))
      (sample.world [sample.todo_task] [])
    = (Raise (py.ValidationError "assignee_id" msg),
       sample.world [sample.todo_task] []).
Proof.
  apply (update_rejects_bad_assignee true (AuthUser 1) 1 1
           (sample.patch_assignee (Some 2)) 2 (sample.world [sample.todo_task] [])
           sample.todo_task).
  - reflexivity.
  - reflexivity.
  - reflexivity.
  - right. reflexivity.
Defined.

Lemma Forall2_map_same {A} (R : A -> A -> Prop) (g : A -> A) (l : list A) :
  (forall x, In x l -> R x (g x)) -> Forall2 R l (map g l).
Proof.
  induction l as [|x l IH]; intros H; simpl; constructor.
  - apply H. now left.
  - apply IH. intros y Hy. apply H. now right.
Qed.

(** X10.  With unique task ids, an update, whatever its payload and its
    outcome, keeps the task table row for row: no row is added or removed,
    every row keeps its id, project, creator and creation time, and a row
    with another id than the one of the URL is unchanged. *)
Theorem update_frame (partial : bool) (u : principal) (ppk pk : Z) (data : TaskData)
    (w : World) (r : outcome unit) (w' : World) :
  task_pk_unique (db w) ->
  TaskViewSet.update partial u ppk pk data w = (r, w') ->
  Forall2 (fun old new =>
             Task.id new = Task.id old
             /\ Task.project_id new = Task.project_id old
             /\ Task.created_by_id new = Task.created_by_id old
             /\ Task.created_at new = Task.created_at old
             /\ (Task.id old <> pk -> new = old))
          (tasks (db w)) (tasks (db w')).
Proof.
  intros Huniq Hrun.
  assert (Hsame : forall l : list Task.t,
             Forall2 (fun old new =>
               Task.id new = Task.id old
               /\ Task.project_id new = Task.project_id old
               /\ Task.created_by_id new = Task.created_by_id old
               /\ Task.created_at new = Task.created_at old
                 /\ (Task.id old <> pk -> new = old)) l l).
  { intros l. rewrite <- (map_id l) at 2. apply Forall2_map_same. intros; repeat split; auto. }
  destruct (update_effect_holds _ _ _ _ _ _ _ _ Hrun)
    as [Ht _ _|inst stamp Hin Hiid _ Htab _ _
        |inst stamp ts Hin Hiid _ _ _ Htab _].
  - rewrite Ht. apply Hsame.
  - rewrite Htab. unfold update_where. apply Forall2_map_same. intros x Hx.
    destruct (Task.id x =? pk) eqn:E.
    + apply Z.eqb_eq in E. assert (x = inst) as -> by (apply Huniq; congruence).
      repeat split; auto. intros Hne. congruence.
    + repeat split; auto.
  - rewrite Htab. unfold update_where. rewrite map_map. apply Forall2_map_same.
    intros x Hx. destruct (Task.id x =? pk) eqn:E.
    + apply Z.eqb_eq in E. assert (x = inst) as -> by (apply Huniq; congruence).
      change (Task.id (saved_row data inst stamp)) with (Task.id inst).
      rewrite (proj2 (Z.eqb_eq _ _) E). repeat split; auto. intros Hne. congruence.
    + rewrite E. repeat split; auto.
Qed.

Lemma update_frame_witness :
  Forall2 (fun old new =>
             Task.id new = Task.id old
             /\ Task.project_id new = Task.project_id old
             /\ Task.created_by_id new = Task.created_by_id old
             /\ Task.created_at new = Task.created_at old
             /\ (Task.id old <> 1 -> new = old))
          (tasks (db (sample.world [sample.todo_task] [])))
          (tasks (db (snd (TaskViewSet.update true (AuthUser 1) 1 1
                             (sample.patch_status "done")
                             (sample.world [sample.todo_task] []))))).
Proof.
  apply (update_frame true (AuthUser 1) 1 1 (sample.patch_status "done")
           (sample.world [sample.todo_task] [])
           (fst (TaskViewSet.update true (AuthUser 1) 1 1 (sample.patch_status "done")
                   (sample.world [sample.todo_task] [])))).
  - apply single_task_pk_unique.
  - apply surjective_pairing.
Defined.

Lemma preserves_bind {A B} (R : World -> World -> Prop) (m : M A) (f : A -> M B) :
  (forall w1 w2 w3, R w1 w2 -> R w2 w3 -> R w1 w3) ->
  preserves R m -> (forall a, preserves R (f a)) -> preserves R (bind m f).
Proof.
  intros Htrans Hm Hf w r w' H.
  apply bind_inv in H as [(a & w1 & H1 & H2)|(e & H1 & _)].
  - eapply Htrans; [eapply Hm; eauto|eapply Hf; eauto].
  - eapply Hm; eauto.
Qed.

Lemma preserves_pure {A} (R : World -> World -> Prop) (m : M A) :
  (forall w, R w w) -> (forall w r w', m w = (r, w') -> w' = w) -> preserves R m.
Proof. intros Hrefl Hm w r w' H. apply Hm in H as ->. apply Hrefl. Qed.

Lemma feed_unchanged_refl (w : World) : feed_unchanged w w.
Proof.
  repeat split. exists []. now rewrite app_nil_r.
Qed.

Lemma feed_unchanged_trans (w1 w2 w3 : World) :
  feed_unchanged w1 w2 -> feed_unchanged w2 w3 -> feed_unchanged w1 w3.
Proof.
  intros (Ht & Hm & l & Hl & Hf) (Ht' & Hm' & l' & Hl' & Hf').
  repeat split; try congruence.
  exists (l ++ l')%list. split; [rewrite Hl', Hl, app_assoc; reflexivity|].
  apply Forall_app. auto.
Qed.

Lemma create_activity_log_feed (p : params) :
  team p = None -> preserves feed_unchanged (create_activity_log p).
Proof.
  intros Hteam w r w'.
  unfold create_activity_log, try_except, ActivityLog_objects_create, bind, now,
    logger_exception, modify, ret.
  simpl. destruct (log_faults w) as [|[e|] rest]; simpl.
  - intros [= <- <-]. simpl. repeat split. eexists. split; [reflexivity|].
    constructor; [exact Hteam|constructor].
  - destruct (py.isinstance_Exception e); intros [= <- <-];
      (repeat split; exists []; now rewrite app_nil_r).
  - intros [= <- <-]. simpl. repeat split. eexists. split; [reflexivity|].
    constructor; [exact Hteam|constructor].
Qed.

Lemma call_feed (kw : kwargs) :
  lookup kw "team" = None -> preserves feed_unchanged (call_create_activity_log kw).
Proof.
  intros Hteam w r w'. unfold call_create_activity_log.
  assert (Hraise : forall e, @raise ActivityLog.t e w = (r, w') -> feed_unchanged w w').
  { intros e [= <- <-]. apply feed_unchanged_refl. }
  rewrite Hteam.
  destruct (unexpected_keyword kw); [apply Hraise|].
  repeat match goal with
         | |- context [match ?x with _ => _ end] => destruct x; try apply Hraise
         end; now apply create_activity_log_feed.
Qed.

Lemma Task_save_feed (x : Task.t) : preserves feed_unchanged (TaskViewSet.Task_save x).
Proof.
  intros w r w'. unfold TaskViewSet.Task_save, bind, now, modify, ret.
  intros [= <- <-]. simpl. repeat split. exists []. now rewrite app_nil_r.
Qed.

Lemma now_feed : preserves feed_unchanged now.
Proof.
  intros w r w' [= <- <-]. repeat split. exists []. now rewrite app_nil_r.
Qed.

Lemma Task_save_completed_at_feed (x : Task.t) :
  preserves feed_unchanged (TaskViewSet.Task_save_completed_at x).
Proof.
  intros w r w'. unfold TaskViewSet.Task_save_completed_at.
  destruct (exists_ _); intros [= <- <-]; [|apply feed_unchanged_refl].
  simpl. repeat split. exists []. now rewrite app_nil_r.
Qed.

Lemma ret_feed {A} (a : A) : preserves feed_unchanged (ret a).
Proof. intros w r w' [= <- <-]. apply feed_unchanged_refl. Qed.

Lemma update_feed (partial : bool) (u : principal) (ppk pk : Z) (data : TaskData) :
  preserves feed_unchanged (TaskViewSet.update partial u ppk pk data).
Proof.
  assert (Htr := feed_unchanged_trans).
  unfold TaskViewSet.update.
  apply preserves_bind; [exact Htr| |intros inst].
  { apply preserves_pure; [apply feed_unchanged_refl|].
    intros w r w' H. now apply get_object_inv in H as [-> _]. }
  apply preserves_bind; [exact Htr| |intros vd].
  { apply preserves_pure; [apply feed_unchanged_refl|].
    intros w r w' H. now apply is_valid_inv in H as [-> _]. }
  unfold TaskViewSet.perform_update.
  apply preserves_bind; [exact Htr| |intros old].
  { apply preserves_pure; [apply feed_unchanged_refl|].
    intros w r w' H. now apply get_object_inv in H as [-> _]. }
  simpl. destruct (if TaskViewSet.has_assignee_id vd then _ else _) as [aid vd'].
  apply preserves_bind; [exact Htr| |intros assignee].
  { apply preserves_pure; [apply feed_unchanged_refl|].
    intros w r w'. destruct (_ || _); [|now intros [= <- <-]].
    destruct aid as [a|]; [|now intros [= <- <-]].
    destruct (user_by_id (db w) a); [destruct (negb _)|]; now intros [= <- <-]. }
  apply preserves_bind; [exact Htr|apply Task_save_feed|intros task].
  apply preserves_bind; [exact Htr|now apply call_feed|intros _].
  destruct (negb _); [|apply ret_feed].
  apply preserves_bind; [exact Htr| |intros task'].
  { destruct (_ && _); [|apply ret_feed].
    apply preserves_bind; [exact Htr|apply now_feed|intros stamp].
    apply preserves_bind; [exact Htr|apply Task_save_completed_at_feed|intros _].
    apply ret_feed. }
  apply preserves_bind; [exact Htr|now apply call_feed|intros _].
  apply ret_feed.
Qed.

(** X11.  The log rows an update writes carry no team: whatever the
    request and its outcome, the rows added to the activity log have no
    team, so the activity feed, which lists the rows of the teams of the
    user, is for every user the same after the update as before. *)
Theorem update_never_shows_in_the_feed (partial : bool) (u : principal) (ppk pk : Z)
    (data : TaskData) (w : World) (r : outcome unit) (w' : World) :
  TaskViewSet.update partial u ppk pk data w = (r, w') ->
  (exists l, activity_logs (db w') = (activity_logs (db w) ++ l)%list
             /\ Forall (fun row => ActivityLog.team_id row = None) l)
  /\ forall user_pk,
       ActivityLogViewSet.get_queryset (db w') user_pk
       = ActivityLogViewSet.get_queryset (db w) user_pk.
Proof.
  intros H. apply update_feed in H as (Ht & Hm & l & Hl & Hf).
  split; [eauto|]. intros uid. unfold ActivityLogViewSet.get_queryset.
  rewrite Hl, filter_app.
  assert (E : filter (fun l0 => match ActivityLog.team_id l0 with
                                | Some t =>
                                    exists_ (filter (fun tm => Team.id tm =? t) (teams (db w')))
                                    && is_team_member (db w') t uid
                                | None => false
                                end) l = []).
  { clear Hl. induction Hf as [|x l Hx _ IH]; [reflexivity|]. simpl. now rewrite Hx. }
  rewrite E, app_nil_r. unfold is_team_member. now rewrite Ht, Hm.
Qed.

Lemma update_never_shows_in_the_feed_witness :
  (exists l,
      activity_logs (db (snd (TaskViewSet.update true (AuthUser 1) 1 1
                                (sample.patch_status "done")
                                (sample.world [sample.todo_task] []))))
      = (activity_logs (db (sample.world [sample.todo_task] [])) ++ l)%list
      /\ Forall (fun row => ActivityLog.team_id row = None) l)
  /\ forall user_pk,
       ActivityLogViewSet.get_queryset
         (db (snd (TaskViewSet.update true (AuthUser 1) 1 1 (sample.patch_status "done")
                     (sample.world [sample.todo_task] [])))) user_pk
       = ActivityLogViewSet.get_queryset (db (sample.world [sample.todo_task] []))
           user_pk.
Proof.
  apply (update_never_shows_in_the_feed true (AuthUser 1) 1 1 (sample.patch_status "done")
           (sample.world [sample.todo_task] [])
           (fst (TaskViewSet.update true (AuthUser 1) 1 1 (sample.patch_status "done")
                   (sample.world [sample.todo_task] [])))).
  apply surjective_pairing.
Defined.

(** The views that call the audit logger with a keyword it does not take *)

Lemma never_returns_bind {A B} (m : M A) (f : A -> M B) :
  (forall a, never_returns (f a)) -> never_returns (bind m f).
Proof.
  intros Hf w. unfold bind. destruct (m w) as [[a|e] w1]; [apply Hf|eauto].
Qed.

Lemma never_returns_first {A B} (m : M A) (f : A -> M B) :
  never_returns m -> never_returns (bind m f).
Proof.
  intros Hm w. unfold bind. destruct (Hm w) as (e & w1 & ->). eauto.
Qed.

Lemma never_returns_call (kw : kwargs) (k : string) :
  unexpected_keyword kw = Some k -> never_returns (call_create_activity_log kw).
Proof.
  intros H w. rewrite (call_with_unexpected_keyword kw k w H). eauto.
Qed.

Lemma never_returns_atomic {A} (m : M A) : never_returns m -> never_returns (atomic m).
Proof.
  intros Hm w. unfold atomic. destruct (Hm w) as (e & w1 & ->). eauto.
Qed.

Ltac never_returns_by k :=
  repeat first
    [ apply never_returns_first; apply (never_returns_call _ k); reflexivity
    | apply never_returns_bind; intros ? ].

(** X12.  The creation of a task and the two [add_member] actions call the
    audit logger with the keyword [team_id] or [project_id], which it does
    not take: whatever the user, the ids, the payload and the database,
    none of these three views returns a response, each run ends in an
    exception. *)
Theorem views_with_bad_audit_keywords_never_return :
  (forall u project_pk data, never_returns (TaskViewSet.create u project_pk data))
  /\ (forall u pk data, never_returns (views.TeamViewSet.add_member u pk data))
  /\ (forall u team_pk pk data,
        never_returns (ProjectViewSet.add_member u team_pk pk data)).
Proof.
  split; [|split].
  - intros u ppk data. unfold TaskViewSet.create.
    apply never_returns_bind. intros vd. unfold TaskViewSet.perform_create.
    destruct (TaskViewSet.pop_assignee_id vd) as [aid vd'].
    never_returns_by "project_id".
  - intros u pk data. unfold views.TeamViewSet.add_member.
    never_returns_by "team_id".
  - intros u team_pk pk data. unfold ProjectViewSet.add_member.
    never_returns_by "team_id".
Qed.

Lemma project_perform_create_never_returns (u : principal) (team_pk : Z)
    (data : NamedData) :
  never_returns (ProjectViewSet.perform_create u team_pk data).
Proof.
  unfold ProjectViewSet.perform_create. apply never_returns_atomic.
  never_returns_by "team_id".
Qed.

(** X13.  The creation of a project never succeeds and never persists
    anything: every run of [perform_create] ends in an exception, and the
    transaction around it leaves the database and the recorded writes as
    they were before the request. *)
Theorem project_creation_never_persists (u : principal) (team_pk : Z)
    (data : NamedData) (w : World) :
  exists e w',
    ProjectViewSet.perform_create u team_pk data w = (Raise e, w')
    /\ db w' = db w /\ writes w' = writes w.
Proof.
  destruct (project_perform_create_never_returns u team_pk data w) as (e & w' & H).
  exists e, w'. split; [exact H|].
  unfold ProjectViewSet.perform_create, atomic in H.
  match type of H with
  | match ?x with _ => _ end = _ => destruct x as [[a|e'] w1]
  end; [destruct (save_failed_inside w w1)|]; try discriminate.
  injection H as _ <-. auto.
Qed.

Lemma user_by_id_id (s : Store) (a : Z) (x : User.t) :
  user_by_id s a = Some x -> User.id x = a.
Proof. unfold user_by_id. now intros [_ H%Z.eqb_eq]%first_filter_Some. Qed.

Lemma user_by_id_exists (s : Store) (a : Z) (x : User.t) :
  user_by_id s a = Some x ->
  exists_ (filter (fun u => User.id u =? a) (users s)) = true.
Proof. unfold user_by_id. rewrite exists_first. now intros ->. Qed.

Lemma Task_objects_create_returns (vd : TaskData) (project_pk created_by : Z)
    (assignee : option Z) (w : World) :
  exists_ (filter (fun p => Project.id p =? project_pk) (projects (db w))) = true ->
  exists row w1,
    TaskViewSet.Task_objects_create vd project_pk created_by assignee w
    = (Return row, w1)
    /\ tasks (db w1) = (tasks (db w) ++ [row])%list
    /\ activity_logs (db w1) = activity_logs (db w)
    /\ Task.project_id row = project_pk
    /\ Task.created_by_id row = created_by
    /\ Task.assignee_id row = assignee
    /\ Task.completed_at row = None
    /\ Task.title row = match title vd with Some v => v | None => "" end.
Proof.
  intros H. unfold TaskViewSet.Task_objects_create, bind, now. simpl.
  rewrite H. simpl. eexists. eexists. split; [reflexivity|]. simpl. auto 10.
Qed.

(** X14.  A creation request for an existing project, whose payload the
    fields accept (a title that is not blank among them), with no assignee
    or one who is a member of the project, inserts the task (in the
    project of the URL, created by the user, with the title and the
    assignee of the payload and no completion time) and then ends in the
    [TypeError] of the audit call; the task stays in the table and no log
    row is written. *)
Theorem create_persists_then_fails (uid project_pk : Z) (data : TaskData)
    (w : World) :
  schema.user_pk_nonzero (db w) ->
  exists_ (filter (fun p => Project.id p =? project_pk) (projects (db w))) = true ->
  declared_errors false data = [] ->
  assignee_acceptable (db w) project_pk data ->
  exists row w',
    TaskViewSet.create (AuthUser uid) project_pk data w
    = (Raise (py.TypeError
                "create_activity_log() got an unexpected keyword argument 'project_id'"),
       w')
    /\ tasks (db w') = (tasks (db w) ++ [row])%list
    /\ Task.project_id row = project_pk
    /\ Task.created_by_id row = uid
    /\ title data = Some (Task.title row)
    /\ Task.assignee_id row = match assignee_id data with Some v => v | None => None end
    /\ Task.completed_at row = None
    /\ activity_logs (db w') = activity_logs (db w).
Proof.
  intros Hnz Hproj Hdecl Hass.
  pose proof (is_valid_returns false data w Hdecl (assignee_id_passes _ _ _ Hass))
    as Hvalid.
  assert (Htitle : exists t, title data = Some t).
  { unfold declared_errors, title_errors in Hdecl.
    destruct (title data) as [t|]; [eauto|discriminate]. }
  destruct Htitle as [t Htitle].
  unfold TaskViewSet.create. rewrite (bind_returns _ _ _ _ _ Hvalid).
  unfold TaskViewSet.perform_create, TaskViewSet.pop_assignee_id.
  unfold bind at 1, gets at 1.
  set (found := if truthy_id _ then _ else _).
  assert (Hfound : option_map User.id found
                   = match assignee_id data with Some v => v | None => None end
                   /\ match found with
                      | Some x => is_project_member (db w) project_pk (User.id x) = true
                      | None => True
                      end).
  { subst found. unfold assignee_acceptable in Hass.
    destruct (assignee_id data) as [[a|]|]; simpl; auto.
    destruct Hass as (x & Hx & Hm).
    assert (Ha : (a =? 0) = false).
    { apply Z.eqb_neq. rewrite <- (user_by_id_id _ _ _ Hx). apply Hnz.
      unfold user_by_id in Hx. now apply first_filter_Some in Hx as [Hin _]. }
    rewrite Ha, Hx. simpl. split; [now rewrite (user_by_id_id _ _ _ Hx)|exact Hm]. }
  destruct Hfound as [Hid Hmem].
  assert (Hcheck : (fun w0 : World =>
                      match found with
                      | Some u =>
                          if negb (is_project_member (db w0) project_pk (User.id u))
                          then (Raise (py.ValidationError "assignee_id"
                                         "Assignee must be a member of the project."), w0)
                          else (Return tt, w0)
                      | None => (Return tt, w0)
                      end) w = (Return tt, w)).
  { destruct found; [now rewrite Hmem|reflexivity]. }
  rewrite (bind_returns _ _ _ _ _ Hcheck).
  rewrite (bind_returns _ _ w w uid eq_refl).
  destruct (Task_objects_create_returns (set_assignee_id None data) project_pk uid
              (option_map User.id found) w Hproj)
    as (row & w1 & Hrow & Ht & Hl & Hp & Hc & Ha & Hd & Hti).
  rewrite (bind_returns _ _ _ _ _ Hrow).
  unfold bind at 1.
  rewrite call_with_unexpected_keyword with (k := "project_id") by reflexivity.
  exists row, w1. rewrite <- Hid. simpl in Hti. rewrite Htitle in Hti. subst t.
  auto 10.
Qed.

Lemma create_persists_then_fails_witness :
  exists row w',
    TaskViewSet.create (AuthUser 1) 1 (sample.new_task (Some 3)) (sample.world [] [])
    = (Raise (py.TypeError
                "create_activity_log() got an unexpected keyword argument 'project_id'"),
       w')
    /\ tasks (db w') = (tasks (db (sample.world [] [])) ++ [row])%list
    /\ Task.project_id row = 1
    /\ Task.created_by_id row = 1
    /\ title (sample.new_task (Some 3)) = Some (Task.title row)
    /\ Task.assignee_id row
       = match assignee_id (sample.new_task (Some 3)) with
         | Some v => v
         | None => None
         end
    /\ Task.completed_at row = None
    /\ activity_logs (db w') = activity_logs (db (sample.world [] [])).
Proof.
  apply (create_persists_then_fails 1 1 (sample.new_task (Some 3))
           (sample.world [] [])).
  - apply sample_user_pk_nonzero.
  - reflexivity.
  - reflexivity.
  - exists sample.carol. split; reflexivity.
Defined.

Lemma TeamMembership_objects_create_returns (team_pk user_pk : Z) (role : string)
    (w : World) :
  is_team_member (db w) team_pk user_pk = false ->
  exists_ (filter (fun t => Team.id t =? team_pk) (teams (db w))) = true ->
  exists row w1,
    views.TeamViewSet.TeamMembership_objects_create team_pk user_pk role w
    = (Return row, w1)
    /\ db w1 = set_team_memberships (team_memberships (db w) ++ [row]) (db w)
    /\ log_faults w1 = log_faults w
    /\ TeamMembership.team_id row = team_pk
    /\ TeamMembership.user_id row = user_pk
    /\ TeamMembership.role row = role.
Proof.
  intros Hm Ht. unfold views.TeamViewSet.TeamMembership_objects_create, bind, now.
  simpl. unfold is_team_member in Hm. rewrite Hm, Ht. simpl.
  eexists. eexists. split; [reflexivity|]. simpl. auto 10.
Qed.

(** X15.  Adding to an existing team a user who is not yet a member inserts
    the membership, with the role of the payload or "member", and then
    ends in the [TypeError] of the audit call: the row stays in the table,
    no log row is written and no response is returned. *)
Theorem team_add_member_persists_then_fails (u : principal) (pk : Z)
    (data : TeamMembershipCreateData) (w : World) (x : User.t) :
  user_by_id (db w) (user_id data) = Some x ->
  exists_ (filter (fun t => Team.id t =? pk) (teams (db w))) = true ->
  is_team_member (db w) pk (user_id data) = false ->
  exists row w',
    views.TeamViewSet.add_member u pk data w
    = (Raise (py.TypeError
                "create_activity_log() got an unexpected keyword argument 'team_id'"),
       w')
    /\ team_memberships (db w') = (team_memberships (db w) ++ [row])%list
    /\ TeamMembership.team_id row = pk
    /\ TeamMembership.user_id row = user_id data
    /\ TeamMembership.role row
       = match serializers.role data with Some r => r | None => "member" end
    /\ activity_logs (db w') = activity_logs (db w).
Proof.
  intros Hx Ht Hm. pose proof (user_by_id_id _ _ _ Hx) as Hid.
  unfold views.TeamViewSet.add_member.
  assert (Hvalid : TeamMembershipCreateSerializer_is_valid data w = (Return data, w)).
  { unfold TeamMembershipCreateSerializer_is_valid.
    now rewrite (user_by_id_exists _ _ _ Hx). }
  rewrite (bind_returns _ _ _ _ _ Hvalid).
  assert (Hget : User_objects_get (user_id data) w = (Return x, w)).
  { unfold User_objects_get. now rewrite Hx. }
  rewrite (bind_returns _ _ _ _ _ Hget). rewrite Hid.
  destruct (TeamMembership_objects_create_returns pk (user_id data)
              (match serializers.role data with
               | Some r => r
               | None => TeamMembership.Role.MEMBER
               end) w Hm Ht) as (row & w1 & Hrow & Hdb & _ & H1 & H2 & H3).
  assert (Htry : try_except
                   (views.TeamViewSet.TeamMembership_objects_create pk (user_id data)
                      (match serializers.role data with
                       | Some r => r
                       | None => TeamMembership.Role.MEMBER
                       end))
                   views.TeamViewSet.is_IntegrityError
                   (raise (py.ValidationError "detail"
                             "User is already a member of this team.")) w
                 = (Return row, w1)).
  { unfold try_except. now rewrite Hrow. }
  rewrite (bind_returns _ _ _ _ _ Htry). unfold bind at 1.
  rewrite call_with_unexpected_keyword with (k := "team_id") by reflexivity.
  exists row, w1. rewrite Hdb. simpl. auto 10.
Qed.

Lemma team_add_member_persists_then_fails_witness :
  exists row w',
    views.TeamViewSet.add_member (AuthUser 1) 1
      {| user_id := 5; serializers.role := Some "admin" |} (sample_more.world [] [])
    = (Raise (py.TypeError
                "create_activity_log() got an unexpected keyword argument 'team_id'"),
       w')
    /\ team_memberships (db w')
       = (team_memberships (db (sample_more.world [] [])) ++ [row])%list
    /\ TeamMembership.team_id row = 1
    /\ TeamMembership.user_id row = 5
    /\ TeamMembership.role row = "admin"
    /\ activity_logs (db w') = activity_logs (db (sample_more.world [] [])).
Proof.
  apply (team_add_member_persists_then_fails (AuthUser 1) 1
           {| user_id := 5; serializers.role := Some "admin" |}
           (sample_more.world [] []) sample_more.erin); reflexivity.
Defined.

Lemma ProjectMembership_objects_create_returns (project_pk user_pk : Z)
    (role : string) (w : World) :
  is_project_member (db w) project_pk user_pk = false ->
  exists_ (filter (fun p => Project.id p =? project_pk) (projects (db w))) = true ->
  user_exists (db w) user_pk = true ->
  exists row w1,
    ProjectViewSet.ProjectMembership_objects_create project_pk user_pk role w
    = (Return row, w1)
    /\ db w1 = set_project_memberships (project_memberships (db w) ++ [row]) (db w)
    /\ log_faults w1 = log_faults w
    /\ ProjectMembership.project_id row = project_pk
    /\ ProjectMembership.user_id row = user_pk
    /\ ProjectMembership.role row = role.
Proof.
  intros Hm Hp Hu. unfold ProjectViewSet.ProjectMembership_objects_create, bind, now.
  simpl. rewrite Hm, Hp, Hu. simpl.
  eexists. eexists. split; [reflexivity|]. simpl. auto 10.
Qed.

(** X16.  [add_member] of a project, for a user who exists: when the user
    is no member of the team of the URL the request is refused with a
    validation error and the world is unchanged; when the user is a member
    of that team and already a member of the project, it is refused with
    "User is already a member of this project." and the database and the
    recorded writes are unchanged. *)
Theorem project_add_member_rejections (u : principal) (team_pk pk : Z)
    (data : ProjectMembershipCreateData) (w : World) (x : User.t) :
  user_by_id (db w) (pm_user_id data) = Some x ->
  (is_team_member (db w) team_pk (pm_user_id data) = false ->
   ProjectViewSet.add_member u team_pk pk data w
   = (Raise (py.ValidationError "detail"
               "User must be a member of the team before joining project."), w))
  /\ (is_team_member (db w) team_pk (pm_user_id data) = true ->
      is_project_member (db w) pk (pm_user_id data) = true ->
      exists w',
        ProjectViewSet.add_member u team_pk pk data w
        = (Raise (py.ValidationError "detail"
                    "User is already a member of this project."), w')
        /\ db w' = db w /\ writes w' = writes w).
Proof.
  intros Hx. pose proof (user_by_id_id _ _ _ Hx) as Hid.
  unfold ProjectViewSet.add_member.
  assert (Hvalid : ProjectMembershipCreateSerializer_is_valid data w = (Return data, w)).
  { unfold ProjectMembershipCreateSerializer_is_valid.
    now rewrite (user_by_id_exists _ _ _ Hx). }
  rewrite (bind_returns _ _ _ _ _ Hvalid).
  assert (Hget : User_objects_get (pm_user_id data) w = (Return x, w)).
  { unfold User_objects_get. now rewrite Hx. }
  rewrite (bind_returns _ _ _ _ _ Hget). rewrite Hid. split.
  - intros Hm. unfold bind at 1. now rewrite Hm.
  - intros Hm Hp. unfold bind at 1. rewrite Hm. simpl negb. cbv iota.
    unfold bind at 1, try_except,
      ProjectViewSet.ProjectMembership_objects_create, bind, now.
    simpl. rewrite Hp. simpl. eexists. split; [reflexivity|]. auto.
Qed.

Lemma project_add_member_rejections_witness :
  (is_team_member (db (sample_more.world [] [])) 1 5 = false ->
   ProjectViewSet.add_member (AuthUser 1) 1 1 {| pm_user_id := 5; pm_role := None |}
     (sample_more.world [] [])
   = (Raise (py.ValidationError "detail"
               "User must be a member of the team before joining project."),
      sample_more.world [] []))
  /\ (is_team_member (db (sample_more.world [] [])) 1 5 = true ->
      is_project_member (db (sample_more.world [] [])) 1 5 = true ->
      exists w',
        ProjectViewSet.add_member (AuthUser 1) 1 1
          {| pm_user_id := 5; pm_role := None |} (sample_more.world [] [])
        = (Raise (py.ValidationError "detail"
                    "User is already a member of this project."), w')
        /\ db w' = db (sample_more.world [] [])
        /\ writes w' = writes (sample_more.world [] [])).
Proof.
  apply (project_add_member_rejections (AuthUser 1) 1 1
           {| pm_user_id := 5; pm_role := None |} (sample_more.world [] [])
           sample_more.erin).
  reflexivity.
Defined.

(** X17.  Adding to an existing project a user who is a member of the team
    of the URL and not yet of the project inserts the membership, with the
    role of the payload or "contributor", and then ends in the [TypeError]
    of the audit call: the row stays, no log row is written.  The team of
    the URL is not compared with the team that owns the project. *)
Theorem project_add_member_persists_then_fails (u : principal) (team_pk pk : Z)
    (data : ProjectMembershipCreateData) (w : World) (x : User.t) :
  user_by_id (db w) (pm_user_id data) = Some x ->
  is_team_member (db w) team_pk (pm_user_id data) = true ->
  exists_ (filter (fun p => Project.id p =? pk) (projects (db w))) = true ->
  is_project_member (db w) pk (pm_user_id data) = false ->
  exists row w',
    ProjectViewSet.add_member u team_pk pk data w
    = (Raise (py.TypeError
                "create_activity_log() got an unexpected keyword argument 'team_id'"),
       w')
    /\ project_memberships (db w') = (project_memberships (db w) ++ [row])%list
    /\ ProjectMembership.project_id row = pk
    /\ ProjectMembership.user_id row = pm_user_id data
    /\ ProjectMembership.role row
       = match pm_role data with Some r => r | None => "contributor" end
    /\ activity_logs (db w') = activity_logs (db w).
Proof.
  intros Hx Hm Hp Hn. pose proof (user_by_id_id _ _ _ Hx) as Hid.
  unfold ProjectViewSet.add_member.
  assert (Hvalid : ProjectMembershipCreateSerializer_is_valid data w = (Return data, w)).
  { unfold ProjectMembershipCreateSerializer_is_valid.
    now rewrite (user_by_id_exists _ _ _ Hx). }
  rewrite (bind_returns _ _ _ _ _ Hvalid).
  assert (Hget : User_objects_get (pm_user_id data) w = (Return x, w)).
  { unfold User_objects_get. now rewrite Hx. }
  rewrite (bind_returns _ _ _ _ _ Hget). rewrite Hid.
  unfold bind at 1. rewrite Hm. simpl negb. cbv iota.
  destruct (ProjectMembership_objects_create_returns pk (pm_user_id data)
              (match pm_role data with
               | Some r => r
               | None => ProjectMembership.Role.CONTRIBUTOR
               end) w Hn Hp (user_by_id_exists _ _ _ Hx))
    as (row & w1 & Hrow & Hdb & _ & H1 & H2 & H3).
  unfold bind at 1, try_except. rewrite Hrow. unfold bind at 1.
  rewrite call_with_unexpected_keyword with (k := "team_id") by reflexivity.
  exists row, w1. rewrite Hdb. simpl. auto 10.
Qed.

Lemma project_add_member_persists_then_fails_witness :
  exists row w',
    ProjectViewSet.add_member (AuthUser 1) 1 1 {| pm_user_id := 2; pm_role := None |}
      (sample.world [] [])
    = (Raise (py.TypeError
                "create_activity_log() got an unexpected keyword argument 'team_id'"),
       w')
    /\ project_memberships (db w')
       = (project_memberships (db (sample.world [] [])) ++ [row])%list
    /\ ProjectMembership.project_id row = 1
    /\ ProjectMembership.user_id row = 2
    /\ ProjectMembership.role row = "contributor"
    /\ activity_logs (db w') = activity_logs (db (sample.world [] [])).
Proof.
  apply (project_add_member_persists_then_fails (AuthUser 1) 1 1
           {| pm_user_id := 2; pm_role := None |} (sample.world [] []) sample.bob);
    reflexivity.
Defined.

(** The creation of a team *)

Lemma next_pk_fresh (ids : list Z) (x : Z) : In x ids -> x < next_pk ids.
Proof.
  unfold next_pk. induction ids as [|y ids IH]; cbn [fold_right In];
    [contradiction|].
  intros [->|H]; [lia|]. specialize (IH H). lia.
Qed.

Lemma next_pk_positive (ids : list Z) : 0 < next_pk ids.
Proof.
  unfold next_pk. induction ids as [|y ids IH]; cbn [fold_right]; lia.
Qed.

Lemma Team_objects_create_returns (data : NamedData) (created_by : Z) (w : World) :
  user_exists (db w) created_by = true ->
  exists w1,
    TeamViewSet.Team_objects_create data created_by w
    = (Return {| Team.id := next_pk (map Team.id (teams (db w)));
                 Team.name := name data;
                 Team.description :=
                   match description data with Some v => v | None => "" end;
                 Team.created_by_id := created_by;
                 Team.created_at := clock (tick w);
                 Team.updated_at := clock (tick (tick w)) |}, w1)
    /\ db w1 = set_teams
                 (teams (db w)
                  ++ [{| Team.id := next_pk (map Team.id (teams (db w)));
                         Team.name := name data;
                         Team.description :=
                           match description data with Some v => v | None => "" end;
                         Team.created_by_id := created_by;
                         Team.created_at := clock (tick w);
                         Team.updated_at := clock (tick (tick w)) |}]) (db w)
    /\ log_faults w1 = log_faults w
    /\ writes w1 = writes w.
Proof.
  intros H. unfold TeamViewSet.Team_objects_create, bind, now. simpl.
  rewrite H. simpl. eexists. split; [reflexivity|]. simpl. auto.
Qed.

Lemma fresh_team_has_no_member (s : Store) (uid : Z) :
  team_membership_team_fk s ->
  is_team_member s (next_pk (map Team.id (teams s))) uid = false.
Proof.
  intros Hfk. unfold is_team_member. apply exists_filter_false. intros m Hm.
  destruct (Hfk m Hm) as (t & Ht & Hid).
  assert (Hlt : Team.id t < next_pk (map Team.id (teams s)))
    by (apply next_pk_fresh; now apply in_map).
  destruct (TeamMembership.team_id m =? _) eqn:E; [|reflexivity].
  apply Z.eqb_eq in E. lia.
Qed.

Lemma create_activity_log_inserts (p : params) (w : World) :
  match log_faults w with Some _ :: _ => False | _ => True end ->
  exists row w1,
    create_activity_log p w = (Return row, w1)
    /\ db w1 = set_activity_logs (activity_logs (db w) ++ [row]) (db w)
    /\ log_faults w1 = tl (log_faults w)
    /\ ActivityLog.team_id row = team p
    /\ ActivityLog.event_type row = event_type p.
Proof.
  intros Hf.
  unfold create_activity_log, try_except, ActivityLog_objects_create, bind, now.
  simpl. destruct (log_faults w) as [|[e|] rest]; try contradiction; simpl;
    (eexists; eexists; split; [reflexivity|]; simpl; auto).
Qed.

Lemma no_save_failed (w w' : World) :
  match log_faults w with Some _ :: _ => False | _ => True end ->
  log_faults w' = tl (log_faults w) ->
  save_failed_inside w w' = false.
Proof.
  unfold save_failed_inside. intros Hf ->.
  destruct (log_faults w) as [|[e|] rest]; try contradiction; [reflexivity|].
  cbn [tl List.length].
  replace (S (List.length rest) - List.length rest)%nat with 1%nat by lia.
  reflexivity.
Qed.

Lemma team_admin_resolves (int_of_str : string -> option Z) (s : Store)
    (P : principal) (T : Z) (request_data : py.dict) :
  T <> 0 ->
  IsAuthenticatedAndTeamAdmin.has_permission int_of_str s P
    [("team_pk", py.PyInt T)] request_data
  = is_member (_team_membership s P T)
    && role_in (_team_membership s P T)
         [TeamMembership.Role.OWNER; TeamMembership.Role.ADMIN].
Proof.
  intros HT. apply Z.eqb_neq in HT.
  unfold IsAuthenticatedAndTeamAdmin.has_permission,
    IsAuthenticatedAndTeamAdmin.team_id_of, py.or_.
  simpl. rewrite HT. simpl. rewrite HT. simpl. rewrite HT. reflexivity.
Qed.

(** X18.  When the insert of the log row meets no failure, the creation of
    a team by an existing user returns the new team, stored with the name
    of the payload and the user as creator; afterwards the user holds the
    role "owner" in it, finds it in the list of teams, passes the team
    admin check for it, and sees a "team_created" entry in the activity
    feed. *)
Theorem team_creation_makes_the_creator_owner (int_of_str : string -> option Z)
    (uid : Z) (data : NamedData) (w : World) :
  user_exists (db w) uid = true ->
  team_membership_team_fk (db w) ->
  match log_faults w with Some _ :: _ => False | _ => True end ->
  exists team w',
    TeamViewSet.perform_create (AuthUser uid) data w = (Return team, w')
    /\ teams (db w') = (teams (db w) ++ [team])%list
    /\ Team.name team = name data
    /\ Team.created_by_id team = uid
    /\ schema.holds_team_role (db w') (AuthUser uid) (Team.id team) "owner"
    /\ In team (TeamViewSet.get_queryset (db w') uid)
    /\ (forall request_data,
          IsAuthenticatedAndTeamAdmin.has_permission int_of_str (db w') (AuthUser uid)
            [("team_pk", py.PyInt (Team.id team))] request_data = true)
    /\ exists log, In log (ActivityLogViewSet.get_queryset (db w') uid)
                   /\ ActivityLog.event_type log = "team_created".
Proof.
  intros Hu Hfk Hf.
  destruct (Team_objects_create_returns data uid w Hu) as (w1 & Hteam & Hdb1 & Hf1 & _).
  set (team := {| Team.id := next_pk (map Team.id (teams (db w))); Team.name := name data;
                  Team.description := match description data with Some v => v | None => "" end;
                  Team.created_by_id := uid; Team.created_at := clock (tick w);
                  Team.updated_at := clock (tick (tick w)) |}) in *.
  assert (Hnm : is_team_member (db w1) (Team.id team) uid = false).
  { rewrite Hdb1. apply (fresh_team_has_no_member (db w) uid Hfk). }
  assert (Hex : exists_ (filter (fun t => Team.id t =? Team.id team) (teams (db w1))) = true).
  { rewrite Hdb1. apply exists_filter_true. exists team. split.
    - simpl. apply in_or_app. right. now left.
    - apply Z.eqb_refl. }
  destruct (TeamMembership_objects_create_returns (Team.id team) uid
              TeamMembership.Role.OWNER w1 Hnm Hex)
    as (row & w2 & Hrow & Hdb2 & Hf2 & Hr1 & Hr2 & Hr3).
  destruct (create_activity_log_inserts
              {| actor := AuthUser uid;
                 event_type := ActivityLog.EventType.TEAM_CREATED;
                 message := "Team created: " ++ Team.name team;
                 team := Some (Team.id team); project := None; task := None;
                 metadata := None |} w2)
    as (log & w3 & Hlog & Hdb3 & Hf3 & Hl1 & Hl2).
  { now rewrite Hf2, Hf1. }
  assert (Hbody :
            (created_by <- require_user (AuthUser uid);;
             team0 <- TeamViewSet.Team_objects_create data created_by;;
             views.TeamViewSet.TeamMembership_objects_create (Team.id team0) created_by
               TeamMembership.Role.OWNER;;;
             call_create_activity_log
               [("actor", AUser (AuthUser uid));
                ("event_type", AStr ActivityLog.EventType.TEAM_CREATED);
                ("team", ATeam (Team.id team0));
                ("message", AStr ("Team created: " ++ Team.name team0))];;;
             ret team0) w = (Return team, w3)).
  { rewrite (bind_returns _ _ w w uid eq_refl).
    rewrite (bind_returns _ _ _ _ _ Hteam).
    rewrite (bind_returns _ _ _ _ _ Hrow).
    unfold bind at 1.
    change (call_create_activity_log _ w2)
      with (create_activity_log
              {| actor := AuthUser uid;
                 event_type := ActivityLog.EventType.TEAM_CREATED;
                 message := "Team created: " ++ Team.name team;
                 team := Some (Team.id team); project := None; task := None;
                 metadata := None |} w2).
    now rewrite Hlog. }
  exists team, w3. unfold TeamViewSet.perform_create, atomic. rewrite Hbody.
  rewrite no_save_failed; [|exact Hf|now rewrite Hf3, Hf2, Hf1].
  assert (Hteams : teams (db w3) = (teams (db w) ++ [team])%list)
    by now rewrite Hdb3, Hdb2, Hdb1.
  assert (Htms : team_memberships (db w3) = (team_memberships (db w) ++ [row])%list)
    by now rewrite Hdb3, Hdb2, Hdb1.
  assert (Hmem : is_team_member (db w3) (Team.id team) uid = true).
  { unfold is_team_member. apply exists_filter_true. exists row. split.
    - rewrite Htms. apply in_or_app. right. now left.
    - rewrite Hr1, Hr2, !Z.eqb_refl. reflexivity. }
  assert (Hfilter : filter (fun m => (TeamMembership.team_id m =? Team.id team)
                                     && (TeamMembership.user_id m =? uid))
                           (team_memberships (db w3)) = [row]).
  { rewrite Htms, filter_app. simpl. rewrite Hr1, Hr2, !Z.eqb_refl. simpl.
    replace (filter _ (team_memberships (db w))) with (@nil TeamMembership.t);
      [reflexivity|].
    symmetry. pose proof (fresh_team_has_no_member (db w) uid Hfk) as Hno.
    unfold is_team_member in Hno.
    destruct (filter _ (team_memberships (db w))) eqn:E; [reflexivity|discriminate]. }
  split; [reflexivity|]. split; [exact Hteams|]. split; [reflexivity|].
  split; [reflexivity|]. split.
  { exists row. split; [rewrite Htms; apply in_or_app; right; now left|].
    rewrite Hr2. auto. }
  split.
  { unfold TeamViewSet.get_queryset. apply filter_In. split; [|exact Hmem].
    rewrite Hteams. apply in_or_app. right. now left. }
  split.
  { intros request_data. rewrite team_admin_resolves.
    - unfold _team_membership, role_in. rewrite Hfilter. simpl. now rewrite Hr3.
    - pose proof (next_pk_positive (map Team.id (teams (db w)))). simpl. lia. }
  exists log. split; [|rewrite Hl2; reflexivity].
  unfold ActivityLogViewSet.get_queryset. apply filter_In. split.
  - rewrite Hdb3. simpl. apply in_or_app. right. now left.
  - rewrite Hl1. cbv beta iota. cbn [team]. apply andb_true_iff. split; [|exact Hmem].
    apply exists_filter_true. exists team. split; [|apply Z.eqb_refl].
    rewrite Hteams. apply in_or_app. right. now left.
Qed.

Lemma sample_team_membership_team_fk (tasks : list Task.t) :
  team_membership_team_fk (sample_more.store tasks).
Proof.
  intros m Hm. exists sample.team1. split; [now left|].
  simpl in Hm. now destruct Hm as [<-|[<-|[<-|[<-|[]]]]].
Qed.

Lemma team_creation_makes_the_creator_owner_witness :
  exists team w',
    TeamViewSet.perform_create (AuthUser 5) sample_more.new_team
      (sample_more.world [] [])
    = (Return team, w')
    /\ teams (db w') = (teams (db (sample_more.world [] [])) ++ [team])%list
    /\ Team.name team = name sample_more.new_team
    /\ Team.created_by_id team = 5
    /\ schema.holds_team_role (db w') (AuthUser 5) (Team.id team) "owner"
    /\ In team (TeamViewSet.get_queryset (db w') 5)
    /\ (forall request_data,
          IsAuthenticatedAndTeamAdmin.has_permission sample.int_of_str (db w')
            (AuthUser 5) [("team_pk", py.PyInt (Team.id team))] request_data = true)
    /\ exists log, In log (ActivityLogViewSet.get_queryset (db w') 5)
                   /\ ActivityLog.event_type log = "team_created".
Proof.
  apply (team_creation_makes_the_creator_owner sample.int_of_str 5
           sample_more.new_team (sample_more.world [] [])).
  - reflexivity.
  - apply sample_team_membership_team_fk.
  - exact I.
Defined.

Lemma create_activity_log_fault (p : params) (w : World) (e : py.exn)
    (rest : list (option py.exn)) :
  log_faults w = Some e :: rest ->
  py.isinstance_Exception e = true ->
  exists row w1,
    create_activity_log p w = (Return row, w1)
    /\ db w1 = db w /\ writes w1 = writes w /\ log_faults w1 = rest.
Proof.
  intros Hf He.
  unfold create_activity_log, try_except, ActivityLog_objects_create, bind, now.
  simpl. rewrite Hf, He. simpl.
  eexists. eexists. split; [reflexivity|]. simpl. auto.
Qed.

(** X19.  When the insert of the log row fails in the database, the
    creation of a team still returns the team, as the logger swallows the
    error, and the transaction, marked for rollback by the failed insert,
    is rolled back when the block ends: the database and the recorded
    writes are as they were, neither the team nor the owner membership is
    stored. *)
Theorem team_creation_is_lost_when_the_audit_insert_fails (uid : Z)
    (data : NamedData) (w : World) (e : py.exn) (rest : list (option py.exn)) :
  user_exists (db w) uid = true ->
  team_membership_team_fk (db w) ->
  log_faults w = Some e :: rest ->
  e = py.IntegrityError \/ (exists msg, e = py.DatabaseError msg) ->
  exists team w',
    TeamViewSet.perform_create (AuthUser uid) data w = (Return team, w')
    /\ Team.name team = name data
    /\ Team.created_by_id team = uid
    /\ db w' = db w
    /\ writes w' = writes w.
Proof.
  intros Hu Hfk Hf Hdb.
  assert (He : py.isinstance_Exception e = true)
    by (destruct Hdb as [->|[msg ->]]; reflexivity).
  destruct (Team_objects_create_returns data uid w Hu) as (w1 & Hteam & Hdb1 & Hf1 & Hw1).
  set (team := {| Team.id := next_pk (map Team.id (teams (db w))); Team.name := name data;
                  Team.description := match description data with Some v => v | None => "" end;
                  Team.created_by_id := uid; Team.created_at := clock (tick w);
                  Team.updated_at := clock (tick (tick w)) |}) in *.
  assert (Hnm : is_team_member (db w1) (Team.id team) uid = false).
  { rewrite Hdb1. apply (fresh_team_has_no_member (db w) uid Hfk). }
  assert (Hex : exists_ (filter (fun t => Team.id t =? Team.id team) (teams (db w1))) = true).
  { rewrite Hdb1. apply exists_filter_true. exists team. split.
    - simpl. apply in_or_app. right. now left.
    - apply Z.eqb_refl. }
  destruct (TeamMembership_objects_create_returns (Team.id team) uid
              TeamMembership.Role.OWNER w1 Hnm Hex)
    as (row & w2 & Hrow & Hdb2 & Hf2 & _).
  destruct (create_activity_log_fault
              {| actor := AuthUser uid;
                 event_type := ActivityLog.EventType.TEAM_CREATED;
                 message := "Team created: " ++ Team.name team;
                 team := Some (Team.id team); project := None; task := None;
                 metadata := None |} w2 e rest)
    as (log & w3 & Hlog & Hdb3 & Hw3 & Hf3); [now rewrite Hf2, Hf1|exact He|].
  assert (Hbody :
            (created_by <- require_user (AuthUser uid);;
             team0 <- TeamViewSet.Team_objects_create data created_by;;
             views.TeamViewSet.TeamMembership_objects_create (Team.id team0) created_by
               TeamMembership.Role.OWNER;;;
             call_create_activity_log
               [("actor", AUser (AuthUser uid));
                ("event_type", AStr ActivityLog.EventType.TEAM_CREATED);
                ("team", ATeam (Team.id team0));
                ("message", AStr ("Team created: " ++ Team.name team0))];;;
             ret team0) w = (Return team, w3)).
  { rewrite (bind_returns _ _ w w uid eq_refl).
    rewrite (bind_returns _ _ _ _ _ Hteam).
    rewrite (bind_returns _ _ _ _ _ Hrow).
    unfold bind at 1.
    change (call_create_activity_log _ w2)
      with (create_activity_log
              {| actor := AuthUser uid;
                 event_type := ActivityLog.EventType.TEAM_CREATED;
                 message := "Team created: " ++ Team.name team;
                 team := Some (Team.id team); project := None; task := None;
                 metadata := None |} w2).
    now rewrite Hlog. }
  exists team, (rollback w w3). unfold TeamViewSet.perform_create, atomic.
  rewrite Hbody.
  assert (Hfailed : save_failed_inside w w3 = true).
  { unfold save_failed_inside. rewrite Hf3, Hf. cbn [List.length].
    replace (S (List.length rest) - List.length rest)%nat with 1%nat by lia.
    reflexivity. }
  rewrite Hfailed. auto.
Qed.

Lemma team_creation_is_lost_when_the_audit_insert_fails_witness :
  exists team w',
    TeamViewSet.perform_create (AuthUser 5) sample_more.new_team
      (sample_more.world [] [Some sample_more.locked])
    = (Return team, w')
    /\ Team.name team = name sample_more.new_team
    /\ Team.created_by_id team = 5
    /\ db w' = db (sample_more.world [] [Some sample_more.locked])
    /\ writes w' = writes (sample_more.world [] [Some sample_more.locked]).
Proof.
  apply (team_creation_is_lost_when_the_audit_insert_fails 5 sample_more.new_team
           (sample_more.world [] [Some sample_more.locked]) sample_more.locked []).
  - reflexivity.
  - apply sample_team_membership_team_fk.
  - reflexivity.
  - right. exists "database is locked". reflexivity.
Defined.

(** The rules of the heuristic endpoints *)

(** X20.  Whatever the text, the due date, the status and the time, the
    priority the rules of [priority_suggest] arrive at lies between LOW
    and URGENT, and it is LOW exactly when the status is done. *)
Theorem suggested_priority_range (text : string) (due : option datetime)
    (status_val : string) (now : datetime) :
  Task.Priority.LOW <= fst (AIViewSet.suggest text due status_val now)
                    <= Task.Priority.URGENT
  /\ (fst (AIViewSet.suggest text due status_val now) = Task.Priority.LOW
      <-> AIViewSet.str_in status_val [Task.Status.DONE; "done"] = true).
Proof.
  unfold AIViewSet.suggest.
  destruct (AIViewSet.str_in status_val [Task.Status.DONE; "done"]);
    destruct (AIViewSet.str_in status_val [Task.Status.BLOCKED; "blocked"]);
    destruct (py.any_in AIViewSet.urgent_keywords text);
    destruct (py.any_in AIViewSet.high_keywords text);
    destruct due as [d|];
    try destruct (d - now <=? timedelta_days 1);
    try destruct (d - now <=? timedelta_days 3);
    try destruct (d - now <=? timedelta_days 7);
    cbv [Task.Priority.LOW Task.Priority.MEDIUM Task.Priority.HIGH
         Task.Priority.URGENT fst Z.max Z.compare Pos.compare Pos.compare_cont];
    (split; [lia|split; (discriminate || (intros; reflexivity))]).
Qed.

(** X21.  For a task that is not done the suggestion is at least MEDIUM;
    it is URGENT when the text has an urgency keyword or the task is due
    within a day (overdue included), and at least HIGH when the text has a
    high-impact keyword, the task is blocked, or it is due within three
    days. *)
Theorem open_task_priority_floors (text : string) (due : option datetime)
    (status_val : string) (now : datetime) :
  AIViewSet.str_in status_val [Task.Status.DONE; "done"] = false ->
  let p := fst (AIViewSet.suggest text due status_val now) in
  (py.any_in AIViewSet.urgent_keywords text = true -> p = Task.Priority.URGENT)
  /\ (py.any_in AIViewSet.high_keywords text = true -> Task.Priority.HIGH <= p)
  /\ (AIViewSet.str_in status_val [Task.Status.BLOCKED; "blocked"] = true ->
      Task.Priority.HIGH <= p)
  /\ (forall d, due = Some d -> d - now <= timedelta_days 1 ->
      p = Task.Priority.URGENT)
  /\ (forall d, due = Some d -> d - now <= timedelta_days 3 ->
      Task.Priority.HIGH <= p)
  /\ Task.Priority.MEDIUM <= p.
Proof.
  intros Hdone p. subst p. unfold AIViewSet.suggest. rewrite Hdone.
  destruct (AIViewSet.str_in status_val [Task.Status.BLOCKED; "blocked"]);
    destruct (py.any_in AIViewSet.urgent_keywords text);
    destruct (py.any_in AIViewSet.high_keywords text);
    destruct due as [d|];
    try destruct (Z.leb_spec (d - now) (timedelta_days 1));
    try destruct (Z.leb_spec (d - now) (timedelta_days 3));
    try destruct (Z.leb_spec (d - now) (timedelta_days 7));
    cbn [fst snd];
    repeat split; try discriminate; try reflexivity;
    try (intros; unfold Task.Priority.URGENT, Task.Priority.HIGH, Task.Priority.MEDIUM; cbn; lia);
    try (intros d' [= <-] Hd; unfold timedelta_days in *; cbn; lia).
Qed.

Lemma open_task_priority_floors_witness :
  (py.any_in AIViewSet.urgent_keywords "fix the login page" = true ->
   fst (AIViewSet.suggest "fix the login page" (Some 5000) "blocked" 4000)
   = Task.Priority.URGENT)
  /\ (py.any_in AIViewSet.high_keywords "fix the login page" = true ->
      Task.Priority.HIGH
      <= fst (AIViewSet.suggest "fix the login page" (Some 5000) "blocked" 4000))
  /\ (AIViewSet.str_in "blocked" [Task.Status.BLOCKED; "blocked"] = true ->
      Task.Priority.HIGH
      <= fst (AIViewSet.suggest "fix the login page" (Some 5000) "blocked" 4000))
  /\ (forall d, Some 5000 = Some d -> d - 4000 <= timedelta_days 1 ->
      fst (AIViewSet.suggest "fix the login page" (Some 5000) "blocked" 4000)
      = Task.Priority.URGENT)
  /\ (forall d, Some 5000 = Some d -> d - 4000 <= timedelta_days 3 ->
      Task.Priority.HIGH
      <= fst (AIViewSet.suggest "fix the login page" (Some 5000) "blocked" 4000))
  /\ Task.Priority.MEDIUM
     <= fst (AIViewSet.suggest "fix the login page" (Some 5000) "blocked" 4000).
Proof.
  apply (open_task_priority_floors "fix the login page" (Some 5000) "blocked" 4000).
  reflexivity.
Defined.

(** X22.  The rationale of [priority_suggest] has no part, so that the
    response carries the default sentence, exactly when no rule fired: the
    text has no keyword of either list, the task has no due date or one
    more than seven days ahead, and the status is neither blocked nor
    done. *)
Theorem no_rule_fired_iff_no_rationale (text : string) (due : option datetime)
    (status_val : string) (now : datetime) :
  snd (AIViewSet.suggest text due status_val now) = []
  <-> (py.any_in AIViewSet.urgent_keywords text = false
       /\ py.any_in AIViewSet.high_keywords text = false
       /\ (forall d, due = Some d -> timedelta_days 7 < d - now)
       /\ AIViewSet.str_in status_val [Task.Status.BLOCKED; "blocked"] = false
       /\ AIViewSet.str_in status_val [Task.Status.DONE; "done"] = false).
Proof.
  unfold AIViewSet.suggest.
  destruct (AIViewSet.str_in status_val [Task.Status.DONE; "done"]);
    destruct (AIViewSet.str_in status_val [Task.Status.BLOCKED; "blocked"]);
    destruct (py.any_in AIViewSet.urgent_keywords text);
    destruct (py.any_in AIViewSet.high_keywords text);
    destruct due as [d|];
    try destruct (Z.leb_spec (d - now) (timedelta_days 1));
    try destruct (Z.leb_spec (d - now) (timedelta_days 3));
    try destruct (Z.leb_spec (d - now) (timedelta_days 7));
    cbn [fst snd app];
    (split; [try discriminate; intros _; repeat split; try reflexivity;
             try (intros d' [= <-]; assumption); discriminate
            |intros (Ka & Kb & Kc & Kd & Ke); try discriminate; try reflexivity;
             try (specialize (Kc _ eq_refl); unfold timedelta_days in *; lia)]).
Qed.

(** X23.  The score of [delay_risk] always lies between 0 and 1.  For a
    task that is done it is at most 0.45 and the level is never "high";
    for any other task it is at least the baseline 0.15. *)
Theorem risk_score_bounds (has_assignee : bool) (status_val : string)
    (priority_val : Z) (due : option datetime) (now : datetime) :
  let risk := AIViewSet.score has_assignee status_val priority_val due now in
  PrimFloat.leb 0 risk = true /\ PrimFloat.leb risk 1 = true
  /\ (if AIViewSet.str_in status_val [Task.Status.DONE; "done"]
      then PrimFloat.leb risk 0.45 = true /\ AIViewSet.level_of risk <> "high"
      else PrimFloat.leb 0.15 risk = true).
Proof.
  unfold AIViewSet.score.
  destruct has_assignee;
    destruct (AIViewSet.str_in status_val [Task.Status.TODO; "todo"]);
    destruct (AIViewSet.str_in status_val [Task.Status.BLOCKED; "blocked"]);
    destruct (AIViewSet.str_in status_val [Task.Status.DONE; "done"]);
    destruct (AIViewSet.int_in priority_val [Task.Priority.URGENT; Task.Priority.HIGH]);
    destruct due as [d|];
    try destruct (d - now <? 0);
    try destruct (d - now <=? timedelta_days 1);
    try destruct (d - now <=? timedelta_days 3);
    try destruct (d - now <=? timedelta_days 7);
    vm_compute; repeat split; discriminate.
Qed.

(** X24.  All else equal, the score of [delay_risk] for a task is never
    below the score of the same task with an assignee, and never below the
    score of the same task without due date. *)
Theorem risk_never_drops_without_assignee_or_with_due_date (has_assignee : bool)
    (status_val : string) (priority_val : Z) (due : option datetime)
    (now : datetime) :
  PrimFloat.leb (AIViewSet.score true status_val priority_val due now)
                (AIViewSet.score has_assignee status_val priority_val due now) = true
  /\ PrimFloat.leb (AIViewSet.score has_assignee status_val priority_val None now)
                   (AIViewSet.score has_assignee status_val priority_val due now) = true.
Proof.
  unfold AIViewSet.score.
  destruct has_assignee;
    destruct (AIViewSet.str_in status_val [Task.Status.TODO; "todo"]);
    destruct (AIViewSet.str_in status_val [Task.Status.BLOCKED; "blocked"]);
    destruct (AIViewSet.str_in status_val [Task.Status.DONE; "done"]);
    destruct (AIViewSet.int_in priority_val [Task.Priority.URGENT; Task.Priority.HIGH]);
    destruct due as [d|];
    try destruct (d - now <? 0);
    try destruct (d - now <=? timedelta_days 1);
    try destruct (d - now <=? timedelta_days 3);
    try destruct (d - now <=? timedelta_days 7);
    vm_compute; split; reflexivity.
Qed.

Lemma first_flat_map {A B} (f : A -> list B) (l : list A) (y : B) :
  first (flat_map f l) = Some y -> exists x, In x l /\ In y (f x).
Proof.
  intros H. apply in_flat_map. destruct (flat_map f l); [discriminate|].
  injection H as ->. now left.
Qed.

Lemma _get_task_for_user_inv (uid task_id : Z) (w : World) r w' :
  AIViewSet._get_task_for_user (AuthUser uid) task_id w = (r, w') ->
  w' = w
  /\ match r with
     | Return (task, project) =>
         In task (tasks (db w)) /\ Task.id task = task_id
         /\ In project (projects (db w))
         /\ Project.id project = Task.project_id task
         /\ is_project_member (db w) (Project.id project) uid = true
     | Raise e =>
         e = py.ValidationError "task_id" "Task not found."
         \/ e = py.PermissionDenied
                  "You must be a project member to use AI features on this task."
     end.
Proof.
  unfold AIViewSet._get_task_for_user.
  destruct (first _) as [[task project]|] eqn:E.
  - destruct (is_project_member _ _ _) eqn:Hm; cbn [negb]; intros [= <- <-];
      (split; [reflexivity|]); [|now right].
    apply first_flat_map in E as (t & Ht & Hin).
    apply filter_In in Ht as [Ht Hid%Z.eqb_eq].
    unfold AIViewSet.select_related in Hin.
    apply in_flat_map in Hin as (p & Hp & Hin).
    apply filter_In in Hp as [Hp Hpid%Z.eqb_eq].
    destruct (exists_ _); [|contradiction].
    destruct Hin as [[= <- <-]|[]]. auto.
  - intros [= <- <-]. split; [reflexivity|now left].
Qed.

(** X25.  When the user is no member of the project of any task with the
    id of the request, both heuristic endpoints refuse, with "Task not
    found." or with the permission error, and leave the world as it was:
    no log row is written and the clock is not read. *)
Theorem ai_endpoints_answer_project_members_only (str_lower : string -> string)
    (uid : Z) (ps : AIPrioritySuggestRequest) (dr : AIDelayRiskRequest)
    (w : World) :
  (forall t, In t (tasks (db w)) ->
             Task.id t = ps_task_id ps \/ Task.id t = dr_task_id dr ->
             is_project_member (db w) (Task.project_id t) uid = false) ->
  (exists e,
      AIViewSet.priority_suggest str_lower (AuthUser uid) ps w = (Raise e, w)
      /\ (e = py.ValidationError "task_id" "Task not found."
          \/ e = py.PermissionDenied
                   "You must be a project member to use AI features on this task."))
  /\ (exists e,
         AIViewSet.delay_risk str_lower (AuthUser uid) dr w = (Raise e, w)
         /\ (e = py.ValidationError "task_id" "Task not found."
             \/ e = py.PermissionDenied
                      "You must be a project member to use AI features on this task.")).
Proof.
  intros Hno.
  assert (Hget : forall task_id,
             task_id = ps_task_id ps \/ task_id = dr_task_id dr -> exists e,
             AIViewSet._get_task_for_user (AuthUser uid) task_id w = (Raise e, w)
             /\ (e = py.ValidationError "task_id" "Task not found."
                 \/ e = py.PermissionDenied
                          "You must be a project member to use AI features on this task.")).
  { intros task_id Hid.
    destruct (AIViewSet._get_task_for_user (AuthUser uid) task_id w) as [r w'] eqn:E.
    destruct (_get_task_for_user_inv _ _ _ _ _ E) as [-> Hr].
    destruct r as [[task project]|e].
    - destruct Hr as (Ht & Htid & _ & Hp & Hm).
      rewrite Hp, (Hno _ Ht) in Hm; [discriminate|now rewrite Htid].
    - exists e. auto. }
  split.
  - destruct (Hget (ps_task_id ps)) as (e & E & He); [now left|]. exists e. split; [|exact He].
    unfold AIViewSet.priority_suggest, bind. now rewrite E.
  - destruct (Hget (dr_task_id dr)) as (e & E & He); [now right|]. exists e. split; [|exact He].
    unfold AIViewSet.delay_risk, bind. now rewrite E.
Qed.

Lemma ai_endpoints_answer_project_members_only_witness :
  (exists e,
      AIViewSet.priority_suggest sample.str_lower (AuthUser 2)
        (sample.ps_request None None None) (sample.world [sample.todo_task] [])
      = (Raise e, sample.world [sample.todo_task] [])
      /\ (e = py.ValidationError "task_id" "Task not found."
          \/ e = py.PermissionDenied
                   "You must be a project member to use AI features on this task."))
  /\ (exists e,
         AIViewSet.delay_risk sample.str_lower (AuthUser 2)
           (sample.dr_request None None None None)
           (sample.world [sample.todo_task] [])
         = (Raise e, sample.world [sample.todo_task] [])
         /\ (e = py.ValidationError "task_id" "Task not found."
             \/ e = py.PermissionDenied
                      "You must be a project member to use AI features on this task.")).
Proof.
  apply (ai_endpoints_answer_project_members_only sample.str_lower 2
           (sample.ps_request None None None) (sample.dr_request None None None None)
           (sample.world [sample.todo_task] [])).
  intros t [<-|[]] _. reflexivity.
Defined.

Lemma _get_task_for_user_returns (uid : Z) (w : World) (task : Task.t)
    (project : Project.t) :
  task_pk_unique (db w) -> schema.project_pk_unique (db w) ->
  In task (tasks (db w)) ->
  In project (projects (db w)) -> Project.id project = Task.project_id task ->
  exists_ (filter (fun tm => Team.id tm =? Project.team_id project) (teams (db w))) = true ->
  is_project_member (db w) (Project.id project) uid = true ->
  AIViewSet._get_task_for_user (AuthUser uid) (Task.id task) w
  = (Return (task, project), w).
Proof.
  intros Ht Hp Hin Hpin Hpid Hteam Hmem.
  unfold AIViewSet._get_task_for_user.
  destruct (first_filter_In (fun t => Task.id t =? Task.id task) _ task Hin)
    as [t0 E0]; [apply Z.eqb_refl|].
  pose proof (first_filter_Some _ _ _ E0) as [Hin0 Hid0%Z.eqb_eq].
  assert (t0 = task) as -> by (apply Ht; assumption).
  destruct (filter (fun t => Task.id t =? Task.id task) (tasks (db w)))
    as [|t1 l1]; [discriminate|]. injection E0 as ->.
  cbn [flat_map]. unfold AIViewSet.select_related at 1.
  destruct (first_filter_In (fun p => Project.id p =? Task.project_id task) _ project Hpin)
    as [p0 E1]; [now apply Z.eqb_eq|].
  pose proof (first_filter_Some _ _ _ E1) as [Hin1 Hid1%Z.eqb_eq].
  assert (p0 = project) as -> by (apply Hp; congruence).
  destruct (filter (fun p => Project.id p =? Task.project_id task) (projects (db w)))
    as [|p1 l2]; [discriminate|]. injection E1 as ->.
  cbn [flat_map]. rewrite Hteam. cbn [app first hd_error].
  now rewrite Hmem.
Qed.

(** X26.  For a member of the project of the task, and whatever failures of
    class [Exception] the insert of the log row meets, both heuristic
    endpoints return a response: the priority is the one the rules give
    for the effective title, description, due date and status at the time
    the clock is read, the score and the level are the ones of the
    effective inputs, and the task table is unchanged, so the suggestion
    is reported and not applied. *)
Theorem ai_endpoints_report_and_change_no_task (str_lower : string -> string)
    (uid : Z) (ps : AIPrioritySuggestRequest) (dr : AIDelayRiskRequest)
    (w : World) (task : Task.t) (project : Project.t) :
  task_pk_unique (db w) -> schema.project_pk_unique (db w) ->
  In task (tasks (db w)) ->
  In project (projects (db w)) -> Project.id project = Task.project_id task ->
  exists_ (filter (fun tm => Team.id tm =? Project.team_id project) (teams (db w))) = true ->
  is_project_member (db w) (Project.id project) uid = true ->
  ps_task_id ps = Task.id task -> dr_task_id dr = Task.id task ->
  faults_are_exceptions w ->
  (exists r w',
      AIViewSet.priority_suggest str_lower (AuthUser uid) ps w = (Return r, w')
      /\ suggested_priority r
         = fst (AIViewSet.suggest
                  (str_lower (AIViewSet.ps_title_val ps task ++ AIViewSet.newline
                              ++ AIViewSet.ps_description_val ps task))
                  (AIViewSet.ps_due ps task)
                  (AIViewSet.ps_status_val str_lower ps task) (clock (tick w)))
      /\ tasks (db w') = tasks (db w))
  /\ (exists r w',
         AIViewSet.delay_risk str_lower (AuthUser uid) dr w = (Return r, w')
         /\ risk_score r
            = AIViewSet.score (AIViewSet.dr_has_assignee_val dr task)
                (AIViewSet.dr_status_val str_lower dr task)
                (AIViewSet.dr_priority_val dr task) (AIViewSet.dr_due dr task)
                (clock (tick w))
         /\ risk_level r = AIViewSet.level_of (risk_score r)
         /\ tasks (db w') = tasks (db w)).
Proof.
  intros Ht Hp Hin Hpin Hpid Hteam Hmem Hps Hdr Hf.
  pose proof (_get_task_for_user_returns uid w task project Ht Hp Hin Hpin Hpid Hteam Hmem)
    as Hget.
  assert (Hf' : faults_are_exceptions (tick w)) by exact Hf.
  split.
  - unfold AIViewSet.priority_suggest. rewrite Hps.
    rewrite (bind_returns _ _ _ _ _ Hget).
    rewrite (bind_returns now _ w (tick w) (clock (tick w)) eq_refl).
    destruct (AIViewSet.suggest _ _ _ _) as [suggested parts] eqn:Es.
    match goal with
    | |- context [call_create_activity_log ?kw] =>
        destruct (call_returns kw
                    {| actor := AuthUser uid;
                       event_type := ActivityLog.EventType.AI_PRIORITY_SUGGESTED;
                       message := "AI suggested priority";
                       team := Some (Project.team_id project);
                       project := Some (Project.id project);
                       task := Some (Task.id task);
                       metadata := Some [("suggested_priority", JInt suggested)] |}
                    (tick w) (fun _ => eq_refl) Hf')
          as (ev & w1 & Hcall & _ & Htasks)
    end.
    rewrite (bind_returns _ _ _ _ _ Hcall).
    eexists. eexists. split; [reflexivity|]. cbn [suggested_priority fst].
    split; [reflexivity|exact Htasks].
  - unfold AIViewSet.delay_risk. rewrite Hdr.
    rewrite (bind_returns _ _ _ _ _ Hget).
    rewrite (bind_returns now _ w (tick w) (clock (tick w)) eq_refl).
    match goal with
    | |- context [call_create_activity_log ?kw] =>
        destruct (call_returns kw
                    {| actor := AuthUser uid;
                       event_type := ActivityLog.EventType.AI_DELAY_RISK_PREDICTED;
                       message := "AI predicted delay risk";
                       team := Some (Project.team_id project);
                       project := Some (Project.id project);
                       task := Some (Task.id task);
                       metadata := Some
                         [("risk_score",
                           JFloat (AIViewSet.score (AIViewSet.dr_has_assignee_val dr task)
                                     (AIViewSet.dr_status_val str_lower dr task)
                                     (AIViewSet.dr_priority_val dr task)
                                     (AIViewSet.dr_due dr task) (clock (tick w))));
                          ("risk_level",
                           JStr (AIViewSet.level_of
                                   (AIViewSet.score (AIViewSet.dr_has_assignee_val dr task)
                                     (AIViewSet.dr_status_val str_lower dr task)
                                     (AIViewSet.dr_priority_val dr task)
                                     (AIViewSet.dr_due dr task) (clock (tick w)))))] |}
                    (tick w) (fun _ => eq_refl) Hf')
          as (ev & w1 & Hcall & _ & Htasks)
    end.
    rewrite (bind_returns _ _ _ _ _ Hcall).
    eexists. eexists. split; [reflexivity|]. cbn [risk_score risk_level].
    repeat split; exact Htasks.
Qed.

Lemma sample_project_pk_unique (tasks : list Task.t) (faults : list (option py.exn)) :
  schema.project_pk_unique (db (sample.world tasks faults)).
Proof. intros p1 p2 [<-|[]] [<-|[]] _. reflexivity. Qed.

Lemma ai_endpoints_report_and_change_no_task_witness :
  (exists r w',
      AIViewSet.priority_suggest sample.str_lower (AuthUser 3)
        (sample.ps_request None None None)
        (sample.world [sample.todo_task] [Some sample_more.locked])
      = (Return r, w')
      /\ suggested_priority r
         = fst (AIViewSet.suggest
                  (sample.str_lower
                     (AIViewSet.ps_title_val (sample.ps_request None None None)
                        sample.todo_task
                      ++ AIViewSet.newline
                      ++ AIViewSet.ps_description_val (sample.ps_request None None None)
                           sample.todo_task))
                  (AIViewSet.ps_due (sample.ps_request None None None) sample.todo_task)
                  (AIViewSet.ps_status_val sample.str_lower
                     (sample.ps_request None None None) sample.todo_task)
                  (clock (tick (sample.world [sample.todo_task]
                                  [Some sample_more.locked]))))
      /\ tasks (db w')
         = tasks (db (sample.world [sample.todo_task] [Some sample_more.locked])))
  /\ (exists r w',
         AIViewSet.delay_risk sample.str_lower (AuthUser 3)
           (sample.dr_request None None None None)
           (sample.world [sample.todo_task] [Some sample_more.locked])
         = (Return r, w')
         /\ risk_score r
            = AIViewSet.score
                (AIViewSet.dr_has_assignee_val (sample.dr_request None None None None)
                   sample.todo_task)
                (AIViewSet.dr_status_val sample.str_lower
                   (sample.dr_request None None None None) sample.todo_task)
                (AIViewSet.dr_priority_val (sample.dr_request None None None None)
                   sample.todo_task)
                (AIViewSet.dr_due (sample.dr_request None None None None)
                   sample.todo_task)
                (clock (tick (sample.world [sample.todo_task]
                                [Some sample_more.locked])))
         /\ risk_level r = AIViewSet.level_of (risk_score r)
         /\ tasks (db w')
            = tasks (db (sample.world [sample.todo_task] [Some sample_more.locked]))).
Proof.
  apply (ai_endpoints_report_and_change_no_task sample.str_lower 3
           (sample.ps_request None None None) (sample.dr_request None None None None)
           (sample.world [sample.todo_task] [Some sample_more.locked])
           sample.todo_task sample.project1).
  - apply single_task_pk_unique.
  - apply sample_project_pk_unique.
  - now left.
  - now left.
  - reflexivity.
  - reflexivity.
  - reflexivity.
  - reflexivity.
  - reflexivity.
  - repeat constructor.
Defined.
